(** * best-of-generator: the project enrichment and ranking pipeline

    A shallow embedding of [best_of/projects_collection.py] and
    [best_of/license.py], followed by the properties of the merge rules, the
    filters, the duplicate detection, the percentile tiers and the category
    buckets.

    Conventions of the embedding.
    - A project is an [addict.Dict]; reading a key that is missing yields an
      empty [Dict], which is falsy, and a key bound to [None] is falsy too.
      A field is therefore an [option]: [None] stands for "missing or null".
    - Python truthiness is the class [Truthy]: the empty string, the number
      zero, [False], the empty list and [None] are falsy.
    - A record whose only keys are bound to [None] is not told apart from
      the record without any key.
    - Strings are strings of bytes: [len] counts bytes and [str.lower] is
      modelled on ASCII letters, other bytes being left alone.
    - A date is a point on one time line together with the kind of the
      Python value that holds it: a [datetime] with a time zone, one
      without, or a [date]. Two dates order only when they are of the same
      kind; Python raises [TypeError] otherwise.
    - A [float64] is the rational number it stands for.
    - [logging] is a writer: every update returns the record together with
      the entries it logged.
    - The collaborators that are not part of the two modules (dateutil,
      urllib, [best_of.utils], the clock and the remote providers) are the
      fields of the classes [Externals] and [Providers]. *)

From Stdlib Require Import ZArith QArith List String Ascii Bool Lia.
From Stdlib Require Import Permutation DecimalString Sorted Qabs Lqa.
Import ListNotations.
Open Scope string_scope.
Open Scope Z_scope.

(** ** Python truthiness *)

Class Truthy (A : Type) : Type := truthy : A -> bool.

#[export] Instance Truthy_string : Truthy string :=
  fun s => match s with EmptyString => false | String _ _ => true end.

#[export] Instance Truthy_Z : Truthy Z := fun z => negb (z =? 0).

#[export] Instance Truthy_bool : Truthy bool := fun b => b.

#[export] Instance Truthy_list {A : Type} : Truthy (list A) :=
  fun l => match l with [] => false | _ :: _ => true end.

#[export] Instance Truthy_option {A : Type} `{Truthy A} : Truthy (option A) :=
  fun o => match o with Some a => truthy a | None => false end.

(** ** Strings *)

Definition lower_ascii (c : ascii) : ascii :=
  let n := nat_of_ascii c in
  if (andb (65 <=? n) (n <=? 90))%nat then ascii_of_nat (n + 32) else c.

Fixpoint lower (s : string) : string :=
  match s with
  | EmptyString => EmptyString
  | String c r => String (lower_ascii c) (lower r)
  end.

(** [needle in s] *)
Fixpoint contains (needle s : string) : bool :=
  if prefix needle s then true
  else match s with
       | EmptyString => false
       | String _ r => contains needle r
       end.

Fixpoint lstrip (c : ascii) (s : string) : string :=
  match s with
  | String a r => if Ascii.eqb a c then lstrip c r else s
  | EmptyString => EmptyString
  end.

Fixpoint rstrip (c : ascii) (s : string) : string :=
  match s with
  | EmptyString => EmptyString
  | String a r =>
      match rstrip c r with
      | EmptyString => if Ascii.eqb a c then EmptyString else String a EmptyString
      | r' => String a r'
      end
  end.

(** [s.strip(c)] for a one-character set *)
Definition strip (c : ascii) (s : string) : string := rstrip c (lstrip c s).

(** [s.split(c)] *)
Fixpoint split (c : ascii) (s : string) : list string :=
  match s with
  | EmptyString => [EmptyString]
  | String a r =>
      if Ascii.eqb a c then EmptyString :: split c r
      else match split c r with
           | w :: ws => String a w :: ws
           | [] => [String a EmptyString]
           end
  end.

(** [str(n)] of an integer *)
Definition str_of_Z (z : Z) : string := NilZero.string_of_int (Z.to_int z).

(** [str(x)] of a value that may be [None] *)
Definition str_of (o : option string) : string :=
  match o with Some s => s | None => "None" end.

Definition string_eqb_opt (a : option string) (b : string) : bool :=
  match a with Some s => String.eqb s b | None => false end.

(** [x in l] for a list or a set of strings *)
Definition mem (x : string) (l : list string) : bool :=
  existsb (String.eqb x) l.

(** ** Dates *)

(** The kind of a date: an offset-aware [datetime], an offset-naive one,
    or a [date] without a time of day. *)
Inductive kind : Type := Aware | Naive | Day.

Definition kind_eqb (a b : kind) : bool :=
  match a, b with
  | Aware, Aware | Naive, Naive | Day, Day => true
  | _, _ => false
  end.

Inductive datetime : Type := Datetime (instant : Z) (zone : kind).

Definition instant (d : datetime) : Z := match d with Datetime t _ => t end.

Definition zone (d : datetime) : kind := match d with Datetime _ k => k end.

(** [a < b]; [None] when Python raises [TypeError]: an offset-naive
    [datetime] does not order with an offset-aware one, nor a [date] with a
    [datetime]. *)
Definition dt_lt (a b : datetime) : option bool :=
  if kind_eqb (zone a) (zone b) then Some (instant a <? instant b) else None.

(** [a < b] is computed and holds. *)
Definition dt_ltb (a b : datetime) : bool :=
  match dt_lt a b with Some c => c | None => false end.

#[export] Instance Truthy_datetime : Truthy datetime := fun _ => true.

(** ** Logging *)

Inductive level : Type := INFO | WARNING.

Definition LogEntry : Type := (level * string)%type.

Definition Logged (A : Type) : Type := (A * list LogEntry)%type.

Definition ret {A : Type} (a : A) : Logged A := (a, []).

Definition bind {A B : Type} (m : Logged A) (k : A -> Logged B) : Logged B :=
  let (a, l1) := m in let (b, l2) := k a in (b, (l1 ++ l2)%list).

Definition log (lv : level) (msg : string) : Logged unit := (tt, [(lv, msg)]).

Declare Scope logged_scope.
Delimit Scope logged_scope with logged.
Notation "x <- m ;; k" := (bind m (fun x => k))
  (at level 61, m at next level, right associativity) : logged_scope.
Notation "m ;; k" := (bind m (fun _ => k))
  (at level 61, right associativity) : logged_scope.
Open Scope logged_scope.

Definition result {A : Type} (m : Logged A) : A := fst m.
Definition entries {A : Type} (m : Logged A) : list LogEntry := snd m.

(** ** The collaborators outside the two modules *)

Class Externals : Type := {
  (** [dateutil.parser.parse]; [None] when it raises *)
  parse : string -> option datetime;
  (** [urllib.parse.urlparse(url).path] *)
  urlparse_path : string -> string;
  (** [best_of.utils.simplify_str] *)
  simplify_str : string -> string;
  (** [best_of.utils.process_description] *)
  process_description : string -> string;
  (** [best_of.utils.diff_month] *)
  diff_month : datetime -> datetime -> Z;
  (** [datetime.now()] *)
  now : datetime;
  (** [numpy.percentile(a, q)] of an array of integers: a [float64], the
      value at the position [(n - 1) * q / 100] of the sorted data by
      linear interpolation, up to the rounding of the floating point
      computation *)
  np_percentile : list Z -> Z -> Q
}.

Definition MIN_PROJECT_DESC_LENGTH : Z := 10.
Definition DEFAULT_OTHERS_CATEGORY_ID : string := "others".

Definition len (s : string) : Z := Z.of_nat (String.length s).

(** ** license.py *)

Module License.
Record t : Type := mk {
  name : string;
  spdx_id : string;
  keywords : option (list string);
  url : string;
  warning : bool
}.
End License.

Definition licenses : list License.t := [
  License.mk "MIT" "MIT" None
    "https://tldrlegal.com/license/mit-license" false;
  License.mk "Apache-2.0" "Apache-2.0" (Some ["apache-2"; "apache-license-2.0"])
    "https://tldrlegal.com/license/apache-license-2.0-(apache-2.0)" false;
  License.mk "ISC" "ISC" None
    "https://tldrlegal.com/license/-isc-license" false;
  License.mk "BSD-3-Clause" "BSD-3-Clause" (Some ["bsd-3"])
    "https://tldrlegal.com/license/bsd-3-clause-license-(revised)" false;
  License.mk "GPL-3.0" "GPL-3.0" (Some ["gpl-3"])
    "https://tldrlegal.com/license/gnu-general-public-license-v3-(gpl-3)" true;
  License.mk "GPL-2.0" "GPL-2.0" (Some ["gpl-2"])
    "https://tldrlegal.com/license/gnu-general-public-license-v2" true;
  License.mk "MPL-2.0" "MPL-2.0" (Some ["mpl-2"])
    "https://tldrlegal.com/license/mozilla-public-license-2.0-(mpl-2)" false;
  License.mk "BSD-2-Clause" "BSD-2-Clause" (Some ["bsd-2"; "freebsd"])
    "https://tldrlegal.com/license/bsd-2-clause-license-(freebsd)" false;
  License.mk "LGPL-3.0" "LGPL-3.0" (Some ["lgpl-3"])
    "https://tldrlegal.com/license/gnu-lesser-general-public-license-v3-(lgpl-3)" true;
  License.mk "AGPL-3.0" "AGPL-3.0" (Some ["agpl-3"])
    "https://tldrlegal.com/license/gnu-affero-general-public-license-v3-(agpl-3.0)" true;
  License.mk "Unlicense" "Unlicense" None
    "https://tldrlegal.com/license/unlicense" false
].

(** A Python [dict] with string keys, newest binding first: [dict_set] is
    [d[k] = v] and [dict_get] reads the binding written last. *)
Definition dict (V : Type) : Type := list (string * V).

Definition dict_set {V : Type} (k : string) (v : V) (d : dict V) : dict V :=
  (k, v) :: d.

Fixpoint dict_get {V : Type} (k : string) (d : dict V) : option V :=
  match d with
  | [] => None
  | (k', v) :: r => if String.eqb k k' then Some v else dict_get k r
  end.

(** ** What the providers answer *)

(** A project of libraries.io ([Search().project]). *)
Module PackageInfo.
Record version : Type := mkVersion { published_at : option string }.
Record t : Type := mk {
  homepage : option string;
  repository_url : option string;
  package_manager_url : option string;
  name : string;
  normalized_licenses : list string;
  latest_release_published_at : option string;
  versions : list version;
  stars : option Z;
  forks : option Z;
  rank : option Z;
  description : option string
}.
End PackageInfo.

(** The [repository] object of the GitHub GraphQL answer. *)
Module GithubInfo.
Record license_info : Type := mkLicenseInfo { spdxId : option string }.
Record connection : Type := mkConnection { totalCount : option Z }.
Record t : Type := mk {
  url : option string;
  licenseInfo : option license_info;
  createdAt : option string;
  pushedAt : option string;
  forks : option connection;
  issues : option connection;
  stargazers : option connection;
  description : option string
}.
End GithubInfo.

(** A repository of libraries.io ([Search().repository]). *)
Module RepoInfo.
Record t : Type := mk {
  license : option string;
  created_at : option string;
  pushed_at : option string;
  rank : option Z;
  forks_count : option Z;
  contributions_count : option Z;
  open_issues_count : option Z;
  stargazers_count : option Z;
  description : option string
}.
End RepoInfo.

(** A repository of the Docker Hub API. *)
Module DockerhubInfo.
Record t : Type := mk {
  last_updated : option string;
  star_count : option Z;
  pull_count : option Z;
  description : option string
}.
End DockerhubInfo.

(** A non-empty JSON object is truthy whatever it holds. *)
#[export] Instance Truthy_license_info : Truthy GithubInfo.license_info :=
  fun _ => true.
#[export] Instance Truthy_connection : Truthy GithubInfo.connection :=
  fun _ => true.

(** [x.totalCount] where [x] may be missing *)
Definition totalCount (c : option GithubInfo.connection) : option Z :=
  match c with Some c => GithubInfo.totalCount c | None => None end.

Definition spdxId (l : option GithubInfo.license_info) : option string :=
  match l with Some l => GithubInfo.spdxId l | None => None end.

(** The answer of an HTTP call made inside [try]. *)
Inductive http (A : Type) : Type :=
| Ok200 (payload : A)
| Status (code : Z)
| Raised.
Arguments Ok200 {A} payload.
Arguments Status {A} code.
Arguments Raised {A}.

Inductive manager : Type := pypi | conda | npm.

Class Providers : Type := {
  (** [os.getenv("GITHUB_API_KEY")] *)
  github_api_token : option string;
  (** the GraphQL query for [owner], [repo] *)
  github_graphql : string -> string -> http GithubInfo.t;
  (** [Search().repository(host="github", owner, repo)] *)
  search_repository : string -> string -> option RepoInfo.t;
  (** [Search().project(manager, package)] *)
  search_project : manager -> string -> option PackageInfo.t;
  (** [GET https://hub.docker.com/v2/repositories/<id>] *)
  dockerhub_repository : string -> http DockerhubInfo.t;
  (** [pypistats.recent(id, "month")["data"]["last_month"]], [None] when it raises *)
  pypistats_recent : string -> option Z
}.

(** ** The project record *)

Record ProjectRecord : Type := mkProject {
  name : option string;
  homepage : option string;
  description : option string;
  category : option string;
  license : option string;
  github_id : option string;
  github_url : option string;
  pypi_id : option string;
  pypi_url : option string;
  conda_id : option string;
  conda_url : option string;
  npm_id : option string;
  npm_url : option string;
  dockerhub_id : option string;
  dockerhub_url : option string;
  star_count : option Z;
  fork_count : option Z;
  contributor_count : option Z;
  open_issue_count : option Z;
  sourcerank : option Z;
  pypi_monthly_downloads : option Z;
  dockerhub_stars : option Z;
  dockerhub_pulls : option Z;
  created_at : option datetime;
  updated_at : option datetime;
  show : option bool;
  sourcerank_placing : option Z
}.

Definition set_name (v : option string) (p : ProjectRecord) : ProjectRecord :=
  mkProject v (homepage p) (description p) (category p) (license p)
    (github_id p) (github_url p) (pypi_id p) (pypi_url p) (conda_id p)
    (conda_url p) (npm_id p) (npm_url p) (dockerhub_id p) (dockerhub_url p)
    (star_count p) (fork_count p) (contributor_count p) (open_issue_count p)
    (sourcerank p) (pypi_monthly_downloads p) (dockerhub_stars p)
    (dockerhub_pulls p) (created_at p) (updated_at p) (show p)
    (sourcerank_placing p).

Definition set_homepage (v : option string) (p : ProjectRecord) : ProjectRecord :=
  mkProject (name p) v (description p) (category p) (license p) (github_id p)
    (github_url p) (pypi_id p) (pypi_url p) (conda_id p) (conda_url p)
    (npm_id p) (npm_url p) (dockerhub_id p) (dockerhub_url p) (star_count p)
    (fork_count p) (contributor_count p) (open_issue_count p) (sourcerank p)
    (pypi_monthly_downloads p) (dockerhub_stars p) (dockerhub_pulls p)
    (created_at p) (updated_at p) (show p) (sourcerank_placing p).

Definition set_description (v : option string) (p : ProjectRecord) : ProjectRecord :=
  mkProject (name p) (homepage p) v (category p) (license p) (github_id p)
    (github_url p) (pypi_id p) (pypi_url p) (conda_id p) (conda_url p)
    (npm_id p) (npm_url p) (dockerhub_id p) (dockerhub_url p) (star_count p)
    (fork_count p) (contributor_count p) (open_issue_count p) (sourcerank p)
    (pypi_monthly_downloads p) (dockerhub_stars p) (dockerhub_pulls p)
    (created_at p) (updated_at p) (show p) (sourcerank_placing p).

Definition set_category (v : option string) (p : ProjectRecord) : ProjectRecord :=
  mkProject (name p) (homepage p) (description p) v (license p) (github_id p)
    (github_url p) (pypi_id p) (pypi_url p) (conda_id p) (conda_url p)
    (npm_id p) (npm_url p) (dockerhub_id p) (dockerhub_url p) (star_count p)
    (fork_count p) (contributor_count p) (open_issue_count p) (sourcerank p)
    (pypi_monthly_downloads p) (dockerhub_stars p) (dockerhub_pulls p)
    (created_at p) (updated_at p) (show p) (sourcerank_placing p).

Definition set_license (v : option string) (p : ProjectRecord) : ProjectRecord :=
  mkProject (name p) (homepage p) (description p) (category p) v (github_id p)
    (github_url p) (pypi_id p) (pypi_url p) (conda_id p) (conda_url p)
    (npm_id p) (npm_url p) (dockerhub_id p) (dockerhub_url p) (star_count p)
    (fork_count p) (contributor_count p) (open_issue_count p) (sourcerank p)
    (pypi_monthly_downloads p) (dockerhub_stars p) (dockerhub_pulls p)
    (created_at p) (updated_at p) (show p) (sourcerank_placing p).

Definition set_github_id (v : option string) (p : ProjectRecord) : ProjectRecord :=
  mkProject (name p) (homepage p) (description p) (category p) (license p) v
    (github_url p) (pypi_id p) (pypi_url p) (conda_id p) (conda_url p)
    (npm_id p) (npm_url p) (dockerhub_id p) (dockerhub_url p) (star_count p)
    (fork_count p) (contributor_count p) (open_issue_count p) (sourcerank p)
    (pypi_monthly_downloads p) (dockerhub_stars p) (dockerhub_pulls p)
    (created_at p) (updated_at p) (show p) (sourcerank_placing p).

Definition set_github_url (v : option string) (p : ProjectRecord) : ProjectRecord :=
  mkProject (name p) (homepage p) (description p) (category p) (license p)
    (github_id p) v (pypi_id p) (pypi_url p) (conda_id p) (conda_url p)
    (npm_id p) (npm_url p) (dockerhub_id p) (dockerhub_url p) (star_count p)
    (fork_count p) (contributor_count p) (open_issue_count p) (sourcerank p)
    (pypi_monthly_downloads p) (dockerhub_stars p) (dockerhub_pulls p)
    (created_at p) (updated_at p) (show p) (sourcerank_placing p).

Definition set_pypi_url (v : option string) (p : ProjectRecord) : ProjectRecord :=
  mkProject (name p) (homepage p) (description p) (category p) (license p)
    (github_id p) (github_url p) (pypi_id p) v (conda_id p) (conda_url p)
    (npm_id p) (npm_url p) (dockerhub_id p) (dockerhub_url p) (star_count p)
    (fork_count p) (contributor_count p) (open_issue_count p) (sourcerank p)
    (pypi_monthly_downloads p) (dockerhub_stars p) (dockerhub_pulls p)
    (created_at p) (updated_at p) (show p) (sourcerank_placing p).

Definition set_conda_url (v : option string) (p : ProjectRecord) : ProjectRecord :=
  mkProject (name p) (homepage p) (description p) (category p) (license p)
    (github_id p) (github_url p) (pypi_id p) (pypi_url p) (conda_id p) v
    (npm_id p) (npm_url p) (dockerhub_id p) (dockerhub_url p) (star_count p)
    (fork_count p) (contributor_count p) (open_issue_count p) (sourcerank p)
    (pypi_monthly_downloads p) (dockerhub_stars p) (dockerhub_pulls p)
    (created_at p) (updated_at p) (show p) (sourcerank_placing p).

Definition set_npm_url (v : option string) (p : ProjectRecord) : ProjectRecord :=
  mkProject (name p) (homepage p) (description p) (category p) (license p)
    (github_id p) (github_url p) (pypi_id p) (pypi_url p) (conda_id p)
    (conda_url p) (npm_id p) v (dockerhub_id p) (dockerhub_url p)
    (star_count p) (fork_count p) (contributor_count p) (open_issue_count p)
    (sourcerank p) (pypi_monthly_downloads p) (dockerhub_stars p)
    (dockerhub_pulls p) (created_at p) (updated_at p) (show p)
    (sourcerank_placing p).

Definition set_dockerhub_url (v : option string) (p : ProjectRecord) : ProjectRecord :=
  mkProject (name p) (homepage p) (description p) (category p) (license p)
    (github_id p) (github_url p) (pypi_id p) (pypi_url p) (conda_id p)
    (conda_url p) (npm_id p) (npm_url p) (dockerhub_id p) v (star_count p)
    (fork_count p) (contributor_count p) (open_issue_count p) (sourcerank p)
    (pypi_monthly_downloads p) (dockerhub_stars p) (dockerhub_pulls p)
    (created_at p) (updated_at p) (show p) (sourcerank_placing p).

Definition set_star_count (v : option Z) (p : ProjectRecord) : ProjectRecord :=
  mkProject (name p) (homepage p) (description p) (category p) (license p)
    (github_id p) (github_url p) (pypi_id p) (pypi_url p) (conda_id p)
    (conda_url p) (npm_id p) (npm_url p) (dockerhub_id p) (dockerhub_url p) v
    (fork_count p) (contributor_count p) (open_issue_count p) (sourcerank p)
    (pypi_monthly_downloads p) (dockerhub_stars p) (dockerhub_pulls p)
    (created_at p) (updated_at p) (show p) (sourcerank_placing p).

Definition set_fork_count (v : option Z) (p : ProjectRecord) : ProjectRecord :=
  mkProject (name p) (homepage p) (description p) (category p) (license p)
    (github_id p) (github_url p) (pypi_id p) (pypi_url p) (conda_id p)
    (conda_url p) (npm_id p) (npm_url p) (dockerhub_id p) (dockerhub_url p)
    (star_count p) v (contributor_count p) (open_issue_count p) (sourcerank p)
    (pypi_monthly_downloads p) (dockerhub_stars p) (dockerhub_pulls p)
    (created_at p) (updated_at p) (show p) (sourcerank_placing p).

Definition set_contributor_count (v : option Z) (p : ProjectRecord) : ProjectRecord :=
  mkProject (name p) (homepage p) (description p) (category p) (license p)
    (github_id p) (github_url p) (pypi_id p) (pypi_url p) (conda_id p)
    (conda_url p) (npm_id p) (npm_url p) (dockerhub_id p) (dockerhub_url p)
    (star_count p) (fork_count p) v (open_issue_count p) (sourcerank p)
    (pypi_monthly_downloads p) (dockerhub_stars p) (dockerhub_pulls p)
    (created_at p) (updated_at p) (show p) (sourcerank_placing p).

Definition set_open_issue_count (v : option Z) (p : ProjectRecord) : ProjectRecord :=
  mkProject (name p) (homepage p) (description p) (category p) (license p)
    (github_id p) (github_url p) (pypi_id p) (pypi_url p) (conda_id p)
    (conda_url p) (npm_id p) (npm_url p) (dockerhub_id p) (dockerhub_url p)
    (star_count p) (fork_count p) (contributor_count p) v (sourcerank p)
    (pypi_monthly_downloads p) (dockerhub_stars p) (dockerhub_pulls p)
    (created_at p) (updated_at p) (show p) (sourcerank_placing p).

Definition set_sourcerank (v : option Z) (p : ProjectRecord) : ProjectRecord :=
  mkProject (name p) (homepage p) (description p) (category p) (license p)
    (github_id p) (github_url p) (pypi_id p) (pypi_url p) (conda_id p)
    (conda_url p) (npm_id p) (npm_url p) (dockerhub_id p) (dockerhub_url p)
    (star_count p) (fork_count p) (contributor_count p) (open_issue_count p) v
    (pypi_monthly_downloads p) (dockerhub_stars p) (dockerhub_pulls p)
    (created_at p) (updated_at p) (show p) (sourcerank_placing p).

Definition set_pypi_monthly_downloads (v : option Z) (p : ProjectRecord) : ProjectRecord :=
  mkProject (name p) (homepage p) (description p) (category p) (license p)
    (github_id p) (github_url p) (pypi_id p) (pypi_url p) (conda_id p)
    (conda_url p) (npm_id p) (npm_url p) (dockerhub_id p) (dockerhub_url p)
    (star_count p) (fork_count p) (contributor_count p) (open_issue_count p)
    (sourcerank p) v (dockerhub_stars p) (dockerhub_pulls p) (created_at p)
    (updated_at p) (show p) (sourcerank_placing p).

Definition set_dockerhub_stars (v : option Z) (p : ProjectRecord) : ProjectRecord :=
  mkProject (name p) (homepage p) (description p) (category p) (license p)
    (github_id p) (github_url p) (pypi_id p) (pypi_url p) (conda_id p)
    (conda_url p) (npm_id p) (npm_url p) (dockerhub_id p) (dockerhub_url p)
    (star_count p) (fork_count p) (contributor_count p) (open_issue_count p)
    (sourcerank p) (pypi_monthly_downloads p) v (dockerhub_pulls p)
    (created_at p) (updated_at p) (show p) (sourcerank_placing p).

Definition set_dockerhub_pulls (v : option Z) (p : ProjectRecord) : ProjectRecord :=
  mkProject (name p) (homepage p) (description p) (category p) (license p)
    (github_id p) (github_url p) (pypi_id p) (pypi_url p) (conda_id p)
    (conda_url p) (npm_id p) (npm_url p) (dockerhub_id p) (dockerhub_url p)
    (star_count p) (fork_count p) (contributor_count p) (open_issue_count p)
    (sourcerank p) (pypi_monthly_downloads p) (dockerhub_stars p) v
    (created_at p) (updated_at p) (show p) (sourcerank_placing p).

Definition set_created_at (v : option datetime) (p : ProjectRecord) : ProjectRecord :=
  mkProject (name p) (homepage p) (description p) (category p) (license p)
    (github_id p) (github_url p) (pypi_id p) (pypi_url p) (conda_id p)
    (conda_url p) (npm_id p) (npm_url p) (dockerhub_id p) (dockerhub_url p)
    (star_count p) (fork_count p) (contributor_count p) (open_issue_count p)
    (sourcerank p) (pypi_monthly_downloads p) (dockerhub_stars p)
    (dockerhub_pulls p) v (updated_at p) (show p) (sourcerank_placing p).

Definition set_updated_at (v : option datetime) (p : ProjectRecord) : ProjectRecord :=
  mkProject (name p) (homepage p) (description p) (category p) (license p)
    (github_id p) (github_url p) (pypi_id p) (pypi_url p) (conda_id p)
    (conda_url p) (npm_id p) (npm_url p) (dockerhub_id p) (dockerhub_url p)
    (star_count p) (fork_count p) (contributor_count p) (open_issue_count p)
    (sourcerank p) (pypi_monthly_downloads p) (dockerhub_stars p)
    (dockerhub_pulls p) (created_at p) v (show p) (sourcerank_placing p).

Definition set_show (v : option bool) (p : ProjectRecord) : ProjectRecord :=
  mkProject (name p) (homepage p) (description p) (category p) (license p)
    (github_id p) (github_url p) (pypi_id p) (pypi_url p) (conda_id p)
    (conda_url p) (npm_id p) (npm_url p) (dockerhub_id p) (dockerhub_url p)
    (star_count p) (fork_count p) (contributor_count p) (open_issue_count p)
    (sourcerank p) (pypi_monthly_downloads p) (dockerhub_stars p)
    (dockerhub_pulls p) (created_at p) (updated_at p) v (sourcerank_placing p).

Definition set_sourcerank_placing (v : option Z) (p : ProjectRecord) : ProjectRecord :=
  mkProject (name p) (homepage p) (description p) (category p) (license p)
    (github_id p) (github_url p) (pypi_id p) (pypi_url p) (conda_id p)
    (conda_url p) (npm_id p) (npm_url p) (dockerhub_id p) (dockerhub_url p)
    (star_count p) (fork_count p) (contributor_count p) (open_issue_count p)
    (sourcerank p) (pypi_monthly_downloads p) (dockerhub_stars p)
    (dockerhub_pulls p) (created_at p) (updated_at p) (show p) v.

(** ** The configuration and the categories *)

Record Configuration : Type := mkConfiguration {
  project_inactive_months : option Z;
  project_dead_months : option Z;
  project_new_months : option Z;
  min_sourcerank : option Z;
  min_stars : option Z;
  require_license : option bool;
  require_pypi : option bool;
  require_github : option bool;
  require_npm : option bool;
  require_conda : option bool;
  require_dockerhub : option bool;
  markdown_output_file : option string;
  generate_badges : option bool;
  generate_install_hints : option bool;
  generate_toc : option bool;
  generate_link_shortcuts : option bool;
  generate_legend : option bool;
  sort_by : option string;
  allowed_licenses : option (list string)
}.


(** An [OrderedDict] with string keys, oldest binding first: [od_set]
    replaces the value of a key in place and appends a new key. *)
Definition odict (V : Type) : Type := list (string * V).

Fixpoint od_get {V : Type} (k : string) (d : odict V) : option V :=
  match d with
  | [] => None
  | (k', v) :: r => if String.eqb k k' then Some v else od_get k r
  end.

Fixpoint od_set {V : Type} (k : string) (v : V) (d : odict V) : odict V :=
  match d with
  | [] => [(k, v)]
  | (k', v') :: r =>
      if String.eqb k k' then (k', v) :: r else (k', v') :: od_set k v r
  end.

Definition od_mem {V : Type} (k : string) (d : odict V) : bool :=
  match od_get k d with Some _ => true | None => false end.

Module Category.
Record t : Type := mk {
  category : option string;
  title : option string;
  subtitle : option string;
  projects : option (list ProjectRecord);
  hidden_projects : option (list ProjectRecord)
}.
End Category.

(** ** The catalog *)

(** An entry of the catalog, as the YAML file gives it: the keys it binds
    to a value, which are the record [Dict(project)], and the keys it binds
    to null. The code tells a key bound to null from a missing one in one
    place only, [project_info.update(project)]. *)
Record Entry : Type := mkEntry {
  record :> ProjectRecord;
  null_keys : list string
}.

(** [not project_info]: a [Dict] without any key *)
Definition is_empty (p : ProjectRecord) : bool :=
  match p with
  | mkProject None None None None None None None None None None None None
      None None None None None None None None None None None None None None
      None => true
  | _ => false
  end.

(** The value of a field that the guard before has found truthy. *)
Definition the (o : option string) : string :=
  match o with Some s => s | None => "" end.

(** [int(x)], applied to truthy values only *)
Definition int (o : option Z) : Z :=
  match o with Some z => z | None => 0 end.

(** [a < d] and [a > d] for a date field that the guard before found set;
    [None] when the comparison raises [TypeError] *)
Definition before (a : option datetime) (d : datetime) : option bool :=
  match a with Some a => dt_lt a d | None => Some false end.

Definition after (a : option datetime) (d : datetime) : option bool :=
  match a with Some a => dt_lt d a | None => Some false end.

(** [u and u.lower() != "unknown"] *)
Definition known (u : option string) : bool :=
  truthy u && negb (String.eqb (lower (the u)) "unknown").

(** [not d or len(d) < MIN_PROJECT_DESC_LENGTH] *)
Definition lacks_description (d : option string) : bool :=
  negb (truthy d) || (len (the d) <? MIN_PROJECT_DESC_LENGTH).

(** ** The merge rules of projects_collection.py *)

Section Pipeline.
Context {ext : Externals}.

(** Lines 56-66, 68-78, 167-177, 320-330, 406-416: the body of the [try]
    that reads a date of the last activity. [raw] is [str(...)] of the
    value, [shown] what the warning prints. The [except] clause catches
    the exception of [parse] and the [TypeError] of the comparison
    alike. *)
Definition observe_updated_at (raw shown : string) (project_info : ProjectRecord)
  : Logged ProjectRecord :=
  match parse raw with
  | Some updated_at' =>
      if negb (truthy (updated_at project_info)) then
        ret (set_updated_at (Some updated_at') project_info)
      else
        match before (updated_at project_info) updated_at' with
        | Some true =>
            (* always use the latest available date *)
            ret (set_updated_at (Some updated_at') project_info)
        | Some false => ret project_info
        | None =>
            log WARNING ("Failed to parse timestamp: " ++ shown) ;;
            ret project_info
        end
  | None =>
      log WARNING ("Failed to parse timestamp: " ++ shown) ;;
      ret project_info
  end.

(** Lines 308-318 and 394-404: the body of the [try] that reads the date
    of creation. *)
Definition observe_created_at (raw : string) (project_info : ProjectRecord)
  : Logged ProjectRecord :=
  match parse raw with
  | Some created_at' =>
      if negb (truthy (created_at project_info)) then
        ret (set_created_at (Some created_at') project_info)
      else
        match after (created_at project_info) created_at' with
        | Some true =>
            (* always use the oldest available date *)
            ret (set_created_at (Some created_at') project_info)
        | Some false => ret project_info
        | None =>
            log WARNING ("Failed to parse timestamp: " ++ raw) ;;
            ret project_info
        end
  | None =>
      log WARNING ("Failed to parse timestamp: " ++ raw) ;;
      ret project_info
  end.

(** The five blocks "always use the highest number". *)
Definition merge_star_count (incoming : option Z) (project_info : ProjectRecord)
  : ProjectRecord :=
  if truthy incoming then
    let star_count' := int incoming in
    if negb (truthy (star_count project_info)) then
      set_star_count (Some star_count') project_info
    else if int (star_count project_info) <? star_count' then
      set_star_count (Some star_count') project_info
    else project_info
  else project_info.

Definition merge_fork_count (incoming : option Z) (project_info : ProjectRecord)
  : ProjectRecord :=
  if truthy incoming then
    let fork_count' := int incoming in
    if negb (truthy (fork_count project_info)) then
      set_fork_count (Some fork_count') project_info
    else if int (fork_count project_info) <? fork_count' then
      set_fork_count (Some fork_count') project_info
    else project_info
  else project_info.

Definition merge_sourcerank (incoming : option Z) (project_info : ProjectRecord)
  : ProjectRecord :=
  if truthy incoming then
    let sourcerank' := int incoming in
    if negb (truthy (sourcerank project_info)) then
      set_sourcerank (Some sourcerank') project_info
    else if int (sourcerank project_info) <? sourcerank' then
      set_sourcerank (Some sourcerank') project_info
    else project_info
  else project_info.

Definition merge_contributor_count (incoming : option Z)
  (project_info : ProjectRecord) : ProjectRecord :=
  if truthy incoming then
    let contributor_count' := int incoming in
    if negb (truthy (contributor_count project_info)) then
      set_contributor_count (Some contributor_count') project_info
    else if int (contributor_count project_info) <? contributor_count' then
      set_contributor_count (Some contributor_count') project_info
    else project_info
  else project_info.

Definition merge_open_issue_count (incoming : option Z)
  (project_info : ProjectRecord) : ProjectRecord :=
  if truthy incoming then
    let open_issue_count' := int incoming in
    if negb (truthy (open_issue_count project_info)) then
      set_open_issue_count (Some open_issue_count') project_info
    else if int (open_issue_count project_info) <? open_issue_count' then
      set_open_issue_count (Some open_issue_count') project_info
    else project_info
  else project_info.

(** Lines 104-107, 185-188, 356-359, 458-461 *)
Definition merge_description (incoming : option string)
  (project_info : ProjectRecord) : ProjectRecord :=
  if lacks_description (description project_info) && truthy incoming then
    let description' := process_description (the incoming) in
    if truthy description' then set_description (Some description') project_info
    else project_info
  else project_info.

(** *** [update_package_via_libio], lines 25-107, block by block *)

(** Lines 29-35 *)
Definition libio_homepage (package_info : PackageInfo.t)
  (project_info : ProjectRecord) : ProjectRecord :=
  if negb (truthy (homepage project_info)) then
    if known (PackageInfo.homepage package_info) then
      set_homepage (PackageInfo.homepage package_info) project_info
    else if known (PackageInfo.repository_url package_info) then
      set_homepage (PackageInfo.repository_url package_info) project_info
    else if known (PackageInfo.package_manager_url package_info) then
      set_homepage (PackageInfo.package_manager_url package_info) project_info
    else project_info
  else project_info.

(** Lines 37-38 *)
Definition libio_name (package_info : PackageInfo.t)
  (project_info : ProjectRecord) : ProjectRecord :=
  if negb (truthy (name project_info)) && truthy (PackageInfo.name package_info)
  then set_name (Some (PackageInfo.name package_info)) project_info
  else project_info.

(** Lines 40-44 *)
Definition libio_github_id (package_info : PackageInfo.t)
  (project_info : ProjectRecord) : ProjectRecord :=
  if negb (truthy (github_id project_info))
     && truthy (PackageInfo.repository_url package_info) then
    let repository_url := the (PackageInfo.repository_url package_info) in
    if contains "github" repository_url && truthy (urlparse_path repository_url)
    then
      set_github_url (Some repository_url)
        (set_github_id (Some (strip "/" (urlparse_path repository_url)))
           project_info)
    else project_info
  else project_info.

(** Lines 46-54 *)
Definition libio_license (package_info : PackageInfo.t)
  (project_info : ProjectRecord) : Logged ProjectRecord :=
  if negb (truthy (license project_info))
     && truthy (PackageInfo.normalized_licenses package_info) then
    (if 1 <? Z.of_nat (List.length (PackageInfo.normalized_licenses package_info))
     then log INFO ("Package " ++ PackageInfo.name package_info
                    ++ "has more than one license.")
     else ret tt) ;;
    (* Always take the first license *)
    let first := hd "" (PackageInfo.normalized_licenses package_info) in
    if String.eqb (lower first) "other" then
      (* if licenses is other, set to None *)
      ret (set_license None project_info)
    else ret (set_license (Some first) project_info)
  else ret project_info.

(** Lines 56-66 *)
Definition libio_latest_release (package_info : PackageInfo.t)
  (project_info : ProjectRecord) : Logged ProjectRecord :=
  if truthy (PackageInfo.latest_release_published_at package_info) then
    let raw := the (PackageInfo.latest_release_published_at package_info) in
    observe_updated_at raw raw project_info
  else ret project_info.

(** Lines 68-78; [published_at] is read without a guard. *)
Definition libio_versions (package_info : PackageInfo.t)
  (project_info : ProjectRecord) : Logged ProjectRecord :=
  match PackageInfo.versions package_info with
  | v :: _ =>
      let raw := str_of (PackageInfo.published_at v) in
      observe_updated_at raw raw project_info
  | [] => ret project_info
  end.

(** Lines 25-107 *)
Definition update_package_via_libio (project_info : ProjectRecord)
  (package_info : PackageInfo.t) : Logged ProjectRecord :=
  if is_empty project_info then ret project_info else
  let p := libio_homepage package_info project_info in
  let p := libio_name package_info p in
  let p := libio_github_id package_info p in
  p <- libio_license package_info p ;;
  p <- libio_latest_release package_info p ;;
  p <- libio_versions package_info p ;;
  let p := merge_star_count (PackageInfo.stars package_info) p in
  let p := merge_fork_count (PackageInfo.forks package_info) p in
  let p := merge_sourcerank (PackageInfo.rank package_info) p in
  ret (merge_description (PackageInfo.description package_info) p).

(** *** What [update_via_github_api] does with the answer, lines 297-359 *)

(** Lines 297-298 *)
Definition api_github_url (github_info : GithubInfo.t)
  (project_info : ProjectRecord) : ProjectRecord :=
  if negb (truthy (github_url project_info))
     && truthy (GithubInfo.url github_info)
  then set_github_url (GithubInfo.url github_info) project_info
  else project_info.

(** Lines 300-301 and 387-388 *)
Definition homepage_of_github_url (project_info : ProjectRecord)
  : ProjectRecord :=
  if negb (truthy (homepage project_info)) then
    set_homepage (github_url project_info) project_info
  else project_info.

(** Lines 303-306 *)
Definition api_license (github_info : GithubInfo.t)
  (project_info : ProjectRecord) : ProjectRecord :=
  if negb (truthy (license project_info))
     && truthy (GithubInfo.licenseInfo github_info)
     && truthy (spdxId (GithubInfo.licenseInfo github_info)) then
    (* if licenses is noassertion, then it is not provided *)
    if negb (String.eqb
               (lower (the (spdxId (GithubInfo.licenseInfo github_info))))
               "noassertion")
    then set_license (spdxId (GithubInfo.licenseInfo github_info)) project_info
    else project_info
  else project_info.

(** Lines 308-318, 394-404 *)
Definition read_created_at (raw : option string) (project_info : ProjectRecord)
  : Logged ProjectRecord :=
  if truthy raw then observe_created_at (the raw) project_info
  else ret project_info.

(** Lines 320-330, 406-416 *)
Definition read_pushed_at (raw : option string) (project_info : ProjectRecord)
  : Logged ProjectRecord :=
  if truthy raw then observe_updated_at (the raw) (the raw) project_info
  else ret project_info.

(** [x and x.totalCount] *)
Definition count (x : option GithubInfo.connection) : option Z :=
  if truthy x then totalCount x else None.

(** Lines 297-359 *)
Definition merge_github_api (project_info : ProjectRecord)
  (github_info : GithubInfo.t) : Logged ProjectRecord :=
  let p := api_github_url github_info project_info in
  let p := homepage_of_github_url p in
  let p := api_license github_info p in
  p <- read_created_at (GithubInfo.createdAt github_info) p ;;
  (* pushed_at is the last github push, updated_at is the last sync? *)
  p <- read_pushed_at (GithubInfo.pushedAt github_info) p ;;
  let p := merge_fork_count (count (GithubInfo.forks github_info)) p in
  let p := merge_open_issue_count (count (GithubInfo.issues github_info)) p in
  let p := merge_star_count (count (GithubInfo.stargazers github_info)) p in
  ret (merge_description (GithubInfo.description github_info) p).

(** *** What [update_repo_via_libio] does with the answer, lines 384-461 *)

(** Lines 384-385 *)
Definition repo_github_url (project_info : ProjectRecord) : ProjectRecord :=
  if negb (truthy (github_url project_info)) then
    set_github_url (Some ("https://github.com/" ++ the (github_id project_info)))
      project_info
  else project_info.

(** Lines 390-392 *)
Definition repo_license (github_info : RepoInfo.t)
  (project_info : ProjectRecord) : ProjectRecord :=
  if negb (truthy (license project_info))
     && truthy (RepoInfo.license github_info)
     && negb (String.eqb (lower (the (RepoInfo.license github_info))) "other")
  then
    (* some unknown licenses are returned as other *)
    set_license (RepoInfo.license github_info) project_info
  else project_info.

(** Lines 384-461 *)
Definition merge_repo_libio (project_info : ProjectRecord)
  (github_info : RepoInfo.t) : Logged ProjectRecord :=
  let p := repo_github_url project_info in
  let p := homepage_of_github_url p in
  let p := repo_license github_info p in
  p <- read_created_at (RepoInfo.created_at github_info) p ;;
  (* pushed_at is the last github push, updated_at is the last sync? *)
  p <- read_pushed_at (RepoInfo.pushed_at github_info) p ;;
  let p := merge_sourcerank (RepoInfo.rank github_info) p in
  let p := merge_fork_count (RepoInfo.forks_count github_info) p in
  let p := merge_contributor_count (RepoInfo.contributions_count github_info) p in
  let p := merge_open_issue_count (RepoInfo.open_issues_count github_info) p in
  let p := merge_star_count (RepoInfo.stargazers_count github_info) p in
  ret (merge_description (RepoInfo.description github_info) p).

(** *** What [update_via_dockerhub] does with the answer, lines 167-188 *)

(** Lines 167-177. The warning prints [str(project_info.last_updated)], a
    key that no project carries, hence the text of an empty [Dict]. *)
Definition dockerhub_last_updated (dockerhub_info : DockerhubInfo.t)
  (project_info : ProjectRecord) : Logged ProjectRecord :=
  if truthy (DockerhubInfo.last_updated dockerhub_info) then
    observe_updated_at (the (DockerhubInfo.last_updated dockerhub_info)) "{}"
      project_info
  else ret project_info.

(** Lines 179-180 *)
Definition dockerhub_star_count (dockerhub_info : DockerhubInfo.t)
  (project_info : ProjectRecord) : ProjectRecord :=
  if truthy (DockerhubInfo.star_count dockerhub_info) then
    set_dockerhub_stars (DockerhubInfo.star_count dockerhub_info) project_info
  else project_info.

(** Lines 182-183 *)
Definition dockerhub_pull_count (dockerhub_info : DockerhubInfo.t)
  (project_info : ProjectRecord) : ProjectRecord :=
  if truthy (DockerhubInfo.pull_count dockerhub_info) then
    set_dockerhub_pulls (DockerhubInfo.pull_count dockerhub_info) project_info
  else project_info.

(** Lines 167-188 *)
Definition merge_dockerhub (project_info : ProjectRecord)
  (dockerhub_info : DockerhubInfo.t) : Logged ProjectRecord :=
  p <- dockerhub_last_updated dockerhub_info project_info ;;
  let p := dockerhub_star_count dockerhub_info p in
  let p := dockerhub_pull_count dockerhub_info p in
  ret (merge_description (DockerhubInfo.description dockerhub_info) p).

(** ** The adapters *)

Context {net : Providers}.

(** Lines 218-359 *)
Definition update_via_github_api (project_info : ProjectRecord)
  : Logged ProjectRecord :=
  if negb (truthy (github_id project_info)) then ret project_info else
  if negb (truthy github_api_token) then ret project_info else
  let id := the (github_id project_info) in
  if negb (contains "/" id) then
    log INFO ("The github project id is not valid: " ++ id) ;;
    ret project_info
  else
  let owner := nth 0 (split "/" id) "" in
  let repo := nth 1 (split "/" id) "" in
  match github_graphql owner repo with
  | Status code =>
      log INFO ("Unable to find github repo via github api: " ++ id
                ++ "(" ++ str_of_Z code ++ ")") ;;
      ret project_info
  | Raised =>
      log INFO ("Failed to request github repo via github api: " ++ id) ;;
      ret project_info
  | Ok200 github_info => merge_github_api project_info github_info
  end.

(** Lines 362-461 *)
Definition update_repo_via_libio (project_info : ProjectRecord)
  : Logged ProjectRecord :=
  if negb (truthy (github_id project_info)) then ret project_info else
  let id := the (github_id project_info) in
  if negb (contains "/" id) then
    log INFO ("The github project id is not valid: " ++ id) ;;
    ret project_info
  else
  let owner := nth 0 (split "/" id) "" in
  let repo := nth 1 (split "/" id) "" in
  match search_repository owner repo with
  | None =>
      log INFO ("Unable to find github repo via libraries.io: " ++ id) ;;
      ret project_info
  | Some github_info => merge_repo_libio project_info github_info
  end.

(** Lines 464-466 *)
Definition update_via_github (project_info : ProjectRecord)
  : Logged ProjectRecord :=
  p <- update_via_github_api project_info ;;
  update_repo_via_libio p.

(** Lines 191-215 *)
Definition update_via_pypi (project_info : ProjectRecord)
  : Logged ProjectRecord :=
  if negb (truthy (pypi_id project_info)) then ret project_info else
  let id := the (pypi_id project_info) in
  match search_project pypi id with
  | None =>
      log INFO ("Unable to find pypi package: " ++ id) ;;
      ret project_info
  | Some pypi_info =>
      let p :=
        if negb (truthy (pypi_url project_info)) then
          set_pypi_url (Some ("https://pypi.org/project/" ++ id)) project_info
        else project_info in
      p <- update_package_via_libio p pypi_info ;;
      (* get download count from pypi stats *)
      match pypistats_recent id with
      | Some downloads => ret (set_pypi_monthly_downloads (Some downloads) p)
      | None => ret p
      end
  end.

(** Lines 110-125 *)
Definition update_via_conda (project_info : ProjectRecord)
  : Logged ProjectRecord :=
  if negb (truthy (conda_id project_info)) then ret project_info else
  let id := the (conda_id project_info) in
  match search_project conda id with
  | None => ret project_info
  | Some conda_info =>
      let p :=
        if negb (truthy (conda_url project_info)) then
          set_conda_url (Some ("https://anaconda.org/anaconda/" ++ id))
            project_info
        else project_info in
      update_package_via_libio p conda_info
  end.

(** Lines 128-144 *)
Definition update_via_npm (project_info : ProjectRecord)
  : Logged ProjectRecord :=
  if negb (truthy (npm_id project_info)) then ret project_info else
  let id := the (npm_id project_info) in
  match search_project npm id with
  | None =>
      log INFO ("Unable to find npm package: " ++ id) ;;
      ret project_info
  | Some npm_info =>
      let p :=
        if negb (truthy (npm_url project_info)) then
          set_npm_url (Some ("https://www.npmjs.com/package/" ++ id))
            project_info
        else project_info in
      update_package_via_libio p npm_info
  end.

(** Lines 147-188 *)
Definition update_via_dockerhub (project_info : ProjectRecord)
  : Logged ProjectRecord :=
  if negb (truthy (dockerhub_id project_info)) then ret project_info else
  let id := the (dockerhub_id project_info) in
  let p :=
    if negb (truthy (dockerhub_url project_info)) then
      set_dockerhub_url (Some ("https://hub.docker.com/r/" ++ id)) project_info
    else project_info in
  match dockerhub_repository id with
  | Status code =>
      log INFO ("Unable to find image via dockerhub api: " ++ id
                ++ "(" ++ str_of_Z code ++ ")") ;;
      ret p
  | Raised =>
      log INFO ("Failed to request docker iamge via dockerhub api: " ++ id) ;;
      ret p
  | Ok200 dockerhub_info => merge_dockerhub p dockerhub_info
  end.

(** Lines 715-723 of [collect_projects_info]: the adapters in their fixed
    order, then the default of [updated_at]. *)
Definition enrich (project_info : ProjectRecord) : Logged ProjectRecord :=
  p <- update_via_github project_info ;;
  p <- update_via_pypi p ;;
  p <- update_via_conda p ;;
  p <- update_via_npm p ;;
  p <- update_via_dockerhub p ;;
  if negb (truthy (updated_at p)) && truthy (created_at p) then
    (* set update at if created at is available *)
    ret (set_updated_at (created_at p) p)
  else ret p.

(** ** license.py, [get_license] *)

Definition licenses_map : dict License.t :=
  fold_left
    (fun m license =>
       let m := dict_set (simplify_str (License.name license)) license m in
       let m := dict_set (simplify_str (License.spdx_id license)) license m in
       match License.keywords license with
       | Some keywords =>
           fold_left (fun m keyword => dict_set (simplify_str keyword) license m)
             keywords m
       | None => m
       end)
    licenses [].

Definition get_license (query : string) : option License.t :=
  dict_get (simplify_str query) licenses_map.

(** ** Configuration *)

(** [d[k] = v if k not in d] *)
Definition default {A : Type} (o : option A) (v : A) : option A :=
  match o with Some _ => o | None => Some v end.

(** Lines 556-616 *)
Definition prepare_configuration (config : Configuration) : Configuration :=
  mkConfiguration
    (default (project_inactive_months config) 6)
    (default (project_dead_months config) 12)
    (default (project_new_months config) 6)
    (default (min_sourcerank config) 5)
    (default (min_stars config) 100)
    (default (require_license config) true)
    (default (require_pypi config) false)
    (default (require_github config) false)
    (default (require_npm config) false)
    (default (require_conda config) false)
    (require_dockerhub config)
    (default (markdown_output_file config) "README.md")
    (default (generate_badges config) false)
    (default (generate_install_hints config) true)
    (default (generate_toc config) true)
    (default (generate_link_shortcuts config) false)
    (default (generate_legend config) true)
    (default (sort_by config) "sourcerank")
    (default (allowed_licenses config) (map License.spdx_id licenses)).

(** The configuration file without any key. *)
Definition no_configuration : Configuration :=
  mkConfiguration None None None None None None None None None None None
    None None None None None None None None.

(** ** Filters *)

(** Lines 678-694: the license of the project, simplified, and the list it
    is looked up in. *)
Definition project_license (l : string) : string :=
  match get_license l with
  | Some project_license_metadata =>
      simplify_str (License.spdx_id project_license_metadata)
  | None => simplify_str l
  end.

Definition allowed_licenses_simplified (allowed : list string) : list string :=
  fold_left
    (fun simplified license =>
       match get_license license with
       | Some license_metadata =>
           (simplified
              ++ [simplify_str (License.spdx_id license_metadata)])%list
       | None => simplified
       end)
    allowed (map simplify_str allowed).

(** One filter: [if condition: project_info.show = False] *)
Definition hide_when (condition : ProjectRecord -> bool) (p : ProjectRecord)
  : ProjectRecord :=
  if condition p then set_show (Some false) p else p.

(** Lines 678-694 *)
Definition license_not_allowed (configuration : Configuration)
  (p : ProjectRecord) : bool :=
  truthy (allowed_licenses configuration) && truthy (license p)
  && negb (mem (project_license (the (license p)))
             (allowed_licenses_simplified
                (match allowed_licenses configuration with
                 | Some allowed => allowed
                 | None => []
                 end))).

(** Lines 697-701 *)
Definition is_dead (configuration : Configuration) (p : ProjectRecord) : bool :=
  match updated_at p with
  | Some updated =>
      let project_inactive_month := diff_month now updated in
      truthy (project_dead_months configuration)
      && (int (project_dead_months configuration) <? project_inactive_month)
  | None => false
  end.

(** Lines 640-701 *)
Definition apply_filters (project_info : ProjectRecord)
  (configuration : Configuration) : ProjectRecord :=
  let p := set_show (Some true) project_info in
  (* Project should have atleast name, homepage, and an description longer
     than a few chars *)
  let p :=
    hide_when
      (fun p => negb (truthy (name p)) || negb (truthy (homepage p))
                || lacks_description (description p)) p in
  (* Do not show if project sourcerank less than min_sourcerank *)
  let p :=
    hide_when
      (fun p => truthy (min_sourcerank configuration) && truthy (sourcerank p)
                && (int (sourcerank p) <? int (min_sourcerank configuration))) p in
  (* Do not show if project stars less than min_stars *)
  let p :=
    hide_when
      (fun p => truthy (min_stars configuration) && truthy (star_count p)
                && (int (star_count p) <? int (min_stars configuration))) p in
  (* Do not show if license was not found *)
  let p :=
    hide_when
      (fun p => negb (truthy (license p))
                && truthy (require_license configuration)) p in
  (* Check platform requires *)
  let p :=
    hide_when
      (fun p => truthy (require_pypi configuration)
                && negb (truthy (pypi_url p))) p in
  let p :=
    hide_when
      (fun p => truthy (require_github configuration)
                && negb (truthy (github_url p))) p in
  let p :=
    hide_when
      (fun p => truthy (require_npm configuration)
                && negb (truthy (npm_url p))) p in
  let p :=
    hide_when
      (fun p => truthy (require_conda configuration)
                && negb (truthy (conda_url p))) p in
  let p :=
    hide_when
      (fun p => truthy (require_dockerhub configuration)
                && negb (truthy (dockerhub_url p))) p in
  (* Do not show if license is not in allowed_licenses *)
  let p := hide_when (license_not_allowed configuration) p in
  (* Do not show if project is dead *)
  hide_when (is_dead configuration) p.

(** ** Sorting *)

(** The key of [sort_project_list]; [None] when the function falls off
    its end because [sort_by] names no known key. *)
Definition sort_project_list (configuration : Configuration)
  (project : ProjectRecord) : option (Z * Z) :=
  let sourcerank' :=
    if truthy (sourcerank project) then int (sourcerank project) else 0 in
  let star_count' :=
    if truthy (star_count project) then int (star_count project) else 0 in
  if negb (truthy (sort_by configuration))
     || string_eqb_opt (sort_by configuration) "sourcerank" then
    (* this is also the default if nothing is set *)
    Some (sourcerank', star_count')
  else if string_eqb_opt (sort_by configuration) "star_count" then
    Some (star_count', sourcerank')
  else None.

(** [a < b] on pairs of integers *)
Definition tuple_ltb (a b : Z * Z) : bool :=
  (fst a <? fst b) || ((fst a =? fst b) && (snd a <? snd b)).

(** [a < b] on keys; comparing [None] raises. *)
Definition key_ltb (a b : option (Z * Z)) : option bool :=
  match a, b with
  | Some a, Some b => Some (tuple_ltb a b)
  | _, _ => None
  end.

(** [sorted(l, key=key, reverse=True)]: the stable sort, largest key first;
    records with equal keys keep the order they came in. [None] when a
    comparison raises. *)
Fixpoint insert_desc {A : Type} (key : A -> option (Z * Z)) (x : A) (l : list A)
  : option (list A) :=
  match l with
  | [] => Some [x]
  | y :: r =>
      match key_ltb (key x) (key y) with
      | Some true => option_map (cons y) (insert_desc key x r)
      | Some false => Some (x :: y :: r)
      | None => None
      end
  end.

Definition sorted_desc {A : Type} (key : A -> option (Z * Z)) (l : list A)
  : option (list A) :=
  fold_right
    (fun x sorted =>
       match sorted with Some s => insert_desc key x s | None => None end)
    (Some []) l.

(** Lines 619-637 *)
Definition sort_projects (projects : list ProjectRecord)
  (configuration : Configuration) : option (list ProjectRecord) :=
  sorted_desc (sort_project_list configuration) projects.

(** ** Tiers *)

(** [np.sort] *)
Fixpoint insert_asc (x : Z) (l : list Z) : list Z :=
  match l with
  | [] => [x]
  | y :: r => if x <=? y then x :: y :: r else y :: insert_asc x r
  end.

Definition np_sort (l : list Z) : list Z := fold_right insert_asc [] l.

(** The [float64] nearest to an integer that is not negative, ties going
    to the even significand. An integer of at most 53 bits is a float. *)
Definition round53 (a : Z) : Z :=
  if a <? 2 ^ 53 then a else
  let e := Z.log2 a - 52 in
  let m := a / 2 ^ e in
  let r := a mod 2 ^ e in
  let half := 2 ^ (e - 1) in
  let m' := if (r <? half) || (r =? half) && Z.even m then m else m + 1 in
  m' * 2 ^ e.

(** The [float64] nearest to an integer: what the comparison of an integer
    with a [float64] converts the integer to. *)
Definition float64 (x : Z) : Z := Z.sgn x * round53 (Z.abs x).

(** [x >= y] for an integer [x] and a [float64] [y] *)
Definition geq (x : Z) (y : Q) : bool := Qle_bool y (inject_Z (float64 x)).

(** Lines 471-480: the ranks of every category. *)
Definition collect_sourceranks (projects : list ProjectRecord) : dict (list Z) :=
  fold_left
    (fun sourcerank_placing project =>
       if negb (truthy (category project)) || negb (truthy (sourcerank project))
       then sourcerank_placing
       else
         let category := the (category project) in
         let ranks :=
           match dict_get category sourcerank_placing with
           | Some ranks => ranks
           | None => []
           end in
         dict_set category (ranks ++ [int (sourcerank project)])%list
           sourcerank_placing)
    projects [].

(** Lines 483-502: the tier of one project. *)
Definition place (sourcerank_placing : dict (list Z)) (project : ProjectRecord)
  : ProjectRecord :=
  if negb (truthy (sourcerank project)) then project else
  if negb (truthy (category project)) then project else
  match dict_get (the (category project)) sourcerank_placing with
  | Some ranks =>
      let placing_1 := np_percentile (rev (np_sort ranks)) 90 in
      let placing_2 := np_percentile (rev (np_sort ranks)) 60 in
      if geq (int (sourcerank project)) placing_1 then
        set_sourcerank_placing (Some 1) project
      else if geq (int (sourcerank project)) placing_2 then
        set_sourcerank_placing (Some 2) project
      else set_sourcerank_placing (Some 3) project
  | None => project
  end.

(** Lines 469-502 *)
Definition calc_sourcerank_placing (projects : list ProjectRecord)
  : list ProjectRecord :=
  map (place (collect_sourceranks projects)) projects.

(** ** Categories *)

(** A run that an exception may end: [None] when one escapes. *)
Definition Run (A : Type) : Type := option (Logged A).

Definition done {A : Type} (a : A) : Run A := Some (ret a).

Definition raise {A : Type} : Run A := None.

Definition lift {A : Type} (m : Logged A) : Run A := Some m.

Definition and_then {A B : Type} (m : Run A) (k : A -> Run B) : Run B :=
  match m with
  | Some (a, l1) =>
      match k a with
      | Some (b, l2) => Some (b, (l1 ++ l2)%list)
      | None => None
      end
  | None => None
  end.

Notation "x <~ m ;; k" := (and_then m (fun x => k))
  (at level 61, m at next level, right associativity).

(** [l.append(x)] on a list that line 523 or 527 has just created when
    it was missing or empty *)
Definition append (l : option (list ProjectRecord)) (x : ProjectRecord)
  : option (list ProjectRecord) :=
  Some ((if truthy l then match l with Some l => l | None => [] end else [])
          ++ [x])%list.

(** Lines 506-529, the body of the loop. [categories[project.category]]
    raises on a key that is not there. *)
Definition categorize_project (categories : odict Category.t)
  (project : ProjectRecord) : Run (odict Category.t) :=
  if negb (truthy (name project)) then
    lift (log INFO "A project name is required. Ignoring project." ;;
          ret categories)
  else if negb (truthy (homepage project)) then
    lift (log INFO ("A project homepage is required. Ignoring project: "
                    ++ the (name project)) ;;
          ret categories)
  else if lacks_description (description project) then
    (* project desc should also be longer than 10 chars *)
    lift (log INFO ("A project description is required with atleast "
                    ++ str_of_Z MIN_PROJECT_DESC_LENGTH
                    ++ " chars. Ignoring project: " ++ the (name project)) ;;
          ret categories)
  else
    match category project with
    | None => raise
    | Some key =>
        match od_get key categories with
        | None => raise
        | Some bucket =>
            if truthy (show project) then
              done (od_set key
                      (Category.mk (Category.category bucket)
                         (Category.title bucket) (Category.subtitle bucket)
                         (append (Category.projects bucket) project)
                         (Category.hidden_projects bucket))
                      categories)
            else
              done (od_set key
                      (Category.mk (Category.category bucket)
                         (Category.title bucket) (Category.subtitle bucket)
                         (Category.projects bucket)
                         (append (Category.hidden_projects bucket) project))
                      categories)
        end
    end.

(** Lines 505-529 *)
Definition categorize_projects (projects : list ProjectRecord)
  (categories : odict Category.t) : Run (odict Category.t) :=
  fold_left
    (fun state project =>
       categories <~ state ;; categorize_project categories project)
    projects (done categories).

(** Lines 532-540 *)
Definition update_project_category (project_info : ProjectRecord)
  (categories : odict Category.t) : Logged ProjectRecord :=
  let p :=
    if negb (truthy (category project_info)) then
      (* if category is not provided, put into others category *)
      set_category (Some DEFAULT_OTHERS_CATEGORY_ID) project_info
    else project_info in
  if negb (od_mem (the (category p)) categories) then
    log INFO ("Category " ++ the (category p)
              ++ " is not listed in the categories configuration.") ;;
    ret (set_category (Some DEFAULT_OTHERS_CATEGORY_ID) p)
  else ret p.

(** Lines 543-553. Every declared category carries its id. *)
Definition prepare_categories (input_categories : list (string * Category.t))
  : odict Category.t :=
  let categories :=
    fold_left (fun categories c => od_set (fst c) (snd c) categories)
      input_categories [] in
  if negb (od_mem DEFAULT_OTHERS_CATEGORY_ID categories) then
    (* Add others category at the last position *)
    od_set DEFAULT_OTHERS_CATEGORY_ID
      (Category.mk None (Some "Others") None None None) categories
  else categories.

(** ** The pipeline *)

(** [project_info.update(project)]: every key of [project] is written
    over the one of [project_info], a key bound to null as well. *)
Definition over {A : Type} (null : bool) (new old : option A) : option A :=
  match new with
  | Some _ => new
  | None => if null then None else old
  end.

Definition update (project_info : ProjectRecord) (project : Entry)
  : ProjectRecord :=
  let null key := mem key (null_keys project) in
  mkProject
    (over (null "name") (name project) (name project_info))
    (over (null "homepage") (homepage project) (homepage project_info))
    (over (null "description") (description project)
       (description project_info))
    (over (null "category") (category project) (category project_info))
    (over (null "license") (license project) (license project_info))
    (over (null "github_id") (github_id project) (github_id project_info))
    (over (null "github_url") (github_url project) (github_url project_info))
    (over (null "pypi_id") (pypi_id project) (pypi_id project_info))
    (over (null "pypi_url") (pypi_url project) (pypi_url project_info))
    (over (null "conda_id") (conda_id project) (conda_id project_info))
    (over (null "conda_url") (conda_url project) (conda_url project_info))
    (over (null "npm_id") (npm_id project) (npm_id project_info))
    (over (null "npm_url") (npm_url project) (npm_url project_info))
    (over (null "dockerhub_id") (dockerhub_id project)
       (dockerhub_id project_info))
    (over (null "dockerhub_url") (dockerhub_url project)
       (dockerhub_url project_info))
    (over (null "star_count") (star_count project) (star_count project_info))
    (over (null "fork_count") (fork_count project) (fork_count project_info))
    (over (null "contributor_count") (contributor_count project)
       (contributor_count project_info))
    (over (null "open_issue_count") (open_issue_count project)
       (open_issue_count project_info))
    (over (null "sourcerank") (sourcerank project) (sourcerank project_info))
    (over (null "pypi_monthly_downloads") (pypi_monthly_downloads project)
       (pypi_monthly_downloads project_info))
    (over (null "dockerhub_stars") (dockerhub_stars project)
       (dockerhub_stars project_info))
    (over (null "dockerhub_pulls") (dockerhub_pulls project)
       (dockerhub_pulls project_info))
    (over (null "created_at") (created_at project) (created_at project_info))
    (over (null "updated_at") (updated_at project) (updated_at project_info))
    (over (null "show") (show project) (show project_info))
    (over (null "sourcerank_placing") (sourcerank_placing project)
       (sourcerank_placing project_info)).

(** Lines 708-734: one turn of the loop over the catalog. The state is
    [projects_processed] and [unique_projects]. [project_info.name.lower()]
    raises when the entry has no name. *)
Definition collect_project (categories : odict Category.t)
  (configuration : Configuration)
  (state : list ProjectRecord * list string) (project : Entry)
  : Run (list ProjectRecord * list string) :=
  let (projects_processed, unique_projects) := state in
  match name project with
  | None => raise
  | Some project_name =>
      if mem (lower project_name) unique_projects then
        lift (log INFO ("Project " ++ project_name ++ " is duplicated.") ;;
              ret state)
      else
        let unique_projects := lower project_name :: unique_projects in
        project_info <~ lift (enrich project) ;;
        (* set the show flag for every project, if not shown it will be
           moved to the More section *)
        let project_info := apply_filters project_info configuration in
        (* make sure that all defined values (but not category) are
           guaranteed to be used *)
        let project_info := update project_info project in
        (* Check and update the project category *)
        project_info <~ lift (update_project_category project_info categories) ;;
        done ((projects_processed ++ [project_info])%list, unique_projects)
  end.

(** Lines 704-739 *)
Definition collect_projects_info (projects : list Entry)
  (categories : odict Category.t) (configuration : Configuration)
  : Run (list ProjectRecord) :=
  state <~ fold_left
             (fun state project =>
                state <~ state ;;
                collect_project categories configuration state project)
             projects (done ([], [])) ;;
  match sort_projects (fst state) configuration with
  | Some projects_processed => done (calc_sourcerank_placing projects_processed)
  | None => raise
  end.

End Pipeline.

(** * Properties *)

(** ** The merge rules, field by field *)

(** What a block "always use the highest number" leaves in its field. *)
Definition highest (current incoming : option Z) : option Z :=
  if truthy incoming then
    if negb (truthy current) then incoming
    else if int current <? int incoming then incoming
    else current
  else current.

(** What a block "always use the latest available date" leaves in its
    field; [seen] is the parsed date, [None] when parsing raised. A date
    that does not order with the one the field holds leaves the field as
    it is. *)
Definition later (current seen : option datetime) : option datetime :=
  match seen, current with
  | Some d, Some c => if dt_ltb c d then seen else current
  | Some _, None => seen
  | None, _ => current
  end.

(** The same for "always use the oldest available date". *)
Definition earlier (current seen : option datetime) : option datetime :=
  match seen, current with
  | Some d, Some c => if dt_ltb d c then seen else current
  | Some _, None => seen
  | None, _ => current
  end.

(** An answer of one provider, as the merge rules receive it. *)
Inductive adapter_result : Type :=
| FromGithubApi (github_info : GithubInfo.t)
| FromRepoLibio (github_info : RepoInfo.t)
| FromPackage (package_info : PackageInfo.t)
| FromDockerhub (dockerhub_info : DockerhubInfo.t).

Section Properties.
Context {ext : Externals}.

(** Merging one answer into a record. *)
Definition merge (project_info : ProjectRecord) (r : adapter_result)
  : Logged ProjectRecord :=
  match r with
  | FromGithubApi github_info => merge_github_api project_info github_info
  | FromRepoLibio github_info => merge_repo_libio project_info github_info
  | FromPackage package_info => update_package_via_libio project_info package_info
  | FromDockerhub dockerhub_info => merge_dockerhub project_info dockerhub_info
  end.

(** Folding a sequence of answers through the merge rules. *)
Definition merge_all (project_info : ProjectRecord) (rs : list adapter_result)
  : Logged ProjectRecord :=
  fold_left (fun state r => p <- state ;; merge p r) rs (ret project_info).

(** Line 721-723 of [collect_projects_info] *)
Definition default_updated_at (p : ProjectRecord) : ProjectRecord :=
  if negb (truthy (updated_at p)) && truthy (created_at p) then
    set_updated_at (created_at p) p
  else p.

(** The enrichment of a record by a sequence of answers: the fold, then the
    default of [updated_at]. *)
Definition enrich_with (project_info : ProjectRecord) (rs : list adapter_result)
  : Logged ProjectRecord :=
  p <- merge_all project_info rs ;;
  ret (default_updated_at p).

(** *** The writer *)

Lemma result_bind {A B : Type} (m : Logged A) (k : A -> Logged B) :
  result (bind m k) = result (k (result m)).
Proof.
  unfold bind, result. destruct m as [a l1]. cbn.
  destruct (k a) as [b l2]. reflexivity.
Qed.

Lemma entries_bind {A B : Type} (m : Logged A) (k : A -> Logged B) :
  entries (bind m k) = (entries m ++ entries (k (result m)))%list.
Proof.
  unfold bind, result, entries. destruct m as [a l1]. cbn.
  destruct (k a) as [b l2]. reflexivity.
Qed.

Lemma result_ret {A : Type} (a : A) : result (ret a) = a.
Proof. reflexivity. Qed.

Lemma merge_all_app p rs1 rs2 :
  result (merge_all p (rs1 ++ rs2))
  = result (merge_all (result (merge_all p rs1)) rs2).
Proof.
  unfold merge_all. rewrite fold_left_app.
  generalize (fold_left (fun state r => p0 <- state ;; merge p0 r) rs1 (ret p)).
  intros m. revert m.
  induction rs2 as [|r rs2 IH]; intros m; cbn [fold_left].
  - reflexivity.
  - rewrite IH. rewrite (IH (p0 <- ret (result m) ;; merge p0 r)).
    f_equal. f_equal. rewrite !result_bind. reflexivity.
Qed.

Lemma merge_all_cons p r rs :
  result (merge_all p (r :: rs)) = result (merge_all (result (merge p r)) rs).
Proof.
  change (r :: rs) with ([r] ++ rs)%list. rewrite merge_all_app.
  f_equal. f_equal. unfold merge_all. cbn [fold_left].
  rewrite result_bind. reflexivity.
Qed.

(** *** Each block writes one field, from that field and the answer *)

Ltac branches :=
  repeat match goal with
         | |- context [if ?b then _ else _] => destruct b
         end.

Lemma merge_star_count_eq inc p :
  merge_star_count inc p = set_star_count (highest (star_count p) inc) p.
Proof.
  unfold merge_star_count, highest.
  destruct inc as [z|]; cbn [truthy Truthy_option int];
    branches; destruct p; reflexivity.
Qed.

Lemma merge_fork_count_eq inc p :
  merge_fork_count inc p = set_fork_count (highest (fork_count p) inc) p.
Proof.
  unfold merge_fork_count, highest.
  destruct inc as [z|]; cbn [truthy Truthy_option int];
    branches; destruct p; reflexivity.
Qed.

Lemma merge_sourcerank_eq inc p :
  merge_sourcerank inc p = set_sourcerank (highest (sourcerank p) inc) p.
Proof.
  unfold merge_sourcerank, highest.
  destruct inc as [z|]; cbn [truthy Truthy_option int];
    branches; destruct p; reflexivity.
Qed.

Lemma merge_contributor_count_eq inc p :
  merge_contributor_count inc p
  = set_contributor_count (highest (contributor_count p) inc) p.
Proof.
  unfold merge_contributor_count, highest.
  destruct inc as [z|]; cbn [truthy Truthy_option int];
    branches; destruct p; reflexivity.
Qed.

Lemma merge_open_issue_count_eq inc p :
  merge_open_issue_count inc p
  = set_open_issue_count (highest (open_issue_count p) inc) p.
Proof.
  unfold merge_open_issue_count, highest.
  destruct inc as [z|]; cbn [truthy Truthy_option int];
    branches; destruct p; reflexivity.
Qed.

Lemma observe_updated_at_eq raw shown p :
  result (observe_updated_at raw shown p)
  = set_updated_at (later (updated_at p) (parse raw)) p.
Proof.
  unfold observe_updated_at, later, before, dt_ltb.
  destruct (parse raw) as [d|]; destruct p as [? ? ? ? ? ? ? ? ? ? ? ? ? ? ? ? ? ? ? ? ? ? ? ? u ? ?];
    cbn; [destruct u as [c|]; cbn; [destruct (dt_lt c d) as [[|]|]|] |];
    reflexivity.
Qed.

Lemma observe_created_at_eq raw p :
  result (observe_created_at raw p)
  = set_created_at (earlier (created_at p) (parse raw)) p.
Proof.
  unfold observe_created_at, earlier, after, dt_ltb.
  destruct (parse raw) as [d|]; destruct p as [? ? ? ? ? ? ? ? ? ? ? ? ? ? ? ? ? ? ? ? ? ? ? c ? ? ?];
    cbn; [destruct c as [c|]; cbn; [destruct (dt_lt d c) as [[|]|]|] |];
    reflexivity.
Qed.

(** The date a guarded [try] block gets to see. *)
Definition seen (raw : option string) : option datetime :=
  if truthy raw then parse (the raw) else None.

Lemma read_created_at_eq raw p :
  result (read_created_at raw p)
  = set_created_at (earlier (created_at p) (seen raw)) p.
Proof.
  unfold read_created_at, seen. destruct (truthy raw).
  - apply observe_created_at_eq.
  - destruct p; reflexivity.
Qed.

Lemma read_pushed_at_eq raw p :
  result (read_pushed_at raw p)
  = set_updated_at (later (updated_at p) (seen raw)) p.
Proof.
  unfold read_pushed_at, seen. destruct (truthy raw).
  - apply observe_updated_at_eq.
  - destruct p; reflexivity.
Qed.

Lemma libio_latest_release_eq i p :
  result (libio_latest_release i p)
  = set_updated_at
      (later (updated_at p) (seen (PackageInfo.latest_release_published_at i))) p.
Proof.
  unfold libio_latest_release, seen.
  destruct (truthy (PackageInfo.latest_release_published_at i)).
  - apply observe_updated_at_eq.
  - destruct p; reflexivity.
Qed.

(** The date the block on [versions] gets to see. *)
Definition seen_version (versions : list PackageInfo.version) : option datetime :=
  match versions with
  | v :: _ => parse (str_of (PackageInfo.published_at v))
  | [] => None
  end.

Lemma libio_versions_eq i p :
  result (libio_versions i p)
  = set_updated_at
      (later (updated_at p) (seen_version (PackageInfo.versions i))) p.
Proof.
  unfold libio_versions, seen_version.
  destruct (PackageInfo.versions i).
  - destruct p; reflexivity.
  - apply observe_updated_at_eq.
Qed.

Lemma dockerhub_last_updated_eq i p :
  result (dockerhub_last_updated i p)
  = set_updated_at
      (later (updated_at p) (seen (DockerhubInfo.last_updated i))) p.
Proof.
  unfold dockerhub_last_updated, seen.
  destruct (truthy (DockerhubInfo.last_updated i)).
  - apply observe_updated_at_eq.
  - destruct p; reflexivity.
Qed.

(** The first link of a package that is known. *)
Definition homepage_of_package (i : PackageInfo.t) (current : option string)
  : option string :=
  if negb (truthy current) then
    if known (PackageInfo.homepage i) then PackageInfo.homepage i
    else if known (PackageInfo.repository_url i) then PackageInfo.repository_url i
    else if known (PackageInfo.package_manager_url i) then
      PackageInfo.package_manager_url i
    else current
  else current.

Lemma libio_homepage_eq i p :
  libio_homepage i p = set_homepage (homepage_of_package i (homepage p)) p.
Proof.
  unfold libio_homepage, homepage_of_package. branches; destruct p; reflexivity.
Qed.

Definition name_of_package (i : PackageInfo.t) (current : option string)
  : option string :=
  if negb (truthy current) && truthy (PackageInfo.name i)
  then Some (PackageInfo.name i) else current.

Lemma libio_name_eq i p :
  libio_name i p = set_name (name_of_package i (name p)) p.
Proof.
  unfold libio_name, name_of_package. branches; destruct p; reflexivity.
Qed.

(** Whether lines 40-44 take the repository of the package. *)
Definition takes_repository (i : PackageInfo.t) (current_id : option string) : bool :=
  negb (truthy current_id) && truthy (PackageInfo.repository_url i)
  && contains "github" (the (PackageInfo.repository_url i))
  && truthy (urlparse_path (the (PackageInfo.repository_url i))).

Lemma libio_github_id_eq i p :
  libio_github_id i p
  = set_github_url
      (if takes_repository i (github_id p)
       then Some (the (PackageInfo.repository_url i)) else github_url p)
      (set_github_id
         (if takes_repository i (github_id p)
          then Some (strip "/" (urlparse_path (the (PackageInfo.repository_url i))))
          else github_id p) p).
Proof.
  unfold libio_github_id, takes_repository.
  destruct (negb (truthy (github_id p))); cbn [andb];
    [destruct (truthy (PackageInfo.repository_url i)); cbn [andb];
     [destruct (contains "github" (the (PackageInfo.repository_url i))); cbn [andb];
      [destruct (truthy (urlparse_path (the (PackageInfo.repository_url i))))|]|]|];
    destruct p; reflexivity.
Qed.

Definition license_of_package (i : PackageInfo.t) (current : option string)
  : option string :=
  if negb (truthy current) && truthy (PackageInfo.normalized_licenses i) then
    if String.eqb (lower (hd "" (PackageInfo.normalized_licenses i))) "other"
    then None else Some (hd "" (PackageInfo.normalized_licenses i))
  else current.

Lemma libio_license_eq i p :
  result (libio_license i p) = set_license (license_of_package i (license p)) p.
Proof.
  unfold libio_license, license_of_package.
  destruct (negb (truthy (license p)) && truthy (PackageInfo.normalized_licenses i)).
  - rewrite result_bind.
    destruct (String.eqb (lower (hd "" (PackageInfo.normalized_licenses i))) "other");
      reflexivity.
  - destruct p; reflexivity.
Qed.

Definition description_of (incoming current : option string) : option string :=
  if lacks_description current && truthy incoming then
    if truthy (process_description (the incoming))
    then Some (process_description (the incoming)) else current
  else current.

Lemma merge_description_eq incoming p :
  merge_description incoming p
  = set_description (description_of incoming (description p)) p.
Proof.
  unfold merge_description, description_of. branches; destruct p; reflexivity.
Qed.

Definition github_url_of_api (i : GithubInfo.t) (current : option string)
  : option string :=
  if negb (truthy current) && truthy (GithubInfo.url i)
  then GithubInfo.url i else current.

Lemma api_github_url_eq i p :
  api_github_url i p = set_github_url (github_url_of_api i (github_url p)) p.
Proof.
  unfold api_github_url, github_url_of_api. branches; destruct p; reflexivity.
Qed.

Lemma homepage_of_github_url_eq p :
  homepage_of_github_url p
  = set_homepage (if negb (truthy (homepage p)) then github_url p else homepage p) p.
Proof.
  unfold homepage_of_github_url. branches; destruct p; reflexivity.
Qed.

Definition license_of_api (i : GithubInfo.t) (current : option string)
  : option string :=
  if negb (truthy current)
     && truthy (GithubInfo.licenseInfo i)
     && truthy (spdxId (GithubInfo.licenseInfo i))
     && negb (String.eqb (lower (the (spdxId (GithubInfo.licenseInfo i))))
                "noassertion")
  then spdxId (GithubInfo.licenseInfo i) else current.

Lemma api_license_eq i p :
  api_license i p = set_license (license_of_api i (license p)) p.
Proof.
  unfold api_license, license_of_api.
  destruct (negb (truthy (license p)) && truthy (GithubInfo.licenseInfo i)
            && truthy (spdxId (GithubInfo.licenseInfo i))); cbn [andb].
  - branches; destruct p; reflexivity.
  - destruct p; reflexivity.
Qed.

Lemma repo_github_url_eq p :
  repo_github_url p
  = set_github_url
      (if negb (truthy (github_url p))
       then Some ("https://github.com/" ++ the (github_id p)) else github_url p) p.
Proof.
  unfold repo_github_url. branches; destruct p; reflexivity.
Qed.

Definition license_of_repo (i : RepoInfo.t) (current : option string)
  : option string :=
  if negb (truthy current) && truthy (RepoInfo.license i)
     && negb (String.eqb (lower (the (RepoInfo.license i))) "other")
  then RepoInfo.license i else current.

Lemma repo_license_eq i p :
  repo_license i p = set_license (license_of_repo i (license p)) p.
Proof.
  unfold repo_license, license_of_repo. branches; destruct p; reflexivity.
Qed.

Lemma dockerhub_star_count_eq i p :
  dockerhub_star_count i p
  = set_dockerhub_stars
      (if truthy (DockerhubInfo.star_count i)
       then DockerhubInfo.star_count i else dockerhub_stars p) p.
Proof.
  unfold dockerhub_star_count. branches; destruct p; reflexivity.
Qed.

Lemma dockerhub_pull_count_eq i p :
  dockerhub_pull_count i p
  = set_dockerhub_pulls
      (if truthy (DockerhubInfo.pull_count i)
       then DockerhubInfo.pull_count i else dockerhub_pulls p) p.
Proof.
  unfold dockerhub_pull_count. branches; destruct p; reflexivity.
Qed.

(** *** The four merges as a sequence of field writes *)

Ltac fields :=
  cbn [name homepage description category license github_id github_url pypi_id
       pypi_url conda_id conda_url npm_id npm_url dockerhub_id dockerhub_url
       star_count fork_count contributor_count open_issue_count sourcerank
       pypi_monthly_downloads dockerhub_stars dockerhub_pulls created_at
       updated_at show sourcerank_placing
       set_name set_homepage set_description set_category set_license
       set_github_id set_github_url set_pypi_url set_conda_url set_npm_url
       set_dockerhub_url set_star_count set_fork_count set_contributor_count
       set_open_issue_count set_sourcerank set_pypi_monthly_downloads
       set_dockerhub_stars set_dockerhub_pulls set_created_at set_updated_at
       set_show set_sourcerank_placing].

Ltac blocks :=
  rewrite ?result_bind, ?result_ret;
  rewrite ?merge_description_eq, ?merge_star_count_eq, ?merge_fork_count_eq,
    ?merge_sourcerank_eq, ?merge_contributor_count_eq,
    ?merge_open_issue_count_eq, ?libio_versions_eq, ?libio_latest_release_eq,
    ?libio_license_eq, ?libio_github_id_eq, ?libio_name_eq, ?libio_homepage_eq,
    ?read_pushed_at_eq, ?read_created_at_eq, ?api_license_eq,
    ?homepage_of_github_url_eq, ?api_github_url_eq, ?repo_license_eq,
    ?repo_github_url_eq, ?dockerhub_pull_count_eq, ?dockerhub_star_count_eq,
    ?dockerhub_last_updated_eq.

Lemma update_package_via_libio_eq p i :
  is_empty p = false ->
  result (update_package_via_libio p i)
  = mkProject
      (name_of_package i (name p))
      (homepage_of_package i (homepage p))
      (description_of (PackageInfo.description i) (description p))
      (category p)
      (license_of_package i (license p))
      (if takes_repository i (github_id p)
       then Some (strip "/" (urlparse_path (the (PackageInfo.repository_url i))))
       else github_id p)
      (if takes_repository i (github_id p)
       then Some (the (PackageInfo.repository_url i)) else github_url p)
      (pypi_id p) (pypi_url p) (conda_id p) (conda_url p) (npm_id p) (npm_url p)
      (dockerhub_id p) (dockerhub_url p)
      (highest (star_count p) (PackageInfo.stars i))
      (highest (fork_count p) (PackageInfo.forks i))
      (contributor_count p) (open_issue_count p)
      (highest (sourcerank p) (PackageInfo.rank i))
      (pypi_monthly_downloads p) (dockerhub_stars p) (dockerhub_pulls p)
      (created_at p)
      (later (later (updated_at p)
                (seen (PackageInfo.latest_release_published_at i)))
         (seen_version (PackageInfo.versions i)))
      (show p) (sourcerank_placing p).
Proof.
  intros Hp. unfold update_package_via_libio. rewrite Hp.
  cbv zeta. blocks. fields. reflexivity.
Qed.

Lemma update_package_via_libio_empty p i :
  is_empty p = true -> result (update_package_via_libio p i) = p.
Proof.
  intros Hp. unfold update_package_via_libio. rewrite Hp. reflexivity.
Qed.

Lemma merge_github_api_eq p i :
  result (merge_github_api p i)
  = mkProject
      (name p)
      (if negb (truthy (homepage p)) then github_url_of_api i (github_url p)
       else homepage p)
      (description_of (GithubInfo.description i) (description p))
      (category p)
      (license_of_api i (license p))
      (github_id p)
      (github_url_of_api i (github_url p))
      (pypi_id p) (pypi_url p) (conda_id p) (conda_url p) (npm_id p) (npm_url p)
      (dockerhub_id p) (dockerhub_url p)
      (highest (star_count p) (count (GithubInfo.stargazers i)))
      (highest (fork_count p) (count (GithubInfo.forks i)))
      (contributor_count p)
      (highest (open_issue_count p) (count (GithubInfo.issues i)))
      (sourcerank p)
      (pypi_monthly_downloads p) (dockerhub_stars p) (dockerhub_pulls p)
      (earlier (created_at p) (seen (GithubInfo.createdAt i)))
      (later (updated_at p) (seen (GithubInfo.pushedAt i)))
      (show p) (sourcerank_placing p).
Proof.
  unfold merge_github_api. cbv zeta. blocks. fields. reflexivity.
Qed.

Lemma merge_repo_libio_eq p i :
  result (merge_repo_libio p i)
  = mkProject
      (name p)
      (if negb (truthy (homepage p)) then
         if negb (truthy (github_url p))
         then Some ("https://github.com/" ++ the (github_id p)) else github_url p
       else homepage p)
      (description_of (RepoInfo.description i) (description p))
      (category p)
      (license_of_repo i (license p))
      (github_id p)
      (if negb (truthy (github_url p))
       then Some ("https://github.com/" ++ the (github_id p)) else github_url p)
      (pypi_id p) (pypi_url p) (conda_id p) (conda_url p) (npm_id p) (npm_url p)
      (dockerhub_id p) (dockerhub_url p)
      (highest (star_count p) (RepoInfo.stargazers_count i))
      (highest (fork_count p) (RepoInfo.forks_count i))
      (highest (contributor_count p) (RepoInfo.contributions_count i))
      (highest (open_issue_count p) (RepoInfo.open_issues_count i))
      (highest (sourcerank p) (RepoInfo.rank i))
      (pypi_monthly_downloads p) (dockerhub_stars p) (dockerhub_pulls p)
      (earlier (created_at p) (seen (RepoInfo.created_at i)))
      (later (updated_at p) (seen (RepoInfo.pushed_at i)))
      (show p) (sourcerank_placing p).
Proof.
  unfold merge_repo_libio. cbv zeta. blocks. fields. reflexivity.
Qed.

Lemma merge_dockerhub_eq p i :
  result (merge_dockerhub p i)
  = mkProject
      (name p) (homepage p)
      (description_of (DockerhubInfo.description i) (description p))
      (category p) (license p) (github_id p) (github_url p)
      (pypi_id p) (pypi_url p) (conda_id p) (conda_url p) (npm_id p) (npm_url p)
      (dockerhub_id p) (dockerhub_url p)
      (star_count p) (fork_count p) (contributor_count p) (open_issue_count p)
      (sourcerank p) (pypi_monthly_downloads p)
      (if truthy (DockerhubInfo.star_count i)
       then DockerhubInfo.star_count i else dockerhub_stars p)
      (if truthy (DockerhubInfo.pull_count i)
       then DockerhubInfo.pull_count i else dockerhub_pulls p)
      (created_at p)
      (later (updated_at p) (seen (DockerhubInfo.last_updated i)))
      (show p) (sourcerank_placing p).
Proof.
  unfold merge_dockerhub. cbv zeta. blocks. fields. reflexivity.
Qed.

Lemma named_not_empty p : name p <> None -> is_empty p = false.
Proof. destruct p as [[n|]]; [reflexivity | intros H; now elim H]. Qed.

Lemma name_merge p r : name p <> None -> name (result (merge p r)) <> None.
Proof.
  intros Hn. destruct r as [i|i|i|i]; cbn [merge].
  - rewrite merge_github_api_eq. exact Hn.
  - rewrite merge_repo_libio_eq. exact Hn.
  - rewrite update_package_via_libio_eq by (now apply named_not_empty).
    fields. unfold name_of_package.
    destruct (negb (truthy (name p)) && truthy (PackageInfo.name i));
      [discriminate | exact Hn].
  - rewrite merge_dockerhub_eq. exact Hn.
Qed.

(** ** Numeric metrics *)

Inductive metric : Type :=
| Popularity | Forks | Contributors | OpenIssues | Rank.

Definition metric_of (m : metric) (p : ProjectRecord) : option Z :=
  match m with
  | Popularity => star_count p
  | Forks => fork_count p
  | Contributors => contributor_count p
  | OpenIssues => open_issue_count p
  | Rank => sourcerank p
  end.

(** The value an answer supplies for a metric. The stars of Docker Hub go
    to [dockerhub_stars], a field of their own, not to the star count. *)
Definition supplied (m : metric) (r : adapter_result) : option Z :=
  match r, m with
  | FromGithubApi i, Popularity => count (GithubInfo.stargazers i)
  | FromGithubApi i, Forks => count (GithubInfo.forks i)
  | FromGithubApi i, OpenIssues => count (GithubInfo.issues i)
  | FromRepoLibio i, Popularity => RepoInfo.stargazers_count i
  | FromRepoLibio i, Forks => RepoInfo.forks_count i
  | FromRepoLibio i, Contributors => RepoInfo.contributions_count i
  | FromRepoLibio i, OpenIssues => RepoInfo.open_issues_count i
  | FromRepoLibio i, Rank => RepoInfo.rank i
  | FromPackage i, Popularity => PackageInfo.stars i
  | FromPackage i, Forks => PackageInfo.forks i
  | FromPackage i, Rank => PackageInfo.rank i
  | _, _ => None
  end.

(** The values that are present, in order. *)
Definition present (l : list (option Z)) : list Z :=
  flat_map (fun o => match o with Some z => [z] | None => [] end) l.

(** The values that are not zero. *)
Definition nonzero (l : list Z) : list Z := filter (fun z => negb (z =? 0)) l.

(** The largest value of a list, when it has one. *)
Definition maximum (l : list Z) : option Z :=
  match l with
  | [] => None
  | z :: r => Some (fold_left Z.max r z)
  end.

(** The metric after a fold: the largest of the values that count, and
    the field as it was when no value counts. *)
Definition merged_metric (initial : option Z) (incoming : list (option Z))
  : option Z :=
  match maximum (nonzero (present (initial :: incoming))) with
  | Some z => Some z
  | None => initial
  end.

Lemma metric_merge m p r :
  name p <> None ->
  metric_of m (result (merge p r)) = highest (metric_of m p) (supplied m r).
Proof.
  intros Hn. destruct r as [i|i|i|i]; cbn [merge].
  - rewrite merge_github_api_eq. destruct m; reflexivity.
  - rewrite merge_repo_libio_eq. destruct m; reflexivity.
  - rewrite update_package_via_libio_eq by (now apply named_not_empty).
    destruct m; reflexivity.
  - rewrite merge_dockerhub_eq. destruct m; reflexivity.
Qed.

Lemma metric_merge_all m p rs :
  name p <> None ->
  metric_of m (result (merge_all p rs))
  = fold_left highest (map (supplied m) rs) (metric_of m p).
Proof.
  revert p. induction rs as [|r rs IH]; intros p Hn.
  - reflexivity.
  - rewrite merge_all_cons, IH by (now apply name_merge).
    cbn [map fold_left]. now rewrite metric_merge.
Qed.

Lemma metric_default_updated_at m p :
  metric_of m (default_updated_at p) = metric_of m p.
Proof.
  unfold default_updated_at.
  destruct (negb (truthy (updated_at p)) && truthy (created_at p));
    destruct m; reflexivity.
Qed.

Lemma truthy_Z (z : Z) : truthy z = negb (z =? 0).
Proof. reflexivity. Qed.

Lemma truthy_Some {A : Type} `{Truthy A} (a : A) : truthy (Some a) = truthy a.
Proof. reflexivity. Qed.

Lemma truthy_nonzero (z : Z) : z <> 0 -> truthy z = true.
Proof. intros Hz. rewrite truthy_Z. apply Z.eqb_neq in Hz. now rewrite Hz. Qed.

Lemma highest_falsy current incoming :
  truthy incoming = false -> highest current incoming = current.
Proof. unfold highest. now intros ->. Qed.

Lemma highest_first current z :
  truthy current = false -> z <> 0 -> highest current (Some z) = Some z.
Proof.
  intros Hc Hz. unfold highest.
  rewrite truthy_Some, (truthy_nonzero z Hz), Hc. reflexivity.
Qed.

Lemma highest_max c z :
  c <> 0 -> z <> 0 -> highest (Some c) (Some z) = Some (Z.max c z).
Proof.
  intros Hc Hz. unfold highest.
  rewrite !truthy_Some, (truthy_nonzero z Hz), (truthy_nonzero c Hc).
  cbn [negb int]. destruct (c <? z) eqn:E.
  - apply Z.ltb_lt in E. now rewrite Z.max_r by lia.
  - apply Z.ltb_ge in E. now rewrite Z.max_l by lia.
Qed.

(** The value of one field that counts in a merge. *)
Definition counted (o : option Z) : list Z := nonzero (present [o]).

Lemma counted_cons o l :
  nonzero (present (o :: l)) = (counted o ++ nonzero (present l))%list.
Proof.
  unfold counted, nonzero, present. cbn [flat_map].
  rewrite app_nil_r. apply filter_app.
Qed.

Lemma counted_falsy o : truthy o = false -> counted o = [].
Proof.
  destruct o as [z|]; [|reflexivity].
  rewrite truthy_Some, truthy_Z. unfold counted. cbn.
  now intros ->.
Qed.

Lemma counted_truthy o :
  truthy o = true -> exists z, o = Some z /\ z <> 0 /\ counted o = [z].
Proof.
  destruct o as [z|]; [|discriminate].
  rewrite truthy_Some, truthy_Z. unfold counted. cbn.
  intros H. exists z. rewrite H. repeat split.
  apply Z.eqb_neq. now destruct (z =? 0).
Qed.

Lemma merged_metric_step current inc incoming :
  merged_metric (highest current inc) incoming
  = merged_metric current (inc :: incoming).
Proof.
  unfold merged_metric. rewrite !counted_cons.
  destruct (truthy inc) eqn:Hi.
  - destruct (counted_truthy _ Hi) as (z & -> & Hz & Cz). rewrite Cz.
    destruct (truthy current) eqn:Hc.
    + destruct (counted_truthy _ Hc) as (c & -> & Hc0 & Cc). rewrite Cc.
      rewrite highest_max by assumption.
      assert (Hm : Z.max c z <> 0) by lia.
      unfold counted at 1. cbn. apply Z.eqb_neq in Hm. rewrite Hm. reflexivity.
    + rewrite (counted_falsy _ Hc), highest_first by assumption.
      unfold counted at 1. cbn. apply Z.eqb_neq in Hz. rewrite Hz. reflexivity.
  - rewrite (counted_falsy _ Hi), highest_falsy by assumption. reflexivity.
Qed.

Lemma fold_highest incoming : forall current,
  fold_left highest incoming current = merged_metric current incoming.
Proof.
  induction incoming as [|inc incoming IH]; intros current.
  - unfold merged_metric. rewrite counted_cons. cbn [present flat_map nonzero filter].
    rewrite app_nil_r.
    destruct (truthy current) eqn:Hc.
    + destruct (counted_truthy _ Hc) as (c & -> & _ & ->). reflexivity.
    + now rewrite (counted_falsy _ Hc).
  - cbn [fold_left]. rewrite IH. apply merged_metric_step.
Qed.

Lemma highest_monotone current incoming c :
  current = Some c ->
  (forall z, incoming = Some z -> 0 <= z) ->
  exists c', highest current incoming = Some c' /\ c <= c'.
Proof.
  intros -> Hpos. unfold highest.
  destruct incoming as [z|]; [|exists c; split; [reflexivity | lia]].
  specialize (Hpos z eq_refl).
  rewrite !truthy_Some, !truthy_Z. cbn [int].
  destruct (z =? 0) eqn:Ez; cbn [negb]; [exists c; split; [reflexivity | lia]|].
  destruct (c =? 0) eqn:Ec; cbn [negb].
  - apply Z.eqb_eq in Ec. exists z. split; [reflexivity | lia].
  - destruct (c <? z) eqn:E.
    + apply Z.ltb_lt in E. exists z. split; [reflexivity | lia].
    + exists c. split; [reflexivity | lia].
Qed.

(** C2 (amended). After the enrichment fold every numeric metric is the
    largest of the values that count: the value the record came with and
    the values the sources supplied, zeros left out; a zero supplied by a
    source is no value, and when nothing counts the field is as it was. No
    merge step decreases a metric that is present, the supplied values
    being non-negative as the data model has them. *)
Theorem metrics_after_enrichment (p : ProjectRecord) (rs : list adapter_result)
  (m : metric) :
  name p <> None ->
  metric_of m (result (enrich_with p rs))
  = merged_metric (metric_of m p) (map (supplied m) rs)
  /\ (forall q r c,
        name q <> None ->
        metric_of m q = Some c ->
        (forall z, supplied m r = Some z -> 0 <= z) ->
        exists c', metric_of m (result (merge q r)) = Some c' /\ c <= c').
Proof.
  intros Hn. split.
  - unfold enrich_with. rewrite result_bind, result_ret.
    rewrite metric_default_updated_at, metric_merge_all by assumption.
    apply fold_highest.
  - intros q r c Hq Hc Hpos. rewrite metric_merge by assumption.
    now apply highest_monotone.
Qed.

(** C8 (amended). In every merge rule a metric of value 0 is treated like
    a missing one: a 0 that a source supplies leaves the field as it was,
    absent when it was absent, and a field that holds 0 or nothing takes
    any non-zero value that arrives, without a comparison. *)
Theorem zero_is_treated_as_absent (p : ProjectRecord) (r : adapter_result)
  (m : metric) :
  name p <> None ->
  (supplied m r = Some 0 ->
   metric_of m (result (merge p r)) = metric_of m p)
  /\ (forall z,
        truthy (metric_of m p) = false -> supplied m r = Some z -> z <> 0 ->
        metric_of m (result (merge p r)) = Some z).
Proof.
  intros Hn. rewrite metric_merge by assumption. split.
  - intros ->. now apply highest_falsy.
  - intros z Hc -> Hz. now apply highest_first.
Qed.

(** ** Dates *)

(** The dates of creation an answer lets the merge see, parsed. *)
Definition created_seen (r : adapter_result) : list (option datetime) :=
  match r with
  | FromGithubApi i => [seen (GithubInfo.createdAt i)]
  | FromRepoLibio i => [seen (RepoInfo.created_at i)]
  | _ => []
  end.

(** The dates of the last activity an answer lets the merge see, parsed. *)
Definition updated_seen (r : adapter_result) : list (option datetime) :=
  match r with
  | FromGithubApi i => [seen (GithubInfo.pushedAt i)]
  | FromRepoLibio i => [seen (RepoInfo.pushed_at i)]
  | FromPackage i =>
      [seen (PackageInfo.latest_release_published_at i);
       seen_version (PackageInfo.versions i)]
  | FromDockerhub i => [seen (DockerhubInfo.last_updated i)]
  end.














Lemma created_at_merge p r :
  name p <> None ->
  created_at (result (merge p r)) = fold_left earlier (created_seen r) (created_at p).
Proof.
  intros Hn. destruct r as [i|i|i|i]; cbn [merge].
  - now rewrite merge_github_api_eq.
  - now rewrite merge_repo_libio_eq.
  - now rewrite update_package_via_libio_eq by (now apply named_not_empty).
  - now rewrite merge_dockerhub_eq.
Qed.

Lemma updated_at_merge p r :
  name p <> None ->
  updated_at (result (merge p r)) = fold_left later (updated_seen r) (updated_at p).
Proof.
  intros Hn. destruct r as [i|i|i|i]; cbn [merge].
  - now rewrite merge_github_api_eq.
  - now rewrite merge_repo_libio_eq.
  - now rewrite update_package_via_libio_eq by (now apply named_not_empty).
  - now rewrite merge_dockerhub_eq.
Qed.



(** ** Merging the same answer twice *)

Lemma highest_idem current incoming :
  highest (highest current incoming) incoming = highest current incoming.
Proof.
  unfold highest. destruct (truthy incoming) eqn:Hi; [|reflexivity].
  destruct (negb (truthy current)) eqn:Hc.
  - rewrite Hi. cbn [negb]. now rewrite Z.ltb_irrefl.
  - destruct (int current <? int incoming) eqn:E.
    + rewrite Hi. cbn [negb]. now rewrite Z.ltb_irrefl.
    + now rewrite Hc, E.
Qed.

Lemma dt_ltb_irrefl d : dt_ltb d d = false.
Proof.
  unfold dt_ltb, dt_lt. destruct (kind_eqb (zone d) (zone d)); [|reflexivity].
  apply Z.ltb_irrefl.
Qed.

Lemma later_idem current s : later (later current s) s = later current s.
Proof.
  destruct s as [d|], current as [c|]; cbn; try reflexivity.
  - destruct (dt_ltb c d) eqn:E; cbn.
    + now rewrite dt_ltb_irrefl.
    + now rewrite E.
  - now rewrite dt_ltb_irrefl.
Qed.

Lemma earlier_idem current s : earlier (earlier current s) s = earlier current s.
Proof.
  destruct s as [d|], current as [c|]; cbn; try reflexivity.
  - destruct (dt_ltb d c) eqn:E; cbn.
    + now rewrite dt_ltb_irrefl.
    + now rewrite E.
  - now rewrite dt_ltb_irrefl.
Qed.

Lemma later_absorb current a b :
  later (later (later current a) b) a = later (later current a) b.
Proof.
  destruct a as [[a ka]|], b as [[b kb]|], current as [[c kc]|];
    try reflexivity;
    destruct ka; try destruct kb; try destruct kc;
    cbn; unfold dt_ltb, dt_lt; cbn;
    repeat match goal with
           | |- context [?x <? ?y] =>
               let E := fresh "E" in
               destruct (x <? y) eqn:E;
               [apply Z.ltb_lt in E | apply Z.ltb_ge in E]; cbn
           end;
    try reflexivity; try lia.
Qed.

Lemma later_twice current a b :
  later (later (later (later current a) b) a) b = later (later current a) b.
Proof. now rewrite (later_absorb current a b), later_idem. Qed.

Lemma homepage_of_package_idem i h :
  homepage_of_package i (homepage_of_package i h) = homepage_of_package i h.
Proof.
  unfold homepage_of_package.
  destruct (negb (truthy h)) eqn:Hh; [|now rewrite Hh].
  destruct (known (PackageInfo.homepage i)) eqn:K1.
  { now destruct (negb (truthy (PackageInfo.homepage i))). }
  destruct (known (PackageInfo.repository_url i)) eqn:K2.
  { now destruct (negb (truthy (PackageInfo.repository_url i))). }
  destruct (known (PackageInfo.package_manager_url i)) eqn:K3.
  { now destruct (negb (truthy (PackageInfo.package_manager_url i))). }
  now rewrite Hh.
Qed.

Lemma name_of_package_idem i n :
  name_of_package i (name_of_package i n) = name_of_package i n.
Proof.
  unfold name_of_package.
  destruct (negb (truthy n) && truthy (PackageInfo.name i)) eqn:E.
  - apply andb_prop in E. destruct E as [_ E].
    rewrite truthy_Some, E. reflexivity.
  - now rewrite E.
Qed.

Lemma license_of_package_idem i l :
  license_of_package i (license_of_package i l) = license_of_package i l.
Proof.
  unfold license_of_package.
  destruct (negb (truthy l) && truthy (PackageInfo.normalized_licenses i)) eqn:E.
  - apply andb_prop in E. destruct E as [_ E].
    destruct (String.eqb (lower (hd "" (PackageInfo.normalized_licenses i))) "other")
      eqn:O.
    + cbn [truthy Truthy_option negb andb]. now rewrite E.
    + now destruct (negb (truthy (Some (hd "" (PackageInfo.normalized_licenses i))))
                    && truthy (PackageInfo.normalized_licenses i)).
  - now rewrite E.
Qed.

Lemma description_of_idem incoming d :
  description_of incoming (description_of incoming d) = description_of incoming d.
Proof.
  unfold description_of.
  destruct (lacks_description d && truthy incoming) eqn:E; [|now rewrite E].
  destruct (truthy (process_description (the incoming))) eqn:T; [|now rewrite E].
  now destruct (lacks_description (Some (process_description (the incoming)))
                && truthy incoming).
Qed.

Lemma if_same {A : Type} (b : bool) (x : A) : (if b then x else x) = x.
Proof. now destruct b. Qed.

Lemma takes_repository_id_idem i gid :
  (if takes_repository i
        (if takes_repository i gid
         then Some (strip "/" (urlparse_path (the (PackageInfo.repository_url i))))
         else gid)
   then Some (strip "/" (urlparse_path (the (PackageInfo.repository_url i))))
   else if takes_repository i gid
        then Some (strip "/" (urlparse_path (the (PackageInfo.repository_url i))))
        else gid)
  = (if takes_repository i gid
     then Some (strip "/" (urlparse_path (the (PackageInfo.repository_url i))))
     else gid).
Proof.
  destruct (takes_repository i gid) eqn:T.
  - apply if_same.
  - now rewrite T.
Qed.

Lemma takes_repository_url_idem i gid gurl :
  (if takes_repository i
        (if takes_repository i gid
         then Some (strip "/" (urlparse_path (the (PackageInfo.repository_url i))))
         else gid)
   then Some (the (PackageInfo.repository_url i))
   else if takes_repository i gid
        then Some (the (PackageInfo.repository_url i)) else gurl)
  = (if takes_repository i gid
     then Some (the (PackageInfo.repository_url i)) else gurl).
Proof.
  destruct (takes_repository i gid) eqn:T.
  - apply if_same.
  - now rewrite T.
Qed.

Lemma github_url_of_api_idem i u :
  github_url_of_api i (github_url_of_api i u) = github_url_of_api i u.
Proof.
  unfold github_url_of_api.
  destruct (negb (truthy u) && truthy (GithubInfo.url i)) eqn:E.
  - apply andb_prop in E. destruct E as [_ E]. now rewrite E.
  - now rewrite E.
Qed.

Lemma license_of_api_idem i l :
  license_of_api i (license_of_api i l) = license_of_api i l.
Proof.
  unfold license_of_api.
  match goal with |- context [if ?c then _ else l] => destruct c eqn:E end.
  - match goal with |- (if ?c then _ else _) = _ => destruct c end; reflexivity.
  - now rewrite E.
Qed.

Lemma license_of_repo_idem i l :
  license_of_repo i (license_of_repo i l) = license_of_repo i l.
Proof.
  unfold license_of_repo.
  match goal with |- context [if ?c then _ else l] => destruct c eqn:E end.
  - match goal with |- (if ?c then _ else _) = _ => destruct c end; reflexivity.
  - now rewrite E.
Qed.

Lemma homepage_of_url_idem (h g : option string) :
  (if negb (truthy (if negb (truthy h) then g else h)) then g
   else if negb (truthy h) then g else h)
  = (if negb (truthy h) then g else h).
Proof.
  destruct (negb (truthy h)) eqn:Hh.
  - now destruct (negb (truthy g)).
  - now rewrite Hh.
Qed.

Lemma repo_url_idem (u : option string) (s : string) :
  (if negb (truthy (if negb (truthy u) then Some s else u)) then Some s
   else if negb (truthy u) then Some s else u)
  = (if negb (truthy u) then Some s else u).
Proof.
  destruct (negb (truthy u)) eqn:Hu.
  - now destruct (negb (truthy (Some s))).
  - now rewrite Hu.
Qed.

(** C7. Merging the answer of a provider a second time leaves the record
    as the first merge made it. *)
Theorem merge_idempotent (p : ProjectRecord) (r : adapter_result) :
  result (merge (result (merge p r)) r) = result (merge p r).
Proof.
  destruct r as [i|i|i|i]; cbn [merge].
  - rewrite !merge_github_api_eq. fields.
    rewrite github_url_of_api_idem, homepage_of_url_idem, description_of_idem,
      license_of_api_idem, !highest_idem, earlier_idem, later_idem.
    reflexivity.
  - rewrite !merge_repo_libio_eq. fields.
    rewrite repo_url_idem, homepage_of_url_idem, description_of_idem,
      license_of_repo_idem, !highest_idem, earlier_idem, later_idem.
    reflexivity.
  - destruct (is_empty p) eqn:Ep.
    + now rewrite !(update_package_via_libio_empty p i Ep).
    + rewrite (update_package_via_libio_eq p i Ep).
      match goal with |- result (update_package_via_libio ?q i) = _ =>
        destruct (is_empty q) eqn:Eq
      end.
      * now apply update_package_via_libio_empty.
      * rewrite update_package_via_libio_eq by exact Eq. fields.
        rewrite name_of_package_idem, homepage_of_package_idem,
          description_of_idem, license_of_package_idem, !highest_idem,
          takes_repository_id_idem, takes_repository_url_idem, later_twice.
        reflexivity.
  - rewrite !merge_dockerhub_eq. fields.
    rewrite description_of_idem, later_idem.
    destruct (truthy (DockerhubInfo.star_count i));
      destruct (truthy (DockerhubInfo.pull_count i)); reflexivity.
Qed.

(** ** Timestamps that do not parse *)

(** The places of an answer that hold a timestamp. *)
Inductive stamp : Type :=
| CreatedAt | PushedAt | LatestRelease | FirstVersion | LastUpdated.

(** [x] when the guard [if x:] lets it through *)
Definition guarded (x : option string) : option string :=
  if truthy x then x else None.

(** The text an answer hands to [parse] for a place, if it does. *)
Definition stamp_of (s : stamp) (r : adapter_result) : option string :=
  match s, r with
  | CreatedAt, FromGithubApi i => guarded (GithubInfo.createdAt i)
  | CreatedAt, FromRepoLibio i => guarded (RepoInfo.created_at i)
  | PushedAt, FromGithubApi i => guarded (GithubInfo.pushedAt i)
  | PushedAt, FromRepoLibio i => guarded (RepoInfo.pushed_at i)
  | LatestRelease, FromPackage i =>
      guarded (PackageInfo.latest_release_published_at i)
  | FirstVersion, FromPackage i =>
      match PackageInfo.versions i with
      | v :: _ => Some (str_of (PackageInfo.published_at v))
      | [] => None
      end
  | LastUpdated, FromDockerhub i => guarded (DockerhubInfo.last_updated i)
  | _, _ => None
  end.

(** The same answer without the timestamp of a place. *)
Definition drop_stamp (s : stamp) (r : adapter_result) : adapter_result :=
  match s, r with
  | CreatedAt, FromGithubApi i =>
      FromGithubApi
        (GithubInfo.mk (GithubInfo.url i) (GithubInfo.licenseInfo i) None
           (GithubInfo.pushedAt i) (GithubInfo.forks i) (GithubInfo.issues i)
           (GithubInfo.stargazers i) (GithubInfo.description i))
  | PushedAt, FromGithubApi i =>
      FromGithubApi
        (GithubInfo.mk (GithubInfo.url i) (GithubInfo.licenseInfo i)
           (GithubInfo.createdAt i) None (GithubInfo.forks i)
           (GithubInfo.issues i) (GithubInfo.stargazers i)
           (GithubInfo.description i))
  | CreatedAt, FromRepoLibio i =>
      FromRepoLibio
        (RepoInfo.mk (RepoInfo.license i) None (RepoInfo.pushed_at i)
           (RepoInfo.rank i) (RepoInfo.forks_count i)
           (RepoInfo.contributions_count i) (RepoInfo.open_issues_count i)
           (RepoInfo.stargazers_count i) (RepoInfo.description i))
  | PushedAt, FromRepoLibio i =>
      FromRepoLibio
        (RepoInfo.mk (RepoInfo.license i) (RepoInfo.created_at i) None
           (RepoInfo.rank i) (RepoInfo.forks_count i)
           (RepoInfo.contributions_count i) (RepoInfo.open_issues_count i)
           (RepoInfo.stargazers_count i) (RepoInfo.description i))
  | LatestRelease, FromPackage i =>
      FromPackage
        (PackageInfo.mk (PackageInfo.homepage i) (PackageInfo.repository_url i)
           (PackageInfo.package_manager_url i) (PackageInfo.name i)
           (PackageInfo.normalized_licenses i) None (PackageInfo.versions i)
           (PackageInfo.stars i) (PackageInfo.forks i) (PackageInfo.rank i)
           (PackageInfo.description i))
  | FirstVersion, FromPackage i =>
      FromPackage
        (PackageInfo.mk (PackageInfo.homepage i) (PackageInfo.repository_url i)
           (PackageInfo.package_manager_url i) (PackageInfo.name i)
           (PackageInfo.normalized_licenses i)
           (PackageInfo.latest_release_published_at i) []
           (PackageInfo.stars i) (PackageInfo.forks i) (PackageInfo.rank i)
           (PackageInfo.description i))
  | LastUpdated, FromDockerhub i =>
      FromDockerhub
        (DockerhubInfo.mk None (DockerhubInfo.star_count i)
           (DockerhubInfo.pull_count i) (DockerhubInfo.description i))
  | _, _ => r
  end.

(** What the warning prints for a place. *)
Definition shown (s : stamp) (raw : string) : string :=
  match s with LastUpdated => "{}" | _ => raw end.

(** The date field a place is merged into. *)
Definition date_of (s : stamp) (p : ProjectRecord) : option datetime :=
  match s with CreatedAt => created_at p | _ => updated_at p end.

Definition date_rule (s : stamp) : option datetime -> option datetime -> option datetime :=
  match s with CreatedAt => earlier | _ => later end.

(** The dates, parsed, that the other places of the answer give for the
    same field: a package has two places for [updated_at]. *)
Definition other_dates (s : stamp) (r : adapter_result) : list (option datetime) :=
  match s, r with
  | LatestRelease, FromPackage i => [seen_version (PackageInfo.versions i)]
  | FirstVersion, FromPackage i =>
      [seen (PackageInfo.latest_release_published_at i)]
  | _, _ => []
  end.

Lemma guarded_seen x raw :
  guarded x = Some raw -> seen x = parse raw.
Proof.
  unfold guarded, seen. destruct (truthy x); [|discriminate].
  now intros ->.
Qed.

Lemma observe_updated_at_fails raw text p :
  parse raw = None ->
  observe_updated_at raw text p
  = (p, [(WARNING, "Failed to parse timestamp: " ++ text)]).
Proof. unfold observe_updated_at. now intros ->. Qed.

Lemma observe_created_at_fails raw p :
  parse raw = None ->
  observe_created_at raw p
  = (p, [(WARNING, "Failed to parse timestamp: " ++ raw)]).
Proof. unfold observe_created_at. now intros ->. Qed.

Lemma guarded_the x raw : guarded x = Some raw -> truthy x = true /\ the x = raw.
Proof.
  unfold guarded. destruct (truthy x); [|discriminate].
  intros ->. now split.
Qed.

Lemma in_entries_bind_l {A B : Type} (m : Logged A) (k : A -> Logged B) e :
  In e (entries m) -> In e (entries (bind m k)).
Proof. intros H. rewrite entries_bind. apply in_or_app. now left. Qed.

Lemma in_entries_bind_r {A B : Type} (m : Logged A) (k : A -> Logged B) e :
  In e (entries (k (result m))) -> In e (entries (bind m k)).
Proof. intros H. rewrite entries_bind. apply in_or_app. now right. Qed.

Lemma warned_created x raw p :
  guarded x = Some raw -> parse raw = None ->
  In (WARNING, "Failed to parse timestamp: " ++ raw)
    (entries (read_created_at x p)).
Proof.
  intros Hg Hp. destruct (guarded_the _ _ Hg) as [Ht Hx].
  unfold read_created_at. rewrite Ht, Hx, observe_created_at_fails by assumption.
  now left.
Qed.

Lemma warned_pushed x raw p :
  guarded x = Some raw -> parse raw = None ->
  In (WARNING, "Failed to parse timestamp: " ++ raw)
    (entries (read_pushed_at x p)).
Proof.
  intros Hg Hp. destruct (guarded_the _ _ Hg) as [Ht Hx].
  unfold read_pushed_at. rewrite Ht, Hx, observe_updated_at_fails by assumption.
  now left.
Qed.

Lemma warned (p : ProjectRecord) (r : adapter_result) (s : stamp) (raw : string) :
  name p <> None ->
  stamp_of s r = Some raw ->
  parse raw = None ->
  In (WARNING, "Failed to parse timestamp: " ++ shown s raw) (entries (merge p r)).
Proof.
  intros Hn Hs Hp.
  destruct r as [i|i|i|i], s; cbn [stamp_of] in Hs; try discriminate;
    cbn [merge shown].
  - unfold merge_github_api. cbv zeta.
    apply in_entries_bind_l. now apply warned_created.
  - unfold merge_github_api. cbv zeta.
    apply in_entries_bind_r, in_entries_bind_l. now apply warned_pushed.
  - unfold merge_repo_libio. cbv zeta.
    apply in_entries_bind_l. now apply warned_created.
  - unfold merge_repo_libio. cbv zeta.
    apply in_entries_bind_r, in_entries_bind_l. now apply warned_pushed.
  - unfold update_package_via_libio. rewrite named_not_empty by assumption.
    cbv zeta. apply in_entries_bind_r, in_entries_bind_l.
    destruct (guarded_the _ _ Hs) as [Ht Hx].
    unfold libio_latest_release. cbv zeta.
    rewrite Ht, Hx, observe_updated_at_fails by assumption. now left.
  - unfold update_package_via_libio. rewrite named_not_empty by assumption.
    cbv zeta. apply in_entries_bind_r, in_entries_bind_r, in_entries_bind_l.
    unfold libio_versions.
    destruct (PackageInfo.versions i) as [|v vs]; [discriminate|].
    injection Hs as Hs. cbv zeta.
    rewrite Hs, observe_updated_at_fails by assumption. now left.
  - unfold merge_dockerhub. apply in_entries_bind_l.
    destruct (guarded_the _ _ Hs) as [Ht Hx].
    unfold dockerhub_last_updated.
    rewrite Ht, Hx, observe_updated_at_fails by assumption. now left.
Qed.

Lemma later_None current : later current None = current.
Proof. now destruct current. Qed.

Lemma earlier_None current : earlier current None = current.
Proof. now destruct current. Qed.

Lemma dropped (p : ProjectRecord) (r : adapter_result) (s : stamp) (raw : string) :
  stamp_of s r = Some raw ->
  parse raw = None ->
  result (merge p r) = result (merge p (drop_stamp s r)).
Proof.
  intros Hs Hp.
  destruct r as [i|i|i|i], s; cbn [stamp_of] in Hs; try discriminate;
    cbn [merge drop_stamp].
  - rewrite !merge_github_api_eq. cbn.
    now rewrite (guarded_seen _ _ Hs), Hp.
  - rewrite !merge_github_api_eq. cbn.
    now rewrite (guarded_seen _ _ Hs), Hp.
  - rewrite !merge_repo_libio_eq. cbn.
    now rewrite (guarded_seen _ _ Hs), Hp.
  - rewrite !merge_repo_libio_eq. cbn.
    now rewrite (guarded_seen _ _ Hs), Hp.
  - destruct (is_empty p) eqn:Ep.
    + now rewrite !update_package_via_libio_empty.
    + rewrite !update_package_via_libio_eq by assumption. cbn.
      now rewrite (guarded_seen _ _ Hs), Hp.
  - destruct (is_empty p) eqn:Ep.
    + now rewrite !update_package_via_libio_empty.
    + rewrite !update_package_via_libio_eq by assumption.
      cbn [PackageInfo.versions PackageInfo.latest_release_published_at
           PackageInfo.description PackageInfo.stars PackageInfo.forks
           PackageInfo.rank].
      destruct (PackageInfo.versions i) as [|v vs]; [discriminate|].
      injection Hs as Hs. cbn [seen_version]. rewrite Hs, Hp.
      reflexivity.
  - rewrite !merge_dockerhub_eq. cbn.
    now rewrite (guarded_seen _ _ Hs), Hp.
Qed.

(** C9. When a timestamp of an answer does not parse, the [try] block that
    reads it returns the record as it was and logs a warning. For the whole
    answer: the date field the timestamp would be merged into keeps its
    prior value (for a package, whose two timestamps go to [updated_at],
    the value the other one gives it), the warning is in the log, and the
    record is the one that merging the answer without the timestamp gives,
    so every other field is merged as usual. The merge is a total
    function: nothing is fatal. *)
Theorem timestamp_failure_is_not_fatal (p : ProjectRecord) (r : adapter_result)
  (s : stamp) (raw : string) :
  name p <> None ->
  stamp_of s r = Some raw ->
  parse raw = None ->
  (forall q text,
     observe_updated_at raw text q
     = (q, [(WARNING, "Failed to parse timestamp: " ++ text)]))
  /\ (forall q,
        observe_created_at raw q
        = (q, [(WARNING, "Failed to parse timestamp: " ++ raw)]))
  /\ date_of s (result (merge p r))
     = fold_left (date_rule s) (other_dates s r) (date_of s p)
  /\ In (WARNING, "Failed to parse timestamp: " ++ shown s raw)
       (entries (merge p r))
  /\ result (merge p r) = result (merge p (drop_stamp s r)).
Proof.
  intros Hn Hs Hp.
  split; [intros q text; now apply observe_updated_at_fails|].
  split; [intros q; now apply observe_created_at_fails|].
  split; [|split].
  - destruct s; cbn [date_of date_rule].
    + rewrite created_at_merge by assumption.
      destruct r as [i|i|i|i]; cbn [stamp_of] in Hs; try discriminate;
        cbn [created_seen other_dates fold_left];
        now rewrite (guarded_seen _ _ Hs), Hp, earlier_None.
    + rewrite updated_at_merge by assumption.
      destruct r as [i|i|i|i]; cbn [stamp_of] in Hs; try discriminate;
        cbn [updated_seen other_dates fold_left];
        now rewrite (guarded_seen _ _ Hs), Hp, later_None.
    + rewrite updated_at_merge by assumption.
      destruct r as [i|i|i|i]; cbn [stamp_of] in Hs; try discriminate.
      cbn [updated_seen other_dates fold_left].
      now rewrite (guarded_seen _ _ Hs), Hp, later_None.
    + rewrite updated_at_merge by assumption.
      destruct r as [i|i|i|i]; cbn [stamp_of] in Hs; try discriminate.
      cbn [updated_seen other_dates fold_left].
      destruct (PackageInfo.versions i) as [|v vs]; [discriminate|].
      injection Hs as Hs. cbn [seen_version].
      now rewrite Hs, Hp, later_None.
    + rewrite updated_at_merge by assumption.
      destruct r as [i|i|i|i]; cbn [stamp_of] in Hs; try discriminate.
      cbn [updated_seen other_dates fold_left].
      now rewrite (guarded_seen _ _ Hs), Hp, later_None.
  - now apply warned.
  - now apply (dropped p r s raw).
Qed.

(** ** Filters *)

(** The conditions of [apply_filters], each one as the code tests it. *)
Definition required_missing (p : ProjectRecord) : bool :=
  negb (truthy (name p)) || negb (truthy (homepage p))
  || lacks_description (description p).

(** A metric that is there and not zero, below a threshold that is there
    and not zero. *)
Definition below (threshold value : option Z) : bool :=
  truthy threshold && truthy value && (int value <? int threshold).

Definition license_missing (configuration : Configuration) (p : ProjectRecord)
  : bool :=
  negb (truthy (license p)) && truthy (require_license configuration).

Definition platform_missing (required : option bool) (url : option string)
  : bool :=
  truthy required && negb (truthy url).

Definition hidden_by (configuration : Configuration) (p : ProjectRecord) : bool :=
  required_missing p
  || below (min_sourcerank configuration) (sourcerank p)
  || below (min_stars configuration) (star_count p)
  || license_missing configuration p
  || platform_missing (require_pypi configuration) (pypi_url p)
  || platform_missing (require_github configuration) (github_url p)
  || platform_missing (require_npm configuration) (npm_url p)
  || platform_missing (require_conda configuration) (conda_url p)
  || platform_missing (require_dockerhub configuration) (dockerhub_url p)
  || license_not_allowed configuration p
  || is_dead configuration p.

(** The record of the end-to-end scenario, after enrichment: rank 8,
    popularity 150, no license. *)
Definition foo : ProjectRecord :=
  mkProject (Some "Foo") (Some "https://x") (Some "a tool that does X and Y")
    (Some "tools") None None None None None None None None None None None
    (Some 150) None None None (Some 8) None None None None None None None.

Lemma hide_when_eq condition p :
  hide_when condition p
  = set_show (if condition p then Some false else show p) p.
Proof. unfold hide_when. destruct (condition p); destruct p; reflexivity. Qed.

Lemma apply_filters_eq p configuration :
  apply_filters p configuration
  = set_show (Some (negb (hidden_by configuration p))) p.
Proof.
  unfold apply_filters. cbv zeta. rewrite !hide_when_eq.
  unfold license_not_allowed, is_dead. fields.
  unfold hidden_by, required_missing, below, license_missing, platform_missing,
    license_not_allowed, is_dead.
  destruct p; fields.
  repeat match goal with
         | |- context [if ?b then Some false else _] =>
             destruct b; rewrite ?orb_true_r, ?orb_false_r; cbn [orb negb];
             try reflexivity
         end.
Qed.

Lemma dict_get_licenses_map k m :
  dict_get k licenses_map = Some m -> In m licenses.
Proof.
  unfold licenses_map, licenses.
  cbn [fold_left License.name License.spdx_id License.keywords dict_set dict_get].
  repeat match goal with
         | |- (if ?b then _ else _) = _ -> _ => destruct b
         end;
    try discriminate;
    intros [= <-]; cbn; tauto.
Qed.

Lemma mem_true x l : In x l -> mem x l = true.
Proof.
  intros H. unfold mem. apply existsb_exists. exists x. split; [exact H|].
  apply String.eqb_refl.
Qed.

Lemma mem_app x l1 l2 : mem x l1 = true -> mem x (l1 ++ l2)%list = true.
Proof. unfold mem. rewrite existsb_app. now intros ->. Qed.

Lemma mem_allowed_licenses_simplified x allowed :
  In x (map simplify_str allowed) ->
  mem x (allowed_licenses_simplified allowed) = true.
Proof.
  intros H. unfold allowed_licenses_simplified.
  assert (G : forall l acc, mem x acc = true ->
                mem x (fold_left
                         (fun simplified license =>
                            match get_license license with
                            | Some license_metadata =>
                                (simplified
                                   ++ [simplify_str (License.spdx_id license_metadata)])%list
                            | None => simplified
                            end) l acc) = true).
  { induction l as [|a l IH]; intros acc Hacc; cbn [fold_left].
    - exact Hacc.
    - apply IH. destruct (get_license a); [now apply mem_app | exact Hacc]. }
  apply G. now apply mem_true.
Qed.

Lemma known_license_allowed l :
  (forall m, get_license l = Some m -> In m licenses) ->
  (get_license l = None -> In l (map License.spdx_id licenses)) ->
  mem (project_license l)
    (allowed_licenses_simplified (map License.spdx_id licenses)) = true.
Proof.
  intros Hs Hn. apply mem_allowed_licenses_simplified.
  unfold project_license. destruct (get_license l) as [m|].
  - rewrite map_map. apply in_map_iff. exists m. split; [reflexivity|].
    now apply Hs.
  - apply in_map. now apply Hn.
Qed.

(** C1 (amended). [apply_filters] sets the visibility flag to true exactly
    when none of its conditions holds, the conditions being those of
    [hidden_by]: a rank or a popularity that is zero is not compared with
    its threshold, a threshold that is zero compares with nothing, an
    empty allow-list refuses no license, and a dead-months setting of zero
    hides nothing. Under the default configuration the record of the
    scenario is hidden without a license and visible with the license MIT. *)
Theorem visibility (p : ProjectRecord) (configuration : Configuration) :
  show (apply_filters p configuration)
  = Some (negb (hidden_by configuration p))
  /\ show (apply_filters foo (prepare_configuration no_configuration))
     = Some false
  /\ show (apply_filters (set_license (Some "MIT") foo)
             (prepare_configuration no_configuration))
     = Some true.
Proof.
  rewrite !apply_filters_eq. fields. repeat split.
  f_equal.
  assert (H : license_not_allowed (prepare_configuration no_configuration)
                (set_license (Some "MIT") foo) = false).
  { unfold license_not_allowed.
    cbn [prepare_configuration no_configuration allowed_licenses default
         set_license foo license the truthy Truthy_option Truthy_list
         Truthy_string andb].
    rewrite known_license_allowed; [reflexivity | |].
    - intros m. apply dict_get_licenses_map.
    - intros _. cbn. tauto. }
  unfold hidden_by. rewrite H. reflexivity.
Qed.

(** ** Tiers *)

(** The rank distribution of a category: the ranks of the projects that
    name the category and have a rank that is not zero, in their order. *)
Definition ranked (p : ProjectRecord) : bool :=
  truthy (category p) && truthy (sourcerank p).

Definition category_ranks (projects : list ProjectRecord) (c : string) : list Z :=
  flat_map
    (fun p =>
       if ranked p && String.eqb (the (category p)) c
       then [int (sourcerank p)] else [])
    projects.

(** The tier of a rank within a distribution: the thresholds are the
    percentiles numpy answers for the distribution sorted from its largest
    value, as line 493 passes it. *)
Definition tier (ranks : list Z) (rank : Z) : Z :=
  if geq rank (np_percentile (rev (np_sort ranks)) 90) then 1
  else if geq rank (np_percentile (rev (np_sort ranks)) 60) then 2
  else 3.

(** The percentile by linear interpolation, which is numpy's default, as
    an exact number: the value at the position [(n - 1) * q / 100] of the
    sorted data. *)
Definition interpolated (a : list Z) (q : Z) : Q :=
  let s := np_sort a in
  let n := Z.of_nat (List.length s) in
  let lo := ((n - 1) * q) / 100 in
  let hi := Z.min (lo + 1) (n - 1) in
  let gamma := Qmake (((n - 1) * q) mod 100) 100 in
  let below := nth (Z.to_nat lo) s 0 in
  let above := nth (Z.to_nat hi) s 0 in
  (inject_Z below + inject_Z (above - below) * gamma)%Q.


Definition placed (projects : list ProjectRecord) (p : ProjectRecord)
  : ProjectRecord :=
  if ranked p then
    set_sourcerank_placing
      (Some (tier (category_ranks projects (the (category p)))
               (int (sourcerank p)))) p
  else p.

(** The ten projects of one category with the ranks 10, 20, ..., 100. *)
Definition ten_ranks : list Z := [10; 20; 30; 40; 50; 60; 70; 80; 90; 100].

Definition ten_projects : list ProjectRecord :=
  map (fun r => set_sourcerank (Some r) foo) ten_ranks.


Lemma insert_asc_comm x y s :
  insert_asc x (insert_asc y s) = insert_asc y (insert_asc x s).
Proof.
  induction s as [|z r IH]; cbn [insert_asc];
    repeat (match goal with
            | |- context [?a <=? ?b] => destruct (Z.leb_spec a b)
            end; cbn [insert_asc]);
    try reflexivity; try lia;
    try (assert (x = y) by lia; subst; reflexivity).
  now rewrite IH.
Qed.

Lemma np_sort_permutation l l' : Permutation l l' -> np_sort l = np_sort l'.
Proof.
  induction 1 as [|x l l' _ IH|x y l|l l' l'' _ IH1 _ IH2]; cbn [np_sort fold_right].
  - reflexivity.
  - unfold np_sort in IH. now rewrite IH.
  - apply insert_asc_comm.
  - congruence.
Qed.

Lemma insert_asc_permutation x l : Permutation (x :: l) (insert_asc x l).
Proof.
  induction l as [|y r IH]; cbn [insert_asc].
  - reflexivity.
  - destruct (x <=? y).
    + reflexivity.
    + rewrite perm_swap. now apply perm_skip.
Qed.

Lemma np_sort_is_permutation l : Permutation l (np_sort l).
Proof.
  induction l as [|x l IH]; cbn [np_sort fold_right].
  - reflexivity.
  - rewrite <- insert_asc_permutation. now apply perm_skip.
Qed.

(** A list, unless it is empty. *)
Definition unless_empty (l : list Z) : option (list Z) :=
  match l with [] => None | _ => Some l end.

Lemma category_ranks_app l1 l2 c :
  category_ranks (l1 ++ l2) c = (category_ranks l1 c ++ category_ranks l2 c)%list.
Proof. unfold category_ranks. apply flat_map_app. Qed.

Lemma collect_sourceranks_from projects : forall acc seen_so_far,
  (forall c, dict_get c acc = unless_empty (category_ranks seen_so_far c)) ->
  forall c,
    dict_get c
      (fold_left
         (fun sourcerank_placing project =>
            if negb (truthy (category project)) || negb (truthy (sourcerank project))
            then sourcerank_placing
            else
              let category := the (category project) in
              let ranks :=
                match dict_get category sourcerank_placing with
                | Some ranks => ranks
                | None => []
                end in
              dict_set category (ranks ++ [int (sourcerank project)])%list
                sourcerank_placing)
         projects acc)
    = unless_empty (category_ranks (seen_so_far ++ projects) c).
Proof.
  induction projects as [|p projects IH]; intros acc done Hacc c; cbn [fold_left].
  - now rewrite app_nil_r.
  - change (p :: projects) with ([p] ++ projects)%list. rewrite app_assoc.
    apply IH. clear c. intros c. rewrite category_ranks_app.
    unfold category_ranks at 2. cbn [flat_map]. rewrite app_nil_r.
    unfold ranked.
    destruct (truthy (category p)); cbn [negb orb andb];
      [|now rewrite app_nil_r].
    destruct (truthy (sourcerank p)); cbn [negb orb andb];
      [|now rewrite app_nil_r].
    cbv zeta. cbn [dict_set dict_get]. rewrite String.eqb_sym.
    destruct (String.eqb (the (category p)) c) eqn:E.
    + apply String.eqb_eq in E. subst c. rewrite Hacc.
      destruct (category_ranks done (the (category p))); reflexivity.
    + now rewrite app_nil_r.
Qed.

Lemma collect_sourceranks_eq projects c :
  dict_get c (collect_sourceranks projects)
  = unless_empty (category_ranks projects c).
Proof.
  unfold collect_sourceranks.
  now apply (collect_sourceranks_from projects [] []).
Qed.

Lemma category_ranks_in projects p :
  In p projects -> ranked p = true ->
  In (int (sourcerank p)) (category_ranks projects (the (category p))).
Proof.
  intros Hin Hr. unfold category_ranks. apply in_flat_map.
  exists p. split; [exact Hin|].
  rewrite Hr, String.eqb_refl. now left.
Qed.

Lemma place_eq projects p :
  In p projects ->
  place (collect_sourceranks projects) p = placed projects p.
Proof.
  intros Hin. unfold place, placed, ranked.
  destruct (truthy (sourcerank p)) eqn:Hs; cbn [negb];
    [|now rewrite andb_false_r].
  destruct (truthy (category p)) eqn:Hc; cbn [negb andb]; [|reflexivity].
  rewrite collect_sourceranks_eq.
  pose proof (category_ranks_in projects p Hin) as Hne.
  unfold ranked in Hne. rewrite Hs, Hc in Hne. specialize (Hne eq_refl).
  destruct (category_ranks projects (the (category p))) as [|r rs] eqn:E;
    [destruct Hne|].
  cbn [unless_empty]. cbv zeta. unfold tier.
  destruct (geq (int (sourcerank p))
              (np_percentile (rev (np_sort (r :: rs))) 90)); [reflexivity|].
  destruct (geq (int (sourcerank p))
              (np_percentile (rev (np_sort (r :: rs))) 60)); reflexivity.
Qed.







(** ** Category buckets *)

(** A project that [categorize_projects] does not skip. *)
Definition eligible (p : ProjectRecord) : bool :=
  truthy (name p) && truthy (homepage p)
  && negb (lacks_description (description p)).

Definition in_category (c : string) (p : ProjectRecord) : bool :=
  string_eqb_opt (category p) c.

(** The projects of a list that may be missing. *)
Definition elems (l : option (list ProjectRecord)) : list ProjectRecord :=
  match l with Some l => l | None => [] end.

Lemma od_get_od_set {V : Type} (c k : string) (v : V) (d : odict V) :
  od_get c (od_set k v d) = if String.eqb c k then Some v else od_get c d.
Proof.
  induction d as [|[k' v'] d IH]; cbn [od_set od_get].
  - reflexivity.
  - destruct (String.eqb k k') eqn:Ek; cbn [od_get].
    + apply String.eqb_eq in Ek. subst k'.
      now destruct (String.eqb c k).
    + rewrite IH. destruct (String.eqb c k') eqn:Ec; [|reflexivity].
      apply String.eqb_eq in Ec. subst k'.
      rewrite String.eqb_sym in Ek. now rewrite Ek.
Qed.

Lemma od_set_keys {V : Type} (k : string) (v : V) (d : odict V) :
  od_mem k d = true -> map fst (od_set k v d) = map fst d.
Proof.
  unfold od_mem. induction d as [|[k' v'] d IH]; cbn [od_set od_get map fst].
  - discriminate.
  - destruct (String.eqb k k'); cbn [map fst]; [reflexivity|].
    intros H. now rewrite IH.
Qed.

Lemma elems_append l x : elems (append l x) = (elems l ++ [x])%list.
Proof.
  unfold append, elems. destruct l as [[|y l]|]; reflexivity.
Qed.

Lemma categorize_project_skips categories p :
  eligible p = false ->
  option_map result (categorize_project categories p) = Some categories.
Proof.
  unfold eligible, categorize_project.
  destruct (truthy (name p)); cbn [negb andb]; [|reflexivity].
  destruct (truthy (homepage p)); cbn [negb andb]; [|reflexivity].
  destruct (lacks_description (description p)); cbn [negb]; [reflexivity|].
  discriminate.
Qed.

Lemma categorize_project_puts categories p c bucket :
  eligible p = true ->
  category p = Some c ->
  od_get c categories = Some bucket ->
  option_map result (categorize_project categories p)
  = Some (od_set c
            (if truthy (show p) then
               Category.mk (Category.category bucket) (Category.title bucket)
                 (Category.subtitle bucket)
                 (append (Category.projects bucket) p)
                 (Category.hidden_projects bucket)
             else
               Category.mk (Category.category bucket) (Category.title bucket)
                 (Category.subtitle bucket) (Category.projects bucket)
                 (append (Category.hidden_projects bucket) p))
            categories).
Proof.
  unfold eligible, categorize_project. intros He Hc Hg.
  destruct (truthy (name p)); cbn [negb andb] in *; [|discriminate].
  destruct (truthy (homepage p)); cbn [negb andb] in *; [|discriminate].
  destruct (lacks_description (description p)); cbn [negb] in *; [discriminate|].
  rewrite Hc, Hg. now destruct (truthy (show p)).
Qed.

(** What the buckets hold once the projects of a list are in. *)
Definition filled (projects : list ProjectRecord)
  (before after : odict Category.t) : Prop :=
  map fst after = map fst before
  /\ forall c bucket,
       od_get c before = Some bucket ->
       exists bucket',
         od_get c after = Some bucket'
         /\ elems (Category.projects bucket')
            = (elems (Category.projects bucket)
               ++ filter (fun p => eligible p && truthy (show p) && in_category c p)
                    projects)%list
         /\ elems (Category.hidden_projects bucket')
            = (elems (Category.hidden_projects bucket)
               ++ filter (fun p => eligible p && negb (truthy (show p))
                                   && in_category c p)
                    projects)%list.

Lemma filled_nil categories : filled [] categories categories.
Proof.
  split; [reflexivity|]. intros c bucket H. exists bucket.
  cbn [filter]. now rewrite !app_nil_r.
Qed.

Lemma filled_skip p projects middle after before :
  eligible p = false ->
  middle = before ->
  filled projects middle after ->
  filled (p :: projects) before after.
Proof.
  intros He -> [Hk Hf]. split; [exact Hk|].
  intros c bucket H. destruct (Hf c bucket H) as (b' & G & Hv & Hh).
  exists b'. cbn [filter]. rewrite He. cbn [andb]. now repeat split.
Qed.

Lemma filled_put p projects c bucket after before :
  eligible p = true ->
  category p = Some c ->
  od_get c before = Some bucket ->
  filled projects
    (od_set c
       (if truthy (show p) then
          Category.mk (Category.category bucket) (Category.title bucket)
            (Category.subtitle bucket) (append (Category.projects bucket) p)
            (Category.hidden_projects bucket)
        else
          Category.mk (Category.category bucket) (Category.title bucket)
            (Category.subtitle bucket) (Category.projects bucket)
            (append (Category.hidden_projects bucket) p))
       before)
    after ->
  filled (p :: projects) before after.
Proof.
  intros He Hc Hg [Hk Hf]. split.
  - rewrite Hk. apply od_set_keys. unfold od_mem. now rewrite Hg.
  - intros c0 bucket0 H0.
    specialize (Hf c0). rewrite od_get_od_set in Hf.
    assert (Hin : in_category c0 p = String.eqb c0 c).
    { unfold in_category. rewrite Hc. cbn [string_eqb_opt].
      apply String.eqb_sym. }
    cbn [filter]. rewrite He, Hin. cbn [andb].
    destruct (String.eqb c0 c) eqn:E.
    + apply String.eqb_eq in E. subst c0.
      rewrite Hg in H0. injection H0 as <-.
      destruct (Hf _ eq_refl) as (b' & G & Hv & Hh). exists b'.
      split; [exact G|]. rewrite Hv, Hh.
      destruct (truthy (show p));
        cbn [negb andb Category.projects Category.hidden_projects];
        rewrite ?elems_append, <- ?app_assoc; split; reflexivity.
    + rewrite !andb_false_r. exact (Hf bucket0 H0).
Qed.

Lemma categorize_projects_from projects : forall categories entries_so_far,
  (forall p, In p projects -> eligible p = true ->
             exists c, category p = Some c /\ od_mem c categories = true) ->
  exists categories',
    option_map result
      (fold_left
         (fun state project =>
            and_then state
              (fun categories => categorize_project categories project))
         projects (Some (categories, entries_so_far)))
    = Some categories'
    /\ filled projects categories categories'.
Proof.
  induction projects as [|p projects IH]; intros categories l Hall.
  - exists categories. split; [reflexivity | apply filled_nil].
  - cbn [fold_left and_then].
    destruct (eligible p) eqn:He.
    + destruct (Hall p (or_introl eq_refl) He) as (c & Hc & Hm).
      unfold od_mem in Hm.
      destruct (od_get c categories) as [bucket|] eqn:Hg; [|discriminate].
      pose proof (categorize_project_puts categories p c bucket He Hc Hg) as Hp.
      destruct (categorize_project categories p) as [[cats1 l1]|];
        [|discriminate].
      cbn [option_map result fst] in Hp. injection Hp as Hp.
      destruct (IH cats1 (l ++ l1)%list) as (cats' & Hr & Hf).
      { intros q Hq Hqe.
        destruct (Hall q (or_intror Hq) Hqe) as (cq & Hcq & Hmq).
        exists cq. split; [exact Hcq|].
        unfold od_mem in *. rewrite Hp, od_get_od_set.
        now destruct (String.eqb cq c). }
      exists cats'. split; [exact Hr|].
      rewrite Hp in Hf. now apply (filled_put p projects c bucket).
    + pose proof (categorize_project_skips categories p He) as Hp.
      destruct (categorize_project categories p) as [[cats1 l1]|];
        [|discriminate].
      cbn [option_map result fst] in Hp. injection Hp as Hp. subst cats1.
      destruct (IH categories (l ++ l1)%list) as (cats' & Hr & Hf).
      { intros q Hq Hqe. exact (Hall q (or_intror Hq) Hqe). }
      exists cats'. split; [exact Hr|].
      now apply (filled_skip p projects categories).
Qed.

(** C10. For projects whose category is a key of the buckets,
    [categorize_projects] returns the buckets in their order, and the
    visible list of a bucket has grown by the projects of its category
    whose show flag is truthy, the hidden list by those whose flag is
    falsy, both in the order of the input; a project without a name,
    without a homepage, or with a description that is absent or shorter
    than 10 characters is added to no list. *)
Theorem buckets_by_show_flag (projects : list ProjectRecord)
  (categories : odict Category.t) :
  (forall p, In p projects -> eligible p = true ->
             exists c, category p = Some c /\ od_mem c categories = true) ->
  exists categories',
    option_map result (categorize_projects projects categories)
    = Some categories'
    /\ filled projects categories categories'.
Proof.
  intros Hall. unfold categorize_projects, done, ret.
  now apply categorize_projects_from.
Qed.

(** ** The catalog loop *)

Context {net : Providers}.

(** Lines 715-732: what the loop makes of one entry of the catalog. *)
Definition process (categories : odict Category.t) (configuration : Configuration)
  (project : Entry) : Logged ProjectRecord :=
  bind (enrich project)
    (fun project_info =>
       update_project_category
         (update (apply_filters project_info configuration) project)
         categories).

(** The name the loop compares. *)
Definition key (p : ProjectRecord) : string := lower (the (name p)).

Definition occurred (earlier : list Entry) (p : Entry) : bool :=
  existsb (fun q : Entry => String.eqb (key q) (key p)) earlier.

(** The entries whose lowercased name has not occurred earlier in the
    catalog; [earlier] are the entries before the ones looked at. *)
Fixpoint first_occurrences_from (earlier projects : list Entry)
  : list Entry :=
  match projects with
  | [] => []
  | p :: r =>
      if occurred earlier p then first_occurrences_from (earlier ++ [p]) r
      else p :: first_occurrences_from (earlier ++ [p]) r
  end.

Definition first_occurrences (projects : list Entry) : list Entry :=
  first_occurrences_from [] projects.

(** The entries whose lowercased name has occurred earlier. *)
Fixpoint repeated_from (earlier projects : list Entry)
  : list Entry :=
  match projects with
  | [] => []
  | p :: r =>
      if occurred earlier p then p :: repeated_from (earlier ++ [p]) r
      else repeated_from (earlier ++ [p]) r
  end.

Definition repeated (projects : list Entry) : list Entry :=
  repeated_from [] projects.

(** The entry that line 711 logs. *)
Definition duplicated (n : string) : LogEntry :=
  (INFO, "Project " ++ n ++ " is duplicated.").

(** [sort_by] names a key that [sort_project_list] knows. *)
Definition sortable (configuration : Configuration) : bool :=
  negb (truthy (sort_by configuration))
  || string_eqb_opt (sort_by configuration) "sourcerank"
  || string_eqb_opt (sort_by configuration) "star_count".

Lemma collect_project_new categories configuration processed unique
  (project : Entry) n :
  name project = Some n ->
  mem (lower n) unique = false ->
  exists l,
    collect_project categories configuration (processed, unique) project
    = Some ((processed ++ [result (process categories configuration project)])%list,
            lower n :: unique, l).
Proof.
  intros Hn Hm. unfold collect_project, process. rewrite Hn, Hm.
  unfold lift, and_then, done, ret.
  destruct (enrich project) as [p1 l1]. rewrite result_bind. cbn [result fst].
  destruct (update_project_category _ categories) as [p2 l2].
  cbn [fst]. eexists. reflexivity.
Qed.

Lemma collect_project_repeated categories configuration processed unique
  (project : Entry) n :
  name project = Some n ->
  mem (lower n) unique = true ->
  collect_project categories configuration (processed, unique) project
  = Some (processed, unique, [duplicated n]).
Proof.
  intros Hn Hm. unfold collect_project. now rewrite Hn, Hm.
Qed.

Lemma occurred_app earlier (p q : Entry) :
  occurred (earlier ++ [q]) p = occurred earlier p || String.eqb (key q) (key p).
Proof. unfold occurred. rewrite existsb_app. cbn. now rewrite orb_false_r. Qed.

Lemma mem_cons x y l : mem x (y :: l) = String.eqb x y || mem x l.
Proof. reflexivity. Qed.

(** The loop from any of its states: [unique] holds the names of the
    entries seen so far. *)
Lemma collect_loop categories configuration (projects : list Entry) :
  forall processed unique earlier l,
    (forall p : Entry, In p projects -> name p <> None) ->
    (forall p : Entry, mem (key p) unique = occurred earlier p) ->
    exists unique' l',
      fold_left
        (fun state project =>
           and_then state
             (fun state =>
                collect_project categories configuration state project))
        projects (Some (processed, unique, l))
      = Some ((processed
               ++ map (fun p => result (process categories configuration p))
                    (first_occurrences_from earlier projects))%list,
              unique', (l ++ l')%list)
      /\ forall p, In p (repeated_from earlier projects) ->
           In (duplicated (the (name p))) l'.
Proof.
  induction projects as [|p projects IH];
    intros processed unique earlier l Hnamed Hinv.
  - exists unique, []. cbn. rewrite !app_nil_r. split; [reflexivity|].
    intros p [].
  - destruct (name p) as [n|] eqn:Hn;
      [|now elim (Hnamed p (or_introl eq_refl))].
    assert (Hk : key p = lower n) by (unfold key; now rewrite Hn).
    cbn [fold_left and_then first_occurrences_from repeated_from].
    pose proof (Hinv p) as Hp. rewrite Hk in Hp.
    destruct (occurred earlier p) eqn:Ho.
    + rewrite (collect_project_repeated _ _ _ _ _ n Hn Hp).
      destruct (IH processed unique (earlier ++ [p])%list
                  (l ++ [duplicated n])%list)
        as (u' & l' & Hr & Hl).
      { intros q Hq. apply Hnamed. now right. }
      { intros q. rewrite occurred_app, Hinv.
        destruct (occurred earlier q) eqn:Hq; [reflexivity|]. cbn [orb].
        unfold occurred in Ho. apply existsb_exists in Ho.
        destruct Ho as (x & Hx & Hxe). apply String.eqb_eq in Hxe.
        destruct (String.eqb (key p) (key q)) eqn:E; [|reflexivity].
        apply String.eqb_eq in E.
        assert (Hc : occurred earlier q = true).
        { unfold occurred. apply existsb_exists. exists x.
          split; [exact Hx|]. apply String.eqb_eq. congruence. }
        congruence. }
      exists u', (duplicated n :: l').
      split.
      * rewrite Hr. now rewrite <- app_assoc.
      * intros q [<-|Hq].
        -- rewrite Hn. now left.
        -- right. now apply Hl.
    + destruct (collect_project_new categories configuration processed unique
                  p n Hn Hp) as (l1 & Hc).
      rewrite Hc.
      destruct (IH (processed ++ [result (process categories configuration p)])%list
                  (lower n :: unique) (earlier ++ [p])%list (l ++ l1)%list)
        as (u' & l' & Hr & Hl).
      { intros q Hq. apply Hnamed. now right. }
      { intros q. rewrite occurred_app, mem_cons, Hinv, <- Hk.
        rewrite (String.eqb_sym (key q) (key p)). apply orb_comm. }
      exists u', (l1 ++ l')%list. split.
      * rewrite Hr. cbn [map]. now rewrite <- !app_assoc.
      * intros q Hq. apply in_or_app. right. now apply Hl.
Qed.

(** ** Explicit input *)

(** What the output record holds in a field, given what the catalog entry
    supplies for it: the value the entry binds the key to; nothing when
    the entry binds the key to null; and the derived value when the entry
    does not have the key. *)
Definition wins {A : Type} (null : bool) (supplied derived held : option A)
  : Prop :=
  match supplied with
  | Some v => held = Some v
  | None => if null then held = None else held = derived
  end.

(** Every field of [o] but the category and the tier holds what the
    catalog entry [project] supplies for it, and the value of [derived]
    where the entry does not have the key. *)
Definition explicit_or_derived (project : Entry) (derived o : ProjectRecord)
  : Prop :=
  let null key := mem key (null_keys project) in
  wins (null "name") (name project) (name derived) (name o) /\
  wins (null "homepage") (homepage project) (homepage derived) (homepage o) /\
  wins (null "description") (description project)
    (description derived) (description o) /\
  wins (null "license") (license project) (license derived) (license o) /\
  wins (null "github_id") (github_id project)
    (github_id derived) (github_id o) /\
  wins (null "github_url") (github_url project)
    (github_url derived) (github_url o) /\
  wins (null "pypi_id") (pypi_id project) (pypi_id derived) (pypi_id o) /\
  wins (null "pypi_url") (pypi_url project) (pypi_url derived) (pypi_url o) /\
  wins (null "conda_id") (conda_id project) (conda_id derived) (conda_id o) /\
  wins (null "conda_url") (conda_url project)
    (conda_url derived) (conda_url o) /\
  wins (null "npm_id") (npm_id project) (npm_id derived) (npm_id o) /\
  wins (null "npm_url") (npm_url project) (npm_url derived) (npm_url o) /\
  wins (null "dockerhub_id") (dockerhub_id project)
    (dockerhub_id derived) (dockerhub_id o) /\
  wins (null "dockerhub_url") (dockerhub_url project)
    (dockerhub_url derived) (dockerhub_url o) /\
  wins (null "star_count") (star_count project)
    (star_count derived) (star_count o) /\
  wins (null "fork_count") (fork_count project)
    (fork_count derived) (fork_count o) /\
  wins (null "contributor_count") (contributor_count project)
    (contributor_count derived) (contributor_count o) /\
  wins (null "open_issue_count") (open_issue_count project)
    (open_issue_count derived) (open_issue_count o) /\
  wins (null "sourcerank") (sourcerank project)
    (sourcerank derived) (sourcerank o) /\
  wins (null "pypi_monthly_downloads") (pypi_monthly_downloads project)
    (pypi_monthly_downloads derived) (pypi_monthly_downloads o) /\
  wins (null "dockerhub_stars") (dockerhub_stars project)
    (dockerhub_stars derived) (dockerhub_stars o) /\
  wins (null "dockerhub_pulls") (dockerhub_pulls project)
    (dockerhub_pulls derived) (dockerhub_pulls o) /\
  wins (null "created_at") (created_at project)
    (created_at derived) (created_at o) /\
  wins (null "updated_at") (updated_at project)
    (updated_at derived) (updated_at o) /\
  wins (null "show") (show project) (show derived) (show o).

Lemma wins_over {A : Type} (null : bool) (supplied derived : option A) :
  wins null supplied derived (over null supplied derived).
Proof. destruct supplied, null; reflexivity. Qed.

Lemma insert_desc_total {A : Type} (k : A -> option (Z * Z)) (x : A) (l : list A) :
  (forall y, k y <> None) ->
  exists s, insert_desc k x l = Some s /\ Permutation (x :: l) s.
Proof.
  intros Hk. induction l as [|y r (s & Hs & Hp)]; cbn [insert_desc].
  - exists [x]. now split.
  - unfold key_ltb.
    destruct (k x) as [kx|] eqn:Ex; [|now elim (Hk x)].
    destruct (k y) as [ky|] eqn:Ey; [|now elim (Hk y)].
    destruct (tuple_ltb kx ky).
    + rewrite Hs. exists (y :: s). split; [reflexivity|].
      rewrite perm_swap. now apply perm_skip.
    + exists (x :: y :: r). now split.
Qed.

Lemma sorted_desc_total {A : Type} (k : A -> option (Z * Z)) (l : list A) :
  (forall y, k y <> None) ->
  exists s, sorted_desc k l = Some s /\ Permutation l s.
Proof.
  intros Hk. induction l as [|x l (s & Hs & Hp)].
  - exists []. now split.
  - unfold sorted_desc in *. cbn [fold_right]. rewrite Hs.
    destruct (insert_desc_total k x s Hk) as (s' & Hs' & Hp').
    exists s'. split; [exact Hs'|].
    rewrite <- Hp'. now apply perm_skip.
Qed.

Lemma sortable_key configuration p :
  sortable configuration = true -> sort_project_list configuration p <> None.
Proof.
  unfold sortable, sort_project_list. intros H.
  destruct (negb (truthy (sort_by configuration))
            || string_eqb_opt (sort_by configuration) "sourcerank");
    [discriminate|].
  cbn [orb] in H. rewrite H. discriminate.
Qed.

Lemma first_occurrences_from_in earlier projects (p : Entry) :
  In p (first_occurrences_from earlier projects) -> In p projects.
Proof.
  revert earlier. induction projects as [|q r IH]; intros earlier;
    cbn [first_occurrences_from].
  - intros [].
  - destruct (occurred earlier q).
    + intros H. right. now apply (IH _ H).
    + intros [<-|H]; [now left | right; now apply (IH _ H)].
Qed.

Lemma first_occurrences_from_new earlier projects (p : Entry) :
  In p (first_occurrences_from earlier projects) -> occurred earlier p = false.
Proof.
  revert earlier. induction projects as [|q r IH]; intros earlier;
    cbn [first_occurrences_from].
  - intros [].
  - assert (G : In p (first_occurrences_from (earlier ++ [q]) r) ->
                occurred earlier p = false).
    { intros H. apply IH in H. rewrite occurred_app in H.
      now apply orb_false_elim in H. }
    destruct (occurred earlier q) eqn:Eq; [exact G|].
    intros [<-|H]; [exact Eq | now apply G].
Qed.

Lemma first_occurrences_from_NoDup earlier projects :
  NoDup (map (fun p : Entry => key p)
           (first_occurrences_from earlier projects)).
Proof.
  revert earlier. induction projects as [|q r IH]; intros earlier;
    cbn [first_occurrences_from].
  - constructor.
  - destruct (occurred earlier q); [apply IH|].
    cbn [map]. constructor; [|apply IH].
    intros Hin. apply in_map_iff in Hin. destruct Hin as (x & Hx & Hin).
    apply first_occurrences_from_new in Hin. rewrite occurred_app in Hin.
    apply orb_false_elim in Hin. destruct Hin as [_ Hin].
    rewrite Hx, String.eqb_refl in Hin. discriminate.
Qed.

Lemma update_project_category_fields p categories project derived :
  explicit_or_derived project derived p ->
  explicit_or_derived project derived
    (result (update_project_category p categories)).
Proof.
  unfold update_project_category, explicit_or_derived.
  destruct (negb (truthy (category p)));
    match goal with
    | |- context [if ?b then _ else _] => destruct b
    end; cbn; tauto.
Qed.

Lemma process_fields categories configuration project :
  explicit_or_derived project
    (apply_filters (result (enrich project)) configuration)
    (result (process categories configuration project)).
Proof.
  unfold process. rewrite result_bind.
  apply update_project_category_fields.
  unfold explicit_or_derived, update. cbv zeta. fields.
  repeat split; apply wins_over.
Qed.

Lemma place_fields d project derived p :
  explicit_or_derived project derived p ->
  explicit_or_derived project derived (place d p).
Proof.
  unfold place, explicit_or_derived.
  destruct (negb (truthy (sourcerank p))); [tauto|].
  destruct (negb (truthy (category p))); [tauto|].
  destruct (dict_get (the (category p)) d); [|tauto].
  cbv zeta.
  repeat match goal with
         | |- context [if ?b then _ else _] => destruct b
         end; cbn; tauto.
Qed.

Lemma name_process categories configuration (project : Entry) n :
  name project = Some n ->
  name (result (process categories configuration project)) = name project.
Proof.
  intros Hn.
  destruct (process_fields categories configuration project) as [H _].
  rewrite Hn in H. cbn [wins] in H. now rewrite H, Hn.
Qed.

Lemma name_place d p : name (place d p) = name p.
Proof.
  unfold place.
  destruct (negb (truthy (sourcerank p))); [reflexivity|].
  destruct (negb (truthy (category p))); [reflexivity|].
  destruct (dict_get (the (category p)) d); [|reflexivity].
  cbv zeta.
  repeat match goal with
         | |- context [if ?b then _ else _] => destruct b
         end; reflexivity.
Qed.

Lemma collect_projects_info_eq (projects : list Entry) categories
  configuration :
  (forall p : Entry, In p projects -> name p <> None) ->
  sortable configuration = true ->
  exists l sorted,
    collect_projects_info projects categories configuration
    = Some (calc_sourcerank_placing sorted, l)
    /\ sort_projects
         (map (fun p => result (process categories configuration p))
            (first_occurrences projects))
         configuration
       = Some sorted
    /\ Permutation
         (map (fun p => result (process categories configuration p))
            (first_occurrences projects))
         sorted
    /\ forall p, In p (repeated projects) -> In (duplicated (the (name p))) l.
Proof.
  intros Hnamed Hsort.
  destruct (collect_loop categories configuration projects [] [] [] []
              Hnamed (fun p => eq_refl)) as (u & l & Hloop & Hlog).
  destruct (sorted_desc_total (sort_project_list configuration)
              (map (fun p => result (process categories configuration p))
                 (first_occurrences projects))
              (fun p => sortable_key configuration p Hsort))
    as (sorted & Hs & Hp).
  exists (l ++ [])%list, sorted. repeat split.
  - unfold collect_projects_info.
    match goal with
    | |- and_then ?m _ = _ =>
        match type of Hloop with
        | _ = ?r => assert (E : m = r) by exact Hloop; rewrite E
        end
    end.
    cbn [and_then fst app]. unfold sort_projects.
    unfold first_occurrences in Hs. rewrite Hs. reflexivity.
  - exact Hs.
  - exact Hp.
  - intros p Hin. rewrite app_nil_r. now apply Hlog.
Qed.

(** C5. On a catalog whose entries all carry a name, and with a sort key
    that [sort_projects] knows, [collect_projects_info] returns: it
    processes the entries whose lowercased name has not occurred earlier
    in the catalog, and no other; every entry whose name has occurred is
    dropped after an info log. The list returned carries names that are
    unique without regard to case, and its records are what the loop
    makes of the first occurrences, sorted and given their tier. *)
Theorem duplicates_are_dropped (projects : list Entry)
  (categories : odict Category.t) (configuration : Configuration) :
  (forall p : Entry, In p projects -> name p <> None) ->
  sortable configuration = true ->
  exists out l sorted,
    collect_projects_info projects categories configuration = Some (out, l)
    /\ sort_projects
         (map (fun p => result (process categories configuration p))
            (first_occurrences projects))
         configuration
       = Some sorted
    /\ out = calc_sourcerank_placing sorted
    /\ Permutation (map name out)
         (map (fun p : Entry => name p) (first_occurrences projects))
    /\ NoDup (map key out)
    /\ forall p : Entry,
         In p (repeated projects) -> In (duplicated (the (name p))) l.
Proof.
  intros Hnamed Hsort.
  destruct (collect_projects_info_eq projects categories configuration
              Hnamed Hsort) as (l & sorted & Hc & Hs & Hp & Hl).
  exists (calc_sourcerank_placing sorted), l, sorted.
  assert (Hnames : Permutation (map name (calc_sourcerank_placing sorted))
                     (map (fun p : Entry => name p)
                        (first_occurrences projects))).
  { unfold calc_sourcerank_placing. rewrite map_map.
    rewrite (map_ext _ name (fun p => name_place _ p)).
    rewrite <- Hp, map_map. apply Permutation_refl'.
    apply map_ext_in. intros p Hin.
    apply first_occurrences_from_in in Hin.
    destruct (name p) as [n|] eqn:Hn; [|now elim (Hnamed p Hin)].
    rewrite <- Hn. now apply (name_process _ _ _ n). }
  repeat split; try assumption.
  apply (Permutation_NoDup
           (l := map (fun p : Entry => key p) (first_occurrences projects))).
  - change key with (fun p => lower (the (name p))).
    rewrite <- (map_map name (fun n => lower (the n))).
    rewrite <- (map_map (fun p : Entry => name p)
                  (fun n => lower (the n))).
    apply Permutation_map. now symmetry.
  - apply first_occurrences_from_NoDup.
Qed.

(** ** The adapters of the loop are such a fold *)

(** The answers the providers give for a record, in the order of lines
    715-719. *)
Definition github_api_answer (p : ProjectRecord) : list adapter_result :=
  if truthy (github_id p) && truthy github_api_token
     && contains "/" (the (github_id p)) then
    match github_graphql (nth 0 (split "/" (the (github_id p))) "")
            (nth 1 (split "/" (the (github_id p))) "") with
    | Ok200 github_info => [FromGithubApi github_info]
    | _ => []
    end
  else [].

Definition repo_libio_answer (p : ProjectRecord) : list adapter_result :=
  if truthy (github_id p) && contains "/" (the (github_id p)) then
    match search_repository (nth 0 (split "/" (the (github_id p))) "")
            (nth 1 (split "/" (the (github_id p))) "") with
    | Some github_info => [FromRepoLibio github_info]
    | None => []
    end
  else [].

Definition package_answer (m : manager) (id : option string)
  : list adapter_result :=
  if truthy id then
    match search_project m (the id) with
    | Some package_info => [FromPackage package_info]
    | None => []
    end
  else [].

Definition dockerhub_answer (p : ProjectRecord) : list adapter_result :=
  if truthy (dockerhub_id p) then
    match dockerhub_repository (the (dockerhub_id p)) with
    | Ok200 dockerhub_info => [FromDockerhub dockerhub_info]
    | _ => []
    end
  else [].

Definition answers (p : ProjectRecord) : list adapter_result :=
  (github_api_answer p ++ repo_libio_answer p
   ++ package_answer pypi (pypi_id p) ++ package_answer conda (conda_id p)
   ++ package_answer npm (npm_id p) ++ dockerhub_answer p)%list.

(** The metrics and the dates of a record. *)
Definition core (p : ProjectRecord) :=
  (star_count p, fork_count p, contributor_count p, open_issue_count p,
   sourcerank p, created_at p, updated_at p).

(** Two records with the same metrics, dates and registry ids. *)
Definition alike (s t : ProjectRecord) : Prop :=
  core s = core t /\ pypi_id s = pypi_id t /\ conda_id s = conda_id t
  /\ npm_id s = npm_id t /\ dockerhub_id s = dockerhub_id t.

Lemma merge_all_one p r : result (merge_all p [r]) = result (merge p r).
Proof. now rewrite merge_all_cons. Qed.

Lemma is_empty_true p :
  is_empty p = true ->
  p = mkProject None None None None None None None None None None None None
        None None None None None None None None None None None None None None
        None.
Proof.
  destruct p. unfold is_empty.
  repeat match goal with
         | |- context [match ?x with Some _ => _ | None => _ end] => destruct x
         end;
    try discriminate; reflexivity.
Qed.

Lemma truthy_not_empty_pypi p : truthy (pypi_id p) = true -> is_empty p = false.
Proof.
  intros H. destruct (is_empty p) eqn:E; [|reflexivity].
  apply is_empty_true in E. subst p. discriminate.
Qed.

Lemma truthy_not_empty_conda p : truthy (conda_id p) = true -> is_empty p = false.
Proof.
  intros H. destruct (is_empty p) eqn:E; [|reflexivity].
  apply is_empty_true in E. subst p. discriminate.
Qed.

Lemma truthy_not_empty_npm p : truthy (npm_id p) = true -> is_empty p = false.
Proof.
  intros H. destruct (is_empty p) eqn:E; [|reflexivity].
  apply is_empty_true in E. subst p. discriminate.
Qed.

Ltac not_empty :=
  match goal with
  | |- is_empty ?q = false =>
      let E := fresh "E" in
      destruct (is_empty q) eqn:E; [|reflexivity];
      apply is_empty_true in E; discriminate E
  end.

Lemma alike_package s t s' i :
  alike s t -> is_empty s' = false -> is_empty t = false ->
  core s' = core s -> pypi_id s' = pypi_id s -> conda_id s' = conda_id s ->
  npm_id s' = npm_id s -> dockerhub_id s' = dockerhub_id s ->
  alike (result (update_package_via_libio s' i))
    (result (update_package_via_libio t i)).
Proof.
  intros (Hc & H1 & H2 & H3 & H4) Es Et Hc' H1' H2' H3' H4'.
  rewrite !update_package_via_libio_eq by assumption.
  unfold alike, core in *. fields.
  rewrite Hc in Hc'. injection Hc' as -> -> -> -> -> -> ->.
  repeat split; congruence.
Qed.

Lemma alike_pypi s t :
  alike s t ->
  alike (result (update_via_pypi s))
    (result (merge_all t (package_answer pypi (pypi_id t)))).
Proof.
  intros H. pose proof H as (Hc & H1 & H2 & H3 & H4).
  unfold update_via_pypi, package_answer. rewrite <- H1.
  destruct (truthy (pypi_id s)) eqn:E; cbn [negb]; [|exact H].
  destruct (search_project pypi (the (pypi_id s))) as [i|]; [|exact H].
  rewrite merge_all_one. cbn [merge]. cbv zeta. rewrite result_bind.
  assert (Et : is_empty t = false)
    by (apply truthy_not_empty_pypi; now rewrite <- H1).
  match goal with
  | |- alike (result (match ?o with _ => _ end)) _ =>
      assert (G : forall q, alike q (result (update_package_via_libio t i)) ->
                            alike (result (match o with
                                           | Some downloads =>
                                               ret (set_pypi_monthly_downloads
                                                      (Some downloads) q)
                                           | None => ret q
                                           end))
                              (result (update_package_via_libio t i)))
  end.
  { intros q Hq. destruct (pypistats_recent (the (pypi_id s))); exact Hq. }
  apply G.
  destruct (negb (truthy (pypi_url s))).
  - apply (alike_package s t); try assumption; try reflexivity.
    not_empty.
  - apply (alike_package s t); try assumption; try reflexivity.
    now apply truthy_not_empty_pypi.
Qed.

Lemma alike_conda s t :
  alike s t ->
  alike (result (update_via_conda s))
    (result (merge_all t (package_answer conda (conda_id t)))).
Proof.
  intros H. pose proof H as (Hc & H1 & H2 & H3 & H4).
  unfold update_via_conda, package_answer. rewrite <- H2.
  destruct (truthy (conda_id s)) eqn:E; cbn [negb]; [|exact H].
  destruct (search_project conda (the (conda_id s))) as [i|]; [|exact H].
  rewrite merge_all_one. cbn [merge]. cbv zeta.
  assert (Et : is_empty t = false)
    by (apply truthy_not_empty_conda; now rewrite <- H2).
  destruct (negb (truthy (conda_url s))).
  - apply (alike_package s t); try assumption; try reflexivity.
    not_empty.
  - apply (alike_package s t); try assumption; try reflexivity.
    now apply truthy_not_empty_conda.
Qed.

Lemma alike_npm s t :
  alike s t ->
  alike (result (update_via_npm s))
    (result (merge_all t (package_answer npm (npm_id t)))).
Proof.
  intros H. pose proof H as (Hc & H1 & H2 & H3 & H4).
  unfold update_via_npm, package_answer. rewrite <- H3.
  destruct (truthy (npm_id s)) eqn:E; cbn [negb]; [|exact H].
  destruct (search_project npm (the (npm_id s))) as [i|]; [|exact H].
  rewrite merge_all_one. cbn [merge]. cbv zeta.
  assert (Et : is_empty t = false)
    by (apply truthy_not_empty_npm; now rewrite <- H3).
  destruct (negb (truthy (npm_url s))).
  - apply (alike_package s t); try assumption; try reflexivity.
    not_empty.
  - apply (alike_package s t); try assumption; try reflexivity.
    now apply truthy_not_empty_npm.
Qed.

Lemma alike_dockerhub s t :
  alike s t ->
  alike (result (update_via_dockerhub s))
    (result (merge_all t (dockerhub_answer t))).
Proof.
  intros H. pose proof H as (Hc & H1 & H2 & H3 & H4).
  unfold update_via_dockerhub, dockerhub_answer. rewrite <- H4.
  destruct (truthy (dockerhub_id s)) eqn:E; cbn [negb]; [|exact H].
  cbv zeta.
  remember (if negb (truthy (dockerhub_url s)) then _ else _) as s' eqn:Es'.
  assert (G : alike s' t).
  { subst s'. destruct (negb (truthy (dockerhub_url s))); [|exact H].
    unfold alike, core in *. now repeat split. }
  clear Es'.
  destruct (dockerhub_repository (the (dockerhub_id s))) as [i| |];
    [|exact G|exact G].
  rewrite merge_all_one. cbn [merge].
  rewrite !merge_dockerhub_eq.
  destruct G as (Gc & G1 & G2 & G3 & G4).
  unfold alike, core in *. fields.
  injection Gc as -> -> -> -> -> -> ->.
  repeat split; congruence.
Qed.

Lemma github_api_is_merge p :
  result (update_via_github_api p) = result (merge_all p (github_api_answer p)).
Proof.
  unfold update_via_github_api, github_api_answer.
  destruct (truthy (github_id p)); cbn [negb andb]; [|reflexivity].
  destruct (truthy github_api_token); cbn [negb andb]; [|reflexivity].
  destruct (contains "/" (the (github_id p))); cbn [negb]; [|reflexivity].
  cbv zeta.
  destruct (github_graphql _ _); [|reflexivity|reflexivity].
  now rewrite merge_all_one.
Qed.

Lemma repo_libio_is_merge p :
  result (update_repo_via_libio p) = result (merge_all p (repo_libio_answer p)).
Proof.
  unfold update_repo_via_libio, repo_libio_answer.
  destruct (truthy (github_id p)); cbn [negb andb]; [|reflexivity].
  destruct (contains "/" (the (github_id p))); cbn [negb]; [|reflexivity].
  cbv zeta.
  destruct (search_repository _ _); [|reflexivity].
  now rewrite merge_all_one.
Qed.

Lemma registry_ids_merge p r :
  pypi_id (result (merge p r)) = pypi_id p
  /\ conda_id (result (merge p r)) = conda_id p
  /\ npm_id (result (merge p r)) = npm_id p
  /\ dockerhub_id (result (merge p r)) = dockerhub_id p.
Proof.
  destruct r as [i|i|i|i]; cbn [merge].
  - now rewrite merge_github_api_eq.
  - now rewrite merge_repo_libio_eq.
  - destruct (is_empty p) eqn:E.
    + now rewrite update_package_via_libio_empty.
    + now rewrite update_package_via_libio_eq.
  - now rewrite merge_dockerhub_eq.
Qed.

Lemma registry_ids_merge_all rs : forall p,
  pypi_id (result (merge_all p rs)) = pypi_id p
  /\ conda_id (result (merge_all p rs)) = conda_id p
  /\ npm_id (result (merge_all p rs)) = npm_id p
  /\ dockerhub_id (result (merge_all p rs)) = dockerhub_id p.
Proof.
  induction rs as [|r rs IH]; intros p.
  - now repeat split.
  - rewrite merge_all_cons.
    destruct (IH (result (merge p r))) as (A1 & A2 & A3 & A4).
    destruct (registry_ids_merge p r) as (B1 & B2 & B3 & B4).
    repeat split; congruence.
Qed.

Lemma github_id_github_api_answer p :
  github_id (result (merge_all p (github_api_answer p))) = github_id p.
Proof.
  unfold github_api_answer.
  destruct (truthy (github_id p) && truthy github_api_token
            && contains "/" (the (github_id p))); [|reflexivity].
  destruct (github_graphql _ _); try reflexivity.
  rewrite merge_all_one. cbn [merge]. now rewrite merge_github_api_eq.
Qed.

Lemma alike_refl p : alike p p.
Proof. now repeat split. Qed.

Lemma core_default_updated_at s t :
  core s = core t -> core (default_updated_at s) = core (default_updated_at t).
Proof.
  intros H. unfold default_updated_at.
  assert (Hu : updated_at s = updated_at t) by (unfold core in H; congruence).
  assert (Hc : created_at s = created_at t) by (unfold core in H; congruence).
  rewrite Hu, Hc.
  destruct (negb (truthy (updated_at t)) && truthy (created_at t));
    [|exact H].
  unfold core in *. fields. congruence.
Qed.

(** The adapters of lines 715-723 leave in the metrics and the dates of a
    record what the fold of the answers of the providers leaves there. *)
Lemma enrich_is_a_fold (p : ProjectRecord) :
  core (result (enrich p)) = core (result (enrich_with p (answers p))).
Proof.
  unfold enrich, enrich_with, update_via_github, answers.
  rewrite !result_bind. rewrite !merge_all_app.
  rewrite github_api_is_merge, repo_libio_is_merge.
  set (t1 := result (merge_all p (github_api_answer p))).
  assert (E1 : repo_libio_answer t1 = repo_libio_answer p).
  { unfold repo_libio_answer. subst t1. now rewrite github_id_github_api_answer. }
  rewrite E1.
  set (t2 := result (merge_all t1 (repo_libio_answer p))).
  assert (I2 : pypi_id t2 = pypi_id p /\ conda_id t2 = conda_id p
               /\ npm_id t2 = npm_id p /\ dockerhub_id t2 = dockerhub_id p).
  { subst t2 t1.
    destruct (registry_ids_merge_all (repo_libio_answer p)
                (result (merge_all p (github_api_answer p))))
      as (A1 & A2 & A3 & A4).
    destruct (registry_ids_merge_all (github_api_answer p) p)
      as (B1 & B2 & B3 & B4).
    repeat split; congruence. }
  destruct I2 as (P2 & C2 & N2 & D2).
  pose proof (alike_pypi t2 t2 (alike_refl t2)) as A3. rewrite P2 in A3.
  set (s3 := result (update_via_pypi t2)) in *.
  set (t3 := result (merge_all t2 (package_answer pypi (pypi_id p)))) in *.
  assert (C3 : conda_id t3 = conda_id p).
  { subst t3. destruct (registry_ids_merge_all
                          (package_answer pypi (pypi_id p)) t2)
      as (_ & A & _). congruence. }
  pose proof (alike_conda s3 t3 A3) as A4. rewrite C3 in A4.
  set (s4 := result (update_via_conda s3)) in *.
  set (t4 := result (merge_all t3 (package_answer conda (conda_id p)))) in *.
  assert (N4 : npm_id t4 = npm_id p /\ dockerhub_id t4 = dockerhub_id p).
  { subst t4 t3.
    destruct (registry_ids_merge_all (package_answer conda (conda_id p))
                (result (merge_all t2 (package_answer pypi (pypi_id p)))))
      as (_ & _ & A & B).
    destruct (registry_ids_merge_all (package_answer pypi (pypi_id p)) t2)
      as (_ & _ & A' & B').
    split; congruence. }
  destruct N4 as (N4 & D4).
  pose proof (alike_npm s4 t4 A4) as A5. rewrite N4 in A5.
  set (s5 := result (update_via_npm s4)) in *.
  set (t5 := result (merge_all t4 (package_answer npm (npm_id p)))) in *.
  assert (D5 : dockerhub_answer t5 = dockerhub_answer p).
  { unfold dockerhub_answer. subst t5.
    destruct (registry_ids_merge_all (package_answer npm (npm_id p)) t4)
      as (_ & _ & _ & A).
    now rewrite A, D4. }
  pose proof (alike_dockerhub s5 t5 A5) as A6. rewrite D5 in A6.
  destruct A6 as (A6 & _).
  match goal with
  | |- core (result (if ?c then ret ?a else ret ?b)) = _ =>
      replace (result (if c then ret a else ret b))
        with (default_updated_at (result (update_via_dockerhub s5)))
        by (unfold default_updated_at; destruct c; reflexivity)
  end.
  rewrite !result_ret. now apply core_default_updated_at.
Qed.

(** * More of the code *)

(** ** [sort_projects] *)

(** The key a project is sorted by, once [sort_by] names one. *)
Definition sort_key (configuration : Configuration) (p : ProjectRecord) : Z * Z :=
  match sort_project_list configuration p with
  | Some k => k
  | None => (0, 0)
  end.

Definition tuple_eqb (a b : Z * Z) : bool :=
  (fst a =? fst b) && (snd a =? snd b).

(** No project comes before one with a larger key. *)
Definition descending (configuration : Configuration) (l : list ProjectRecord)
  : Prop :=
  StronglySorted
    (fun a b => tuple_ltb (sort_key configuration a) (sort_key configuration b)
                = false) l.

Lemma tuple_ltb_lt a b :
  tuple_ltb a b = true
  <-> fst a < fst b \/ (fst a = fst b /\ snd a < snd b).
Proof.
  unfold tuple_ltb. rewrite orb_true_iff, andb_true_iff.
  rewrite !Z.ltb_lt, Z.eqb_eq. tauto.
Qed.

Lemma tuple_ltb_ge a b :
  tuple_ltb a b = false
  <-> fst b < fst a \/ (fst a = fst b /\ snd b <= snd a).
Proof.
  unfold tuple_ltb. rewrite orb_false_iff, andb_false_iff.
  rewrite !Z.ltb_ge, Z.eqb_neq. lia.
Qed.

Lemma tuple_eqb_eq a b : tuple_eqb a b = true <-> a = b.
Proof.
  unfold tuple_eqb. rewrite andb_true_iff, !Z.eqb_eq.
  destruct a, b; cbn. split; [intros [-> ->]; reflexivity | intros [= -> ->]; now split].
Qed.

Lemma insert_desc_sorted configuration x s :
  sortable configuration = true ->
  descending configuration s ->
  exists s',
    insert_desc (sort_project_list configuration) x s = Some s'
    /\ descending configuration s'
    /\ Permutation (x :: s) s'
    /\ forall v,
         filter (fun p => tuple_eqb (sort_key configuration p) v) s'
         = filter (fun p => tuple_eqb (sort_key configuration p) v) (x :: s).
Proof.
  intros Hs. unfold descending.
  induction s as [|y r IH]; intros Hsorted; cbn [insert_desc].
  - exists [x]. repeat split; try reflexivity.
    constructor; constructor.
  - unfold key_ltb.
    pose proof (sortable_key configuration x Hs) as Hx.
    pose proof (sortable_key configuration y Hs) as Hy.
    assert (Kx : sort_project_list configuration x
                 = Some (sort_key configuration x))
      by (unfold sort_key; destruct (sort_project_list configuration x);
          [reflexivity | now elim Hx]).
    assert (Ky : sort_project_list configuration y
                 = Some (sort_key configuration y))
      by (unfold sort_key; destruct (sort_project_list configuration y);
          [reflexivity | now elim Hy]).
    rewrite Kx, Ky.
    inversion Hsorted as [|? ? Hr Hall]; subst.
    destruct (tuple_ltb (sort_key configuration x) (sort_key configuration y))
      eqn:E.
    + destruct (IH Hr) as (s' & Hi & Hd & Hp & Hf). rewrite Hi.
      exists (y :: s'). cbn [option_map]. repeat split.
      * constructor; [exact Hd|].
        apply (Permutation_Forall Hp). constructor; [|exact Hall].
        apply tuple_ltb_lt in E. apply tuple_ltb_ge. lia.
      * rewrite perm_swap. now apply perm_skip.
      * intros v. cbn [filter]. rewrite Hf. cbn [filter].
        destruct (tuple_eqb (sort_key configuration y) v) eqn:Ey;
          [|reflexivity].
        destruct (tuple_eqb (sort_key configuration x) v) eqn:Ex;
          [|reflexivity].
        apply tuple_eqb_eq in Ey, Ex. rewrite Ex, Ey in E.
        apply tuple_ltb_lt in E. lia.
    + exists (x :: y :: r). repeat split; try reflexivity.
      constructor; [exact Hsorted|].
      constructor; [exact E|].
      apply Forall_forall. intros z Hz.
      rewrite Forall_forall in Hall. specialize (Hall z Hz).
      apply tuple_ltb_ge in E, Hall. apply tuple_ltb_ge. lia.
Qed.

(** X1. With a sort key that [sort_project_list] knows, [sort_projects]
    returns the projects it was given, no project before one with a larger
    key, and the projects of equal key in the order they came in. *)
Theorem sort_projects_is_a_stable_sort (projects : list ProjectRecord)
  (configuration : Configuration) :
  sortable configuration = true ->
  exists sorted,
    sort_projects projects configuration = Some sorted
    /\ Permutation projects sorted
    /\ descending configuration sorted
    /\ forall v,
         filter (fun p => tuple_eqb (sort_key configuration p) v) sorted
         = filter (fun p => tuple_eqb (sort_key configuration p) v) projects.
Proof.
  intros Hs. unfold sort_projects, sorted_desc.
  induction projects as [|x l (s & Hl & Hp & Hd & Hf)]; cbn [fold_right].
  - exists []. repeat split; try reflexivity. constructor.
  - rewrite Hl.
    destruct (insert_desc_sorted configuration x s Hs Hd)
      as (s' & Hi & Hd' & Hp' & Hf').
    exists s'. repeat split; try assumption.
    + rewrite <- Hp'. now apply perm_skip.
    + intros v. rewrite Hf'. cbn [filter]. now rewrite Hf.
Qed.

(** X2. With a [sort_by] that names no key, the key function returns
    [None]: [sort_projects] raises as soon as there are two projects to
    compare, and returns a list of at most one project as it is. *)
Theorem sort_projects_unknown_key (projects : list ProjectRecord)
  (configuration : Configuration) :
  sortable configuration = false ->
  sort_projects projects configuration
  = match projects with
    | [] | [_] => Some projects
    | _ => None
    end.
Proof.
  intros Hs.
  assert (Hk : forall p, sort_project_list configuration p = None).
  { intros p. unfold sortable in Hs. unfold sort_project_list.
    apply orb_false_elim in Hs. destruct Hs as [Hs ->]. now rewrite Hs. }
  unfold sort_projects, sorted_desc.
  destruct projects as [|a [|b l]]; try reflexivity.
  cbn [fold_right].
  destruct (fold_right _ _ l) as [s|]; [|reflexivity].
  destruct s as [|y r]; cbn [insert_desc]; unfold key_ltb; rewrite ?Hk;
    cbn [insert_desc]; unfold key_ltb; rewrite ?Hk; reflexivity.
Qed.

(** ** [prepare_categories] and [update_project_category] *)

(** The declaration written last for an id. *)
Definition declared (c : string) (input_categories : list (string * Category.t))
  : option Category.t :=
  option_map snd
    (find (fun kv => String.eqb c (fst kv)) (rev input_categories)).

Lemma od_set_in {V : Type} (k k' : string) (v : V) (d : odict V) :
  In k' (map fst (od_set k v d)) -> k' = k \/ In k' (map fst d).
Proof.
  induction d as [|[k2 v2] d IH]; cbn [od_set map fst In].
  - intros [H|[]]. now left.
  - destruct (String.eqb k k2); cbn [map fst In].
    + intros H. now right.
    + intros [H|H]; [right; now left|].
      destruct (IH H) as [G|G]; [now left | right; now right].
Qed.

Lemma od_set_NoDup {V : Type} (k : string) (v : V) (d : odict V) :
  NoDup (map fst d) -> NoDup (map fst (od_set k v d)).
Proof.
  induction d as [|[k' v'] d IH]; cbn [od_set map fst]; intros H.
  - constructor; [intros [] | constructor].
  - destruct (String.eqb k k') eqn:E; cbn [map fst]; [exact H|].
    inversion H as [|? ? Hn Hd]; subst. constructor; [|now apply IH].
    intros Hin. apply od_set_in in Hin. destruct Hin as [->|Hin].
    + now rewrite String.eqb_refl in E.
    + now apply Hn.
Qed.

Lemma find_in_app {A : Type} (f : A -> bool) (l1 l2 : list A) :
  find f (l1 ++ l2)
  = match find f l1 with Some x => Some x | None => find f l2 end.
Proof.
  induction l1 as [|a l1 IH]; cbn [app find]; [reflexivity|].
  now destruct (f a).
Qed.

Lemma od_get_fold_set (input : list (string * Category.t)) : forall d c,
  od_get c (fold_left (fun categories kv => od_set (fst kv) (snd kv) categories)
              input d)
  = match declared c input with
    | Some v => Some v
    | None => od_get c d
    end.
Proof.
  unfold declared.
  induction input as [|[k v] input IH]; intros d c; cbn [fold_left].
  - reflexivity.
  - rewrite IH. cbn [rev fst snd]. rewrite find_in_app.
    destruct (find (fun kv => String.eqb c (fst kv)) (rev input)) as [kv|];
      [reflexivity|].
    cbn [find fst option_map snd]. rewrite od_get_od_set.
    now destruct (String.eqb c k).
Qed.

Lemma fold_set_NoDup (input : list (string * Category.t)) : forall d,
  NoDup (map fst d) ->
  NoDup (map fst (fold_left
                    (fun categories kv => od_set (fst kv) (snd kv) categories)
                    input d)).
Proof.
  induction input as [|[k v] input IH]; intros d H; cbn [fold_left].
  - exact H.
  - apply IH. now apply od_set_NoDup.
Qed.

(** X3. [prepare_categories] returns buckets whose ids are all different
    and among which is "others"; an id that is declared is bound to the
    declaration written last for it, and "others", when it is not
    declared, to the bucket titled "Others". *)
Theorem prepare_categories_spec (input_categories : list (string * Category.t)) :
  NoDup (map fst (prepare_categories input_categories))
  /\ od_mem DEFAULT_OTHERS_CATEGORY_ID (prepare_categories input_categories)
     = true
  /\ forall c,
       od_get c (prepare_categories input_categories)
       = match declared c input_categories with
         | Some v => Some v
         | None =>
             if String.eqb c DEFAULT_OTHERS_CATEGORY_ID
             then Some (Category.mk None (Some "Others") None None None)
             else None
         end.
Proof.
  unfold prepare_categories. cbv zeta.
  set (categories :=
         fold_left (fun categories c => od_set (fst c) (snd c) categories)
           input_categories []).
  assert (Hn : NoDup (map fst categories))
    by (apply fold_set_NoDup; constructor).
  assert (Hg : forall c,
             od_get c categories
             = match declared c input_categories with
               | Some v => Some v
               | None => None
               end)
    by (intros c; apply (od_get_fold_set input_categories [] c)).
  destruct (od_mem DEFAULT_OTHERS_CATEGORY_ID categories) eqn:M; cbn [negb].
  - split; [exact Hn|]. split; [exact M|].
    intros c. rewrite Hg.
    destruct (declared c input_categories) eqn:D; [reflexivity|].
    destruct (String.eqb c DEFAULT_OTHERS_CATEGORY_ID) eqn:E; [|reflexivity].
    apply String.eqb_eq in E. subst c.
    unfold od_mem in M. rewrite Hg, D in M. discriminate.
  - split; [now apply od_set_NoDup|]. split.
    + unfold od_mem. now rewrite od_get_od_set, String.eqb_refl.
    + intros c. rewrite od_get_od_set, Hg.
      destruct (String.eqb c DEFAULT_OTHERS_CATEGORY_ID) eqn:E.
      * apply String.eqb_eq in E. subst c.
        unfold od_mem in M. rewrite Hg in M.
        now destruct (declared DEFAULT_OTHERS_CATEGORY_ID input_categories).
      * reflexivity.
Qed.

(** X4. When "others" is one of the buckets, the category that
    [update_project_category] leaves on a record is the id of a bucket: the
    category the record has when that is the id of a bucket, and "others"
    when it has none, an empty one or one that is no bucket. Nothing is
    logged for a category that is the id of a bucket. *)
Theorem update_project_category_valid (p : ProjectRecord)
  (categories : odict Category.t) :
  od_mem DEFAULT_OTHERS_CATEGORY_ID categories = true ->
  (exists c,
     category (result (update_project_category p categories)) = Some c
     /\ od_mem c categories = true)
  /\ (truthy (category p) = true ->
      od_mem (the (category p)) categories = true ->
      update_project_category p categories = (p, []))
  /\ (truthy (category p) = false
      \/ od_mem (the (category p)) categories = false ->
      category (result (update_project_category p categories))
      = Some DEFAULT_OTHERS_CATEGORY_ID).
Proof.
  intros Ho. unfold update_project_category.
  destruct (truthy (category p)) eqn:T; cbn [negb].
  - destruct (od_mem (the (category p)) categories) eqn:M; cbn [negb].
    + split; [|split].
      * destruct (category p) as [c|] eqn:C; [|discriminate].
        exists c. now split.
      * reflexivity.
      * intros [H|H]; discriminate.
    + split; [|split].
      * exists DEFAULT_OTHERS_CATEGORY_ID. now split.
      * discriminate.
      * reflexivity.
  - fields. cbn [the]. rewrite Ho. cbn [negb].
    split; [|split].
    + exists DEFAULT_OTHERS_CATEGORY_ID. now split.
    + discriminate.
    + reflexivity.
Qed.

Lemma category_place d p : category (place d p) = category p.
Proof.
  unfold place.
  destruct (negb (truthy (sourcerank p))); [reflexivity|].
  destruct (negb (truthy (category p))); [reflexivity|].
  destruct (dict_get (the (category p)) d); [|reflexivity].
  cbv zeta. branches; reflexivity.
Qed.

Lemma category_process categories configuration project :
  od_mem DEFAULT_OTHERS_CATEGORY_ID categories = true ->
  exists c,
    category (result (process categories configuration project)) = Some c
    /\ od_mem c categories = true.
Proof.
  intros Ho. unfold process. rewrite result_bind.
  unfold update_project_category.
  match goal with
  | |- context [negb (truthy (category ?q))] => generalize q
  end.
  intros q. destruct (truthy (category q)) eqn:T; cbn [negb].
  - destruct (od_mem (the (category q)) categories) eqn:M; cbn [negb].
    + destruct (category q) as [c|] eqn:C; [|discriminate].
      exists c. now split.
    + exists DEFAULT_OTHERS_CATEGORY_ID. now split.
  - fields. cbn [the]. rewrite Ho. cbn [negb].
    exists DEFAULT_OTHERS_CATEGORY_ID. now split.
Qed.

(** X5. The projects that [collect_projects_info] returns can always be
    put into the buckets of [prepare_categories]: on a catalog whose
    entries carry a name, and with a known sort key,
    [categorize_projects] does not raise on them and fills the buckets
    with the ones it does not skip. *)
Theorem pipeline_fills_the_buckets (projects : list Entry)
  (input_categories : list (string * Category.t))
  (configuration : Configuration) :
  (forall p : Entry, In p projects -> name p <> None) ->
  sortable configuration = true ->
  exists out l categories',
    collect_projects_info projects (prepare_categories input_categories)
      configuration
    = Some (out, l)
    /\ option_map result
         (categorize_projects out (prepare_categories input_categories))
       = Some categories'
    /\ filled out (prepare_categories input_categories) categories'.
Proof.
  intros Hnamed Hsort.
  destruct (collect_projects_info_eq projects
              (prepare_categories input_categories) configuration
              Hnamed Hsort) as (l & sorted & Hc & _ & Hp & _).
  assert (Ho : od_mem DEFAULT_OTHERS_CATEGORY_ID
                 (prepare_categories input_categories) = true).
  { unfold prepare_categories. cbv zeta.
    match goal with
    | |- context [negb (od_mem _ ?d)] => destruct (od_mem DEFAULT_OTHERS_CATEGORY_ID d) eqn:M
    end; cbn [negb]; [exact M|].
    unfold od_mem. now rewrite od_get_od_set, String.eqb_refl. }
  destruct (categorize_projects_from (calc_sourcerank_placing sorted)
              (prepare_categories input_categories) [])
    as (cats' & Hr & Hf).
  { intros o Ho' _. unfold calc_sourcerank_placing in Ho'.
    apply in_map_iff in Ho'. destruct Ho' as (s & <- & Hs).
    apply (Permutation_in _ (Permutation_sym Hp)) in Hs.
    apply in_map_iff in Hs. destruct Hs as (project & <- & _).
    rewrite category_place. now apply category_process. }
  exists (calc_sourcerank_placing sorted), l, cats'.
  split; [exact Hc|]. split; [exact Hr | exact Hf].
Qed.

(** ** [get_license] and the filters *)

(** The keys under which [get_license] files a license. *)
Definition license_keys (l : License.t) : list string :=
  simplify_str (License.name l)
  :: simplify_str (License.spdx_id l)
  :: map simplify_str
       (match License.keywords l with Some k => k | None => [] end).

Lemma dict_get_in {V : Type} (k : string) (v : V) (d : dict V) :
  dict_get k d = Some v -> In (k, v) d.
Proof.
  induction d as [|[k' v'] d IH]; cbn [dict_get]; [discriminate|].
  destruct (String.eqb k k') eqn:E.
  - apply String.eqb_eq in E. subst k'. intros [= ->]. now left.
  - intros H. right. now apply IH.
Qed.

Lemma dict_get_none {V : Type} (k : string) (d : dict V) :
  dict_get k d = None <-> forall v, ~ In (k, v) d.
Proof.
  induction d as [|[k' v'] d IH]; cbn [dict_get].
  - split; [intros _ v [] | reflexivity].
  - destruct (String.eqb k k') eqn:E.
    + apply String.eqb_eq in E. subst k'. split; [discriminate|].
      intros H. elim (H v'). now left.
    + rewrite IH. apply String.eqb_neq in E. split.
      * intros H v [[= -> ->]|G]; [now elim E | now apply (H v)].
      * intros H v G. apply (H v). now right.
Qed.

Lemma licenses_map_in k l :
  In (k, l) licenses_map <-> In l licenses /\ In k (license_keys l).
Proof.
  unfold licenses_map, licenses, license_keys.
  cbn [fold_left License.name License.spdx_id License.keywords dict_set In map].
  split.
  - intros H.
    repeat (destruct H as [H|H];
            [injection H as <- <-; cbn; split;
             [repeat (first [left; reflexivity | right])
             | repeat (first [left; reflexivity | right])]|]).
    destruct H.
  - intros [Hl Hk].
    repeat (destruct Hl as [Hl|Hl];
            [subst l; cbn in Hk;
             repeat (destruct Hk as [Hk|Hk];
                     [subst k; repeat (first [left; reflexivity | right])|]);
             destruct Hk|]).
    destruct Hl.
Qed.

(** X6. [get_license] answers with a license of the table that is filed
    under the simplified query, as its name, its SPDX id or one of its
    keywords, and with [None] exactly when no license of the table is
    filed under it. *)
Theorem get_license_spec (query : string) :
  (forall l,
     get_license query = Some l ->
     In l licenses /\ In (simplify_str query) (license_keys l))
  /\ (get_license query = None
      <-> forall l, In l licenses -> ~ In (simplify_str query) (license_keys l)).
Proof.
  unfold get_license. split.
  - intros l H. apply dict_get_in in H. now apply licenses_map_in.
  - rewrite dict_get_none. split.
    + intros H l Hl Hk. apply (H l). apply licenses_map_in. now split.
    + intros H l Hin. apply licenses_map_in in Hin. destruct Hin as [Hl Hk].
      now apply (H l).
Qed.

Lemma allowed_licenses_simplified_in x allowed :
  In x (allowed_licenses_simplified allowed) ->
  In x (map simplify_str allowed)
  \/ exists l, In l licenses /\ x = simplify_str (License.spdx_id l).
Proof.
  unfold allowed_licenses_simplified.
  assert (G : forall l acc,
             In x (fold_left
                     (fun simplified license =>
                        match get_license license with
                        | Some license_metadata =>
                            (simplified
                               ++ [simplify_str
                                     (License.spdx_id license_metadata)])%list
                        | None => simplified
                        end) l acc) ->
             In x acc
             \/ exists l, In l licenses
                          /\ x = simplify_str (License.spdx_id l)).
  { induction l as [|a l IH]; intros acc; cbn [fold_left].
    - intros H. now left.
    - intros H. apply IH in H. destruct H as [H|H]; [|now right].
      destruct (get_license a) as [m|] eqn:E; [|now left].
      apply in_app_or in H. destruct H as [H|[<-|[]]]; [now left|].
      right. exists m. split; [|reflexivity].
      apply dict_get_in in E. apply licenses_map_in in E. tauto. }
  apply G.
Qed.

(** X7. Under the default configuration the license filter hides a project
    that has a license exactly when [get_license] does not know the
    license. *)
Theorem default_allow_list_is_the_table (p : ProjectRecord) :
  truthy (license p) = true ->
  license_not_allowed (prepare_configuration no_configuration) p
  = match get_license (the (license p)) with
    | Some _ => false
    | None => true
    end.
Proof.
  intros Hl. unfold license_not_allowed.
  cbn [prepare_configuration no_configuration allowed_licenses default].
  rewrite Hl.
  change (truthy (Some (map License.spdx_id licenses))) with true.
  cbn [andb].
  destruct (get_license (the (license p))) as [m|] eqn:G.
  - rewrite known_license_allowed; [reflexivity | |].
    + intros m' H. now apply dict_get_licenses_map in H.
    + rewrite G. discriminate.
  - destruct (mem (project_license (the (license p)))
                (allowed_licenses_simplified (map License.spdx_id licenses)))
      eqn:M; [|reflexivity].
    exfalso. unfold mem in M. apply existsb_exists in M.
    destruct M as (x & Hx & E). apply String.eqb_eq in E. subst x.
    unfold project_license in Hx. rewrite G in Hx.
    assert (H : exists l, In l licenses
                          /\ simplify_str (the (license p))
                             = simplify_str (License.spdx_id l)).
    { apply allowed_licenses_simplified_in in Hx. destruct Hx as [Hx|Hx].
      - rewrite map_map in Hx. apply in_map_iff in Hx.
        destruct Hx as (l & E & Hin). exists l. now split.
      - exact Hx. }
    destruct H as (l & Hin & E).
    unfold get_license in G. rewrite dict_get_none in G.
    apply (G l). apply licenses_map_in. split; [exact Hin|].
    unfold license_keys. right. left. now symmetry.
Qed.

(** X8. [apply_filters] writes the show flag and nothing else: the record
    it returns is the one it was given with the flag set to true or false.
    The flag does not depend on the one the record came with, and applying
    the filters a second time changes nothing. *)
Theorem apply_filters_writes_the_flag_only (p : ProjectRecord)
  (configuration : Configuration) :
  (exists b, apply_filters p configuration = set_show (Some b) p)
  /\ (forall flag,
        apply_filters (set_show flag p) configuration
        = apply_filters p configuration)
  /\ apply_filters (apply_filters p configuration) configuration
     = apply_filters p configuration.
Proof.
  assert (H : forall flag,
             apply_filters (set_show flag p) configuration
             = apply_filters p configuration).
  { intros flag. rewrite !apply_filters_eq.
    unfold hidden_by, required_missing, license_missing, license_not_allowed,
      is_dead. fields. destruct p; reflexivity. }
  split; [|split].
  - rewrite apply_filters_eq. eexists. reflexivity.
  - exact H.
  - rewrite (apply_filters_eq p configuration) at 1. apply H.
Qed.

(** ** What the merges and the adapters leave alone *)

(** X9. No merge writes over an identity field that is there: a name, a
    homepage, a license or a GitHub id that is truthy stays as it is, and
    so does a description of at least [MIN_PROJECT_DESC_LENGTH]
    characters. A GitHub URL stays when the GitHub id is there too; lines
    40-44 write the repository of a package over it when the id is not. *)
Theorem merge_keeps_what_is_there (p : ProjectRecord) (r : adapter_result) :
  (truthy (name p) = true -> name (result (merge p r)) = name p)
  /\ (truthy (homepage p) = true -> homepage (result (merge p r)) = homepage p)
  /\ (truthy (license p) = true -> license (result (merge p r)) = license p)
  /\ (truthy (github_id p) = true ->
      github_id (result (merge p r)) = github_id p)
  /\ (truthy (github_id p) = true -> truthy (github_url p) = true ->
      github_url (result (merge p r)) = github_url p)
  /\ (lacks_description (description p) = false ->
      description (result (merge p r)) = description p).
Proof.
  destruct r as [i|i|i|i]; cbn [merge].
  - rewrite merge_github_api_eq. fields.
    unfold license_of_api, github_url_of_api, description_of.
    repeat split; intros H; rewrite ?H; try reflexivity.
    intros H'. now rewrite H'.
  - rewrite merge_repo_libio_eq. fields.
    unfold license_of_repo, description_of.
    repeat split; intros H; rewrite ?H; try reflexivity.
    intros H'. now rewrite H'.
  - destruct (is_empty p) eqn:E.
    + rewrite (update_package_via_libio_empty p i E). tauto.
    + rewrite (update_package_via_libio_eq p i E). fields.
      unfold name_of_package, homepage_of_package, license_of_package,
        takes_repository, description_of.
      repeat split; intros H; rewrite ?H; try reflexivity.
  - rewrite merge_dockerhub_eq. fields. unfold description_of.
    repeat split; intros H; rewrite ?H; try reflexivity.
Qed.

(** The fields no adapter writes. *)
Definition untouched (p q : ProjectRecord) : Prop :=
  category q = category p /\ show q = show p
  /\ sourcerank_placing q = sourcerank_placing p
  /\ pypi_id q = pypi_id p /\ conda_id q = conda_id p
  /\ npm_id q = npm_id p /\ dockerhub_id q = dockerhub_id p.

Lemma untouched_refl p : untouched p p.
Proof. now repeat split. Qed.

Lemma untouched_trans p q s : untouched p q -> untouched q s -> untouched p s.
Proof. unfold untouched. intuition congruence. Qed.

Lemma untouched_merge p r : untouched p (result (merge p r)).
Proof.
  destruct r as [i|i|i|i]; cbn [merge].
  - rewrite merge_github_api_eq. now repeat split.
  - rewrite merge_repo_libio_eq. now repeat split.
  - destruct (is_empty p) eqn:E.
    + rewrite (update_package_via_libio_empty p i E). apply untouched_refl.
    + rewrite (update_package_via_libio_eq p i E). now repeat split.
  - rewrite merge_dockerhub_eq. now repeat split.
Qed.

Lemma untouched_github_api p : untouched p (result (update_via_github_api p)).
Proof.
  rewrite github_api_is_merge. unfold github_api_answer.
  destruct (truthy (github_id p) && truthy github_api_token
            && contains "/" (the (github_id p))); [|apply untouched_refl].
  destruct (github_graphql _ _); try apply untouched_refl.
  rewrite merge_all_one. apply untouched_merge.
Qed.

Lemma untouched_repo_libio p : untouched p (result (update_repo_via_libio p)).
Proof.
  rewrite repo_libio_is_merge. unfold repo_libio_answer.
  destruct (truthy (github_id p) && contains "/" (the (github_id p)));
    [|apply untouched_refl].
  destruct (search_repository _ _); try apply untouched_refl.
  rewrite merge_all_one. apply untouched_merge.
Qed.

Lemma untouched_pypi p : untouched p (result (update_via_pypi p)).
Proof.
  unfold update_via_pypi.
  destruct (negb (truthy (pypi_id p))); [apply untouched_refl|]. cbv zeta.
  destruct (search_project pypi (the (pypi_id p))) as [i|];
    [|apply untouched_refl].
  rewrite result_bind.
  match goal with
  | |- context [update_package_via_libio ?q i] =>
      assert (G : untouched p (result (update_package_via_libio q i)))
  end.
  { eapply untouched_trans; [|apply (untouched_merge _ (FromPackage i))].
    destruct (negb (truthy (pypi_url p))); now repeat split. }
  destruct (pypistats_recent (the (pypi_id p))); [|exact G].
  rewrite result_ret. unfold untouched in *. fields. exact G.
Qed.

Lemma untouched_conda p : untouched p (result (update_via_conda p)).
Proof.
  unfold update_via_conda.
  destruct (negb (truthy (conda_id p))); [apply untouched_refl|]. cbv zeta.
  destruct (search_project conda (the (conda_id p))) as [i|];
    [|apply untouched_refl].
  eapply untouched_trans; [|apply (untouched_merge _ (FromPackage i))].
  destruct (negb (truthy (conda_url p))); now repeat split.
Qed.

Lemma untouched_npm p : untouched p (result (update_via_npm p)).
Proof.
  unfold update_via_npm.
  destruct (negb (truthy (npm_id p))); [apply untouched_refl|]. cbv zeta.
  destruct (search_project npm (the (npm_id p))) as [i|];
    [|apply untouched_refl].
  eapply untouched_trans; [|apply (untouched_merge _ (FromPackage i))].
  destruct (negb (truthy (npm_url p))); now repeat split.
Qed.

Lemma untouched_dockerhub p : untouched p (result (update_via_dockerhub p)).
Proof.
  unfold update_via_dockerhub.
  destruct (negb (truthy (dockerhub_id p))); [apply untouched_refl|]. cbv zeta.
  assert (G : untouched p (if negb (truthy (dockerhub_url p))
                           then set_dockerhub_url
                                  (Some ("https://hub.docker.com/r/"
                                         ++ the (dockerhub_id p))) p
                           else p))
    by (destruct (negb (truthy (dockerhub_url p))); now repeat split).
  destruct (dockerhub_repository (the (dockerhub_id p))) as [i| |];
    [|exact G|exact G].
  eapply untouched_trans; [exact G|].
  apply (untouched_merge _ (FromDockerhub i)).
Qed.

Lemma untouched_default_updated_at p : untouched p (default_updated_at p).
Proof.
  unfold default_updated_at.
  destruct (negb (truthy (updated_at p)) && truthy (created_at p));
    now repeat split.
Qed.

Lemma enrich_result p :
  result (enrich p)
  = default_updated_at
      (result (update_via_dockerhub
         (result (update_via_npm
            (result (update_via_conda
               (result (update_via_pypi
                  (result (update_repo_via_libio
                     (result (update_via_github_api p)))))))))))).
Proof.
  unfold enrich, update_via_github. rewrite !result_bind.
  unfold default_updated_at.
  match goal with
  | |- result (if ?c then _ else _) = _ => destruct c
  end; reflexivity.
Qed.

(** X10. Enrichment, whatever the providers answer, leaves the category,
    the show flag, the tier and the ids of the package registries of a
    record as they were. *)
Theorem enrich_leaves_the_ids (p : ProjectRecord) :
  untouched p (result (enrich p)).
Proof.
  rewrite enrich_result.
  eapply untouched_trans; [apply untouched_github_api|].
  eapply untouched_trans; [apply untouched_repo_libio|].
  eapply untouched_trans; [apply untouched_pypi|].
  eapply untouched_trans; [apply untouched_conda|].
  eapply untouched_trans; [apply untouched_npm|].
  eapply untouched_trans; [apply untouched_dockerhub|].
  apply untouched_default_updated_at.
Qed.

(** X11. A record that names no GitHub repository and no package of a
    registry is enriched without any request: whatever the providers are,
    all that enrichment does is default [updated_at] to [created_at], and
    nothing is logged. *)
Theorem enrich_without_ids (p : ProjectRecord) :
  truthy (github_id p) = false ->
  truthy (pypi_id p) = false ->
  truthy (conda_id p) = false ->
  truthy (npm_id p) = false ->
  truthy (dockerhub_id p) = false ->
  enrich p = (default_updated_at p, []).
Proof.
  intros Hg Hp Hc Hn Hd.
  unfold enrich, update_via_github, update_via_github_api,
    update_repo_via_libio, update_via_pypi, update_via_conda, update_via_npm,
    update_via_dockerhub, default_updated_at.
  rewrite Hg. cbn [negb bind ret]. rewrite Hg. cbn [negb bind ret app].
  rewrite Hp. cbn [negb bind ret app]. rewrite Hc. cbn [negb bind ret app].
  rewrite Hn. cbn [negb bind ret app]. rewrite Hd. cbn [negb bind ret app].
  destruct (negb (truthy (updated_at p)) && truthy (created_at p));
    reflexivity.
Qed.

(** X12. After enrichment a record that has a date of creation has a date
    of last activity. *)
Theorem enrich_dates_the_activity (p : ProjectRecord) :
  created_at (result (enrich p)) <> None ->
  updated_at (result (enrich p)) <> None.
Proof.
  rewrite enrich_result.
  generalize (result (update_via_dockerhub
                (result (update_via_npm
                   (result (update_via_conda
                      (result (update_via_pypi
                         (result (update_repo_via_libio
                            (result (update_via_github_api p)))))))))))).
  intros q. unfold default_updated_at.
  destruct (updated_at q) as [u|] eqn:U.
  - cbn [truthy Truthy_option Truthy_datetime negb andb]. now rewrite U.
  - cbn [truthy Truthy_option negb andb].
    destruct (created_at q) as [c|] eqn:C.
    + cbn [truthy Truthy_option Truthy_datetime]. fields. discriminate.
    + cbn [truthy Truthy_option]. now rewrite C.
Qed.

(** ** The tiers of [calc_sourcerank_placing] *)

(** The parts of a number of more than 53 bits. *)
Lemma round53_parts (a : Z) :
  2 ^ 53 <= a ->
  let e := Z.log2 a - 52 in
  1 <= e /\ 0 < 2 ^ e
  /\ a = (a / 2 ^ e) * 2 ^ e + a mod 2 ^ e
  /\ 0 <= a mod 2 ^ e < 2 ^ e
  /\ 2 ^ 52 <= a / 2 ^ e < 2 ^ 53.
Proof.
  intros Ha e.
  assert (Hpos : 0 < a) by (change (2 ^ 53) with 9007199254740992 in Ha; lia).
  assert (Hl : 53 <= Z.log2 a).
  { apply Z.log2_le_pow2; [exact Hpos | exact Ha]. }
  destruct (Z.log2_spec a Hpos) as [L U].
  assert (He : 1 <= e) by (unfold e; lia).
  assert (Hp : 0 < 2 ^ e) by (apply Z.pow_pos_nonneg; lia).
  assert (E1 : 2 ^ Z.log2 a = 2 ^ 52 * 2 ^ e).
  { rewrite <- Z.pow_add_r by lia. f_equal. unfold e. lia. }
  assert (E2 : 2 ^ Z.succ (Z.log2 a) = 2 ^ 53 * 2 ^ e).
  { rewrite <- Z.pow_add_r by lia. f_equal. unfold e. lia. }
  rewrite E1 in L. rewrite E2 in U.
  split; [exact He|]. split; [exact Hp|].
  split; [rewrite Z.mul_comm; apply Z.div_mod; lia|].
  split; [apply Z.mod_pos_bound; exact Hp|].
  split.
  - apply Z.div_le_lower_bound; [exact Hp | lia].
  - apply Z.div_lt_upper_bound; [exact Hp | lia].
Qed.

Lemma round53_bounds (a : Z) :
  2 ^ 53 <= a ->
  let e := Z.log2 a - 52 in
  2 ^ 52 * 2 ^ e <= round53 a <= 2 ^ 53 * 2 ^ e.
Proof.
  intros Ha e. destruct (round53_parts a Ha) as (He & Hp & _ & _ & Hm).
  fold e in Hp, Hm. unfold round53.
  destruct (Z.ltb_spec a (2 ^ 53)); [lia|]. cbv zeta. fold e.
  destruct ((a mod 2 ^ e <? 2 ^ (e - 1))
            || (a mod 2 ^ e =? 2 ^ (e - 1)) && Z.even (a / 2 ^ e)); nia.
Qed.

Lemma round53_monotone (a b : Z) : 0 <= a <= b -> round53 a <= round53 b.
Proof.
  intros [Ha Hab].
  destruct (Z.lt_ge_cases b (2 ^ 53)) as [Hb|Hb].
  - unfold round53.
    destruct (Z.ltb_spec a (2 ^ 53)), (Z.ltb_spec b (2 ^ 53)); lia.
  - pose proof (round53_bounds b Hb) as Bb. cbv zeta in Bb.
    destruct (round53_parts b Hb) as (Heb & Hpb & Eb & Hrb & Hmb).
    destruct (Z.lt_ge_cases a (2 ^ 53)) as [Ha'|Ha'].
    + unfold round53 at 1. destruct (Z.ltb_spec a (2 ^ 53)); [|lia].
      assert (2 ^ 1 <= 2 ^ (Z.log2 b - 52)) by (apply Z.pow_le_mono_r; lia).
      change (2 ^ 1) with 2 in *.
      change (2 ^ 53) with (2 ^ 52 * 2) in Ha'. nia.
    + pose proof (round53_bounds a Ha') as Ba. cbv zeta in Ba.
      destruct (round53_parts a Ha') as (Hea & Hpa & Ea & Hra & Hma).
      assert (Hl : Z.log2 a <= Z.log2 b) by (apply Z.log2_le_mono; lia).
      destruct (Z.eq_dec (Z.log2 a) (Z.log2 b)) as [E|E].
      * unfold round53.
        destruct (Z.ltb_spec a (2 ^ 53)), (Z.ltb_spec b (2 ^ 53)); try lia.
        cbv zeta. rewrite <- E in *.
        set (P := 2 ^ (Z.log2 a - 52)) in *.
        set (h := 2 ^ (Z.log2 a - 52 - 1)).
        set (ma := a / P) in *. set (mb := b / P) in *.
        set (ra := a mod P) in *. set (rb := b mod P) in *.
        assert (Hm : ma <= mb) by (apply Z.div_le_mono; lia).
        destruct (Z.eq_dec ma mb) as [Em|Em].
        -- rewrite <- Em in *. assert (Hr : ra <= rb) by nia.
           destruct (Z.even ma);
             destruct (Z.ltb_spec ra h), (Z.ltb_spec rb h),
               (Z.eqb_spec ra h), (Z.eqb_spec rb h); cbn; nia.
        -- destruct ((ra <? h) || (ra =? h) && Z.even ma),
             ((rb <? h) || (rb =? h) && Z.even mb); nia.
      * assert (2 ^ (Z.log2 a - 52 + 1) <= 2 ^ (Z.log2 b - 52))
          by (apply Z.pow_le_mono_r; lia).
        rewrite Z.pow_add_r in H by lia. change (2 ^ 1) with 2 in H.
        change (2 ^ 53) with (2 ^ 52 * 2) in Ba. nia.
Qed.

Lemma round53_nonneg (a : Z) : 0 <= a -> 0 <= round53 a.
Proof.
  intros Ha. destruct (Z.lt_ge_cases a (2 ^ 53)) as [H|H].
  - unfold round53. destruct (Z.ltb_spec a (2 ^ 53)); lia.
  - pose proof (round53_bounds a H) as B. cbv zeta in B.
    destruct (round53_parts a H) as (_ & Hp & _). nia.
Qed.

Lemma float64_monotone (x y : Z) : x <= y -> float64 x <= float64 y.
Proof.
  intros H. unfold float64.
  pose proof (round53_nonneg (Z.abs x) (Z.abs_nonneg x)).
  pose proof (round53_nonneg (Z.abs y) (Z.abs_nonneg y)).
  destruct (Z.sgn_spec x) as [[Hx ->]|[[Hx ->]|[Hx ->]]];
    destruct (Z.sgn_spec y) as [[Hy ->]|[[Hy ->]|[Hy ->]]]; try lia.
  - pose proof (round53_monotone (Z.abs x) (Z.abs y)). lia.
  - pose proof (round53_monotone (Z.abs y) (Z.abs x)). lia.
Qed.

Lemma geq_monotone (x x' : Z) (y : Q) :
  x <= x' -> geq x y = true -> geq x' y = true.
Proof.
  intros Hx. unfold geq. rewrite !Qle_bool_iff. intros Hy.
  apply (Qle_trans _ (inject_Z (float64 x))); [exact Hy|].
  rewrite <- Zle_Qle. now apply float64_monotone.
Qed.

Lemma tier_range ranks rank : 1 <= tier ranks rank <= 3.
Proof.
  unfold tier.
  destruct (geq rank (np_percentile (rev (np_sort ranks)) 90)); [lia|].
  destruct (geq rank (np_percentile (rev (np_sort ranks)) 60)); lia.
Qed.

Lemma tier_antitone ranks x x' :
  x <= x' -> tier ranks x' <= tier ranks x.
Proof.
  intros Hx. unfold tier.
  destruct (geq x (np_percentile (rev (np_sort ranks)) 90)) eqn:H1.
  - now rewrite (geq_monotone x x' _ Hx H1).
  - destruct (geq x' (np_percentile (rev (np_sort ranks)) 90));
      [destruct (geq x (np_percentile (rev (np_sort ranks)) 60)); lia|].
    destruct (geq x (np_percentile (rev (np_sort ranks)) 60)) eqn:H2.
    + now rewrite (geq_monotone x x' _ Hx H2).
    + destruct (geq x' (np_percentile (rev (np_sort ranks)) 60)); lia.
Qed.

Lemma category_ranks_from projects c z :
  In z (category_ranks projects c) ->
  exists q, In q projects /\ ranked q = true /\ the (category q) = c
            /\ int (sourcerank q) = z.
Proof.
  unfold category_ranks. rewrite in_flat_map. intros (q & Hq & Hz).
  exists q. split; [exact Hq|].
  destruct (ranked q); cbn [andb] in Hz; [|destruct Hz].
  destruct (String.eqb (the (category q)) c) eqn:E; [|destruct Hz].
  apply String.eqb_eq in E. destruct Hz as [<-|[]]. now repeat split.
Qed.

Lemma place_tier projects p :
  In p projects -> ranked p = true ->
  sourcerank_placing (place (collect_sourceranks projects) p)
  = Some (tier (category_ranks projects (the (category p)))
            (int (sourcerank p))).
Proof.
  intros Hin Hr. rewrite (place_eq projects p Hin). unfold placed.
  rewrite Hr. now destruct p.
Qed.

(** X13. [calc_sourcerank_placing] maps every project [p] of its list to
    [place (collect_sourceranks projects) p]. Every project with a category
    and a rank gets one of the tiers 1, 2 and 3, and within a category the
    tiers follow the ranks: a project whose rank is at least the rank of
    another one of its category has a tier that is at most the other's. *)
Theorem tiers_follow_the_ranks (projects : list ProjectRecord)
  (p q : ProjectRecord) :
  In p projects -> In q projects ->
  ranked p = true -> ranked q = true ->
  the (category p) = the (category q) ->
  int (sourcerank q) <= int (sourcerank p) ->
  exists tp tq,
    sourcerank_placing (place (collect_sourceranks projects) p) = Some tp
    /\ sourcerank_placing (place (collect_sourceranks projects) q) = Some tq
    /\ 1 <= tp /\ tp <= tq /\ tq <= 3.
Proof.
  intros Hp Hq Rp Rq Hc Hle.
  rewrite (place_tier projects p Hp Rp), (place_tier projects q Hq Rq).
  rewrite Hc. eexists. eexists. split; [reflexivity|]. split; [reflexivity|].
  pose proof (tier_range (category_ranks projects (the (category q)))
                (int (sourcerank p))).
  pose proof (tier_range (category_ranks projects (the (category q)))
                (int (sourcerank q))).
  pose proof (tier_antitone (category_ranks projects (the (category q)))
                _ _ Hle).
  lia.
Qed.

Lemma ranked_place d p : ranked (place d p) = ranked p.
Proof.
  unfold place.
  destruct (negb (truthy (sourcerank p))); [reflexivity|].
  destruct (negb (truthy (category p))); [reflexivity|].
  destruct (dict_get (the (category p)) d); [|reflexivity].
  cbv zeta.
  repeat match goal with
         | |- context [if ?b then _ else _] => destruct b
         end; now destruct p.
Qed.

Lemma sourcerank_place d p : sourcerank (place d p) = sourcerank p.
Proof.
  unfold place.
  destruct (negb (truthy (sourcerank p))); [reflexivity|].
  destruct (negb (truthy (category p))); [reflexivity|].
  destruct (dict_get (the (category p)) d); [|reflexivity].
  cbv zeta.
  repeat match goal with
         | |- context [if ?b then _ else _] => destruct b
         end; now destruct p.
Qed.

Lemma place_writes_the_tier d p :
  exists t, place d p = set_sourcerank_placing t p.
Proof.
  unfold place.
  destruct (negb (truthy (sourcerank p)));
    [exists (sourcerank_placing p); now destruct p|].
  destruct (negb (truthy (category p)));
    [exists (sourcerank_placing p); now destruct p|].
  destruct (dict_get (the (category p)) d);
    [|exists (sourcerank_placing p); now destruct p].
  cbv zeta.
  repeat match goal with
         | |- context [if ?b then _ else _] => destruct b
         end; eexists; reflexivity.
Qed.

Lemma category_ranks_placed d projects c :
  category_ranks (map (place d) projects) c = category_ranks projects c.
Proof.
  unfold category_ranks. induction projects as [|p l IH]; [reflexivity|].
  cbn [map flat_map].
  now rewrite IH, ranked_place, category_place, sourcerank_place.
Qed.

Lemma place_ext d d' p :
  (forall c, dict_get c d = dict_get c d') -> place d p = place d' p.
Proof. intros H. unfold place. now rewrite H. Qed.

Lemma place_twice d p : place d (place d p) = place d p.
Proof.
  unfold place at 1.
  rewrite sourcerank_place, category_place. unfold place.
  destruct (negb (truthy (sourcerank p))); [reflexivity|].
  destruct (negb (truthy (category p))); [reflexivity|].
  destruct (dict_get (the (category p)) d); [|reflexivity].
  cbv zeta.
  repeat match goal with
         | |- context [if ?b then _ else _] => destruct b
         end; now destruct p.
Qed.

(** X14. [calc_sourcerank_placing] returns the projects in their order and
    writes nothing but the tier: a project without a category or without a
    rank keeps the tier it came with, and every other field of every
    project is as it was. The tiers do not depend on the tiers the
    projects came with, so that computing them twice gives the same list
    as computing them once. *)
Theorem calc_sourcerank_placing_writes_the_tier_only
  (projects : list ProjectRecord) :
  Forall2 (fun p p' => (exists t, p' = set_sourcerank_placing t p)
                       /\ (ranked p = false -> p' = p))
    projects (calc_sourcerank_placing projects)
  /\ calc_sourcerank_placing (calc_sourcerank_placing projects)
     = calc_sourcerank_placing projects.
Proof.
  split.
  - unfold calc_sourcerank_placing.
    generalize (collect_sourceranks projects). intros d.
    induction projects as [|p l IH]; cbn [map]; constructor; [|exact IH].
    split; [apply place_writes_the_tier|].
    unfold ranked, place. intros H.
    destruct (truthy (sourcerank p)); cbn [negb]; [|reflexivity].
    rewrite andb_true_r in H. now rewrite H.
  - unfold calc_sourcerank_placing. rewrite map_map.
    apply map_ext. intros p.
    rewrite (place_ext _ (collect_sourceranks projects)).
    + apply place_twice.
    + intros c. rewrite !collect_sourceranks_eq.
      now rewrite category_ranks_placed.
Qed.
(** ** Explicit input, entry by entry *)

(** The category of the record of an entry: the one of the entry when it
    is a category of the configuration, and "others" when the entry has
    none, or one the configuration does not know. *)
Definition category_rule (categories : odict Category.t) (project : Entry)
  (o : ProjectRecord) : Prop :=
  category o
  = if truthy (category project)
       && od_mem (the (category project)) categories
    then category project
    else Some DEFAULT_OTHERS_CATEGORY_ID.

(** The tier of the record of an entry within the list [out]: the tier of
    its rank among the ranks of its category when it has a rank, and the
    tier of the entry when it has none. *)
Definition tier_rule (out : list ProjectRecord) (project : Entry)
  (o : ProjectRecord) : Prop :=
  sourcerank_placing o
  = if ranked o
    then Some (tier (category_ranks out (the (category o)))
                 (int (sourcerank o)))
    else sourcerank_placing project.

Lemma kept_until_update configuration (project : Entry) :
  let derived := apply_filters (result (enrich project)) configuration in
  category derived = category project
  /\ sourcerank_placing derived = sourcerank_placing project.
Proof.
  cbv zeta.
  rewrite apply_filters_eq.
  assert (G : untouched project (result (enrich project))).
  { rewrite enrich_result.
    eapply untouched_trans; [apply untouched_github_api|].
    eapply untouched_trans; [apply untouched_repo_libio|].
    eapply untouched_trans; [apply untouched_pypi|].
    eapply untouched_trans; [apply untouched_conda|].
    eapply untouched_trans; [apply untouched_npm|].
    eapply untouched_trans; [apply untouched_dockerhub|].
    apply untouched_default_updated_at. }
  unfold untouched in *. fields. tauto.
Qed.

Lemma category_of_process categories configuration (project : Entry) :
  category_rule categories project
    (result (process categories configuration project)).
Proof.
  unfold category_rule, process. rewrite result_bind.
  destruct (kept_until_update configuration project) as (Hc & _).
  set (derived := apply_filters (result (enrich project)) configuration) in *.
  assert (E : category (update derived project) = category project).
  { unfold update. cbv zeta. fields. rewrite Hc.
    destruct (category project), (mem "category" (null_keys project));
      reflexivity. }
  unfold update_project_category. rewrite E.
  destruct (truthy (category project)) eqn:T; cbn [negb andb].
  - rewrite E.
    destruct (od_mem (the (category project)) categories); cbn [negb];
      [rewrite result_ret; exact E|].
    rewrite result_bind, result_ret. now fields.
  - fields.
    destruct (negb (od_mem (the (Some DEFAULT_OTHERS_CATEGORY_ID)) categories));
      rewrite ?result_bind, result_ret; now fields.
Qed.

Lemma tier_of_process categories configuration (project : Entry) :
  sourcerank_placing (result (process categories configuration project))
  = sourcerank_placing project.
Proof.
  unfold process. rewrite result_bind.
  destruct (kept_until_update configuration project) as (_ & Hp).
  set (derived := apply_filters (result (enrich project)) configuration) in *.
  assert (E : sourcerank_placing (update derived project)
              = sourcerank_placing project).
  { unfold update. cbv zeta. fields. rewrite Hp.
    destruct (sourcerank_placing project),
      (mem "sourcerank_placing" (null_keys project)); reflexivity. }
  unfold update_project_category.
  destruct (negb (truthy (category (update derived project))));
    match goal with
    | |- context [if ?b then _ else _] => destruct b
    end; rewrite ?result_bind, result_ret; fields; exact E.
Qed.

Lemma Forall2_map_of {A B : Type} (R : A -> B -> Prop) (f : A -> B)
  (l : list A) :
  (forall x, In x l -> R x (f x)) -> Forall2 R l (map f l).
Proof.
  induction l as [|x l IH]; intros H; cbn [map]; constructor.
  - apply H. now left.
  - apply IH. intros y Hy. apply H. now right.
Qed.

(** C6 (amended). On a catalog whose entries all carry a name, and with a
    sort key that [sort_projects] knows, [collect_projects_info] returns
    one record for every first occurrence of a name in the catalog, and no
    other. The record of an entry holds, in every field but the category
    and the tier, the value the entry supplies; it holds nothing where the
    entry binds the key to null, and where the entry does not have the key
    it holds the value that enrichment and the filters left. Its category
    is the one of the entry when that is a category of the configuration,
    and "others" when it is not or when the entry has none. Its tier is
    the one that [calc_sourcerank_placing] computes within the list
    returned when the record has a category and a rank, and the tier of
    the entry when it has no rank. *)
Theorem explicit_input_wins (projects : list Entry)
  (categories : odict Category.t) (configuration : Configuration) :
  (forall p : Entry, In p projects -> name p <> None) ->
  sortable configuration = true ->
  exists out l entries,
    collect_projects_info projects categories configuration = Some (out, l)
    /\ Permutation (first_occurrences projects) entries
    /\ Forall2
         (fun (project : Entry) o =>
            explicit_or_derived project
              (apply_filters (result (enrich project)) configuration) o
            /\ category_rule categories project o
            /\ tier_rule out project o)
         entries out.
Proof.
  intros Hnamed Hsort.
  destruct (collect_projects_info_eq projects categories configuration
              Hnamed Hsort) as (l & sorted & Hc & _ & Hp & _).
  apply Permutation_sym, Permutation_map_inv in Hp.
  destruct Hp as (entries & Hs & Hp).
  exists (calc_sourcerank_placing sorted), l, entries.
  split; [exact Hc|]. split; [exact Hp|].
  set (out := calc_sourcerank_placing sorted).
  set (d := collect_sourceranks sorted).
  assert (Eo : map (place d) sorted
               = map (fun p => place d
                                 (result (process categories configuration p)))
                   entries)
    by (rewrite Hs at 1; apply map_map).
  enough (G : Forall2
                (fun (project : Entry) o =>
                   explicit_or_derived project
                     (apply_filters (result (enrich project)) configuration) o
                   /\ category_rule categories project o
                   /\ tier_rule out project o)
                entries
                (map (fun p => place d
                                 (result (process categories configuration p)))
                   entries))
    by (rewrite <- Eo in G; exact G).
  apply Forall2_map_of. intros project Hin.
  set (s := result (process categories configuration project)).
  assert (Hs_in : In s sorted).
  { rewrite Hs. apply in_map_iff. now exists project. }
  split; [apply place_fields, process_fields|].
  split.
  - unfold category_rule. rewrite category_place.
    apply category_of_process.
  - unfold tier_rule.
    rewrite ranked_place, category_place, sourcerank_place.
    unfold out, calc_sourcerank_placing. rewrite category_ranks_placed.
    unfold d. rewrite (place_eq sorted s Hs_in). unfold placed.
    destruct (ranked s); [now fields|].
    apply tier_of_process.
Qed.
End Properties.

(** * Examples *)

(** ** Collaborators for the examples

    Dates are written as a count of months in decimal digits, and a
    closing Z marks a date that knows its time zone; the simplification of
    a string keeps its letters and digits in lower case, a description is
    taken as it is, the percentile is the exact interpolation, and no
    provider answers. *)

Fixpoint digits (s : string) (acc : Z) : option datetime :=
  match s with
  | EmptyString => Some (Datetime acc Naive)
  | String c r =>
      let n := Z.of_nat (nat_of_ascii c) in
      if (48 <=? n) && (n <=? 57) then digits r (10 * acc + (n - 48))
      else if Ascii.eqb c "Z" then
        match r with
        | EmptyString => Some (Datetime acc Aware)
        | _ => None
        end
      else None
  end.

Definition months (s : string) : option datetime :=
  match s with
  | EmptyString => None
  | _ => digits s 0
  end.

Fixpoint from_slash (s : string) : string :=
  match s with
  | EmptyString => EmptyString
  | String c r => if Ascii.eqb c "/" then s else from_slash r
  end.

Fixpoint path_of (s : string) : string :=
  match s with
  | EmptyString => EmptyString
  | String c r => if prefix "://" s then from_slash (substring 3 (String.length s) s)
                  else path_of r
  end.

Definition alphanumeric (c : ascii) : bool :=
  let n := nat_of_ascii c in
  ((48 <=? n) && (n <=? 57) || (97 <=? n) && (n <=? 122))%nat.

Fixpoint keep (f : ascii -> bool) (s : string) : string :=
  match s with
  | EmptyString => EmptyString
  | String c r => if f c then String c (keep f r) else keep f r
  end.

#[export] Instance plain : Externals := {|
  parse := months;
  urlparse_path := path_of;
  simplify_str := fun s => keep alphanumeric (lower s);
  process_description := fun s => s;
  diff_month := fun a b => instant a - instant b;
  now := Datetime 24300 Naive;
  np_percentile := interpolated
|}.

#[export] Instance offline : Providers := {|
  github_api_token := None;
  github_graphql := fun _ _ => Raised;
  search_repository := fun _ _ => None;
  search_project := fun _ _ => None;
  dockerhub_repository := fun _ => Raised;
  pypistats_recent := fun _ => None
|}.

(** ** Inputs *)

Definition defaults : Configuration := prepare_configuration no_configuration.

(** The scenario record with a rank of zero and the license MIT. *)
Definition zero_rank : ProjectRecord :=
  set_sourcerank (Some 0) (set_license (Some "MIT") foo).

(** The scenario record without a star count. *)
Definition unstarred : ProjectRecord := set_star_count None foo.

(** The scenario record under the name in lower case. *)
Definition foo_again : ProjectRecord := set_name (Some "foo") foo.

(** The catalog entry that has the keys of a record that hold a value. *)
Definition entry (p : ProjectRecord) : Entry := mkEntry p [].

(** An entry that binds its homepage to null and names a category that
    no configuration here declares. *)
Definition bar : Entry :=
  mkEntry
    (set_category (Some "games") (set_homepage None (set_name (Some "Bar") foo)))
    ["homepage"].

(** A GraphQL answer whose dates know their time zone. *)
Definition api_aware : GithubInfo.t :=
  GithubInfo.mk (Some "https://github.com/foo/foo") None (Some "24100Z")
    (Some "24285Z") None None None None.

(** A package that reports no star. *)
Definition zero_stars : PackageInfo.t :=
  PackageInfo.mk None None None "foo" [] None [] (Some 0) None None None.

(** A package with 200 stars, released in month 24290, whose first version
    carries a date that does not parse. *)
Definition package_200 : PackageInfo.t :=
  PackageInfo.mk (Some "https://foo.org") None None "foo" ["MIT"]
    (Some "24290") [PackageInfo.mkVersion (Some "yesterday")]
    (Some 200) (Some 0) (Some 12) None.

(** A repository of libraries.io with 180 stars, created in month 24100. *)
Definition repo_180 : RepoInfo.t :=
  RepoInfo.mk (Some "Apache-2.0") (Some "24100") (Some "24280") (Some 10)
    (Some 7) (Some 3) None (Some 180) None.

(** A GraphQL answer without stars and with a date that does not parse. *)
Definition api_no_stars : GithubInfo.t :=
  GithubInfo.mk (Some "https://github.com/foo/foo") None (Some "last year")
    (Some "24285") None None
    (Some (GithubInfo.mkConnection (Some 0))) None.

Definition tools : Category.t :=
  Category.mk (Some "tools") (Some "Tools") None None None.

(** ** The theorems at concrete inputs *)

(** C2: a record with 150 stars, a package with 200 and a repository
    with 180. *)
Lemma metrics_after_enrichment_at_foo :
  name foo <> None
  /\ (metric_of Popularity
        (result (enrich_with foo [FromPackage package_200; FromRepoLibio repo_180]))
      = merged_metric (metric_of Popularity foo)
          (map (supplied Popularity)
             [FromPackage package_200; FromRepoLibio repo_180])
      /\ (forall q r c,
            name q <> None ->
            metric_of Popularity q = Some c ->
            (forall z, supplied Popularity r = Some z -> 0 <= z) ->
            exists c',
              metric_of Popularity (result (merge q r)) = Some c' /\ c <= c')).
Proof.
  split; [discriminate|].
  apply (metrics_after_enrichment foo
           [FromPackage package_200; FromRepoLibio repo_180] Popularity).
  discriminate.
Defined.



(** C5: the catalog [Foo; foo]. *)
Lemma duplicates_are_dropped_at_foo :
  (forall p : Entry, In p [entry foo; entry foo_again] -> name p <> None)
  /\ sortable defaults = true
  /\ exists out l sorted,
       collect_projects_info [entry foo; entry foo_again]
         (prepare_categories [("tools", tools)]) defaults
       = Some (out, l)
       /\ sort_projects
            (map (fun p => result (process
                                     (prepare_categories [("tools", tools)])
                                     defaults p))
               (first_occurrences [entry foo; entry foo_again]))
            defaults
          = Some sorted
       /\ out = calc_sourcerank_placing sorted
       /\ Permutation (map name out)
            (map (fun p : Entry => name p)
               (first_occurrences [entry foo; entry foo_again]))
       /\ NoDup (map key out)
       /\ forall p : Entry,
            In p (repeated [entry foo; entry foo_again]) ->
            In (duplicated (the (name p))) l.
Proof.
  assert (H : forall p : Entry,
             In p [entry foo; entry foo_again] -> name p <> None).
  { intros p [<-|[<-|[]]]; discriminate. }
  split; [exact H|]. split; [reflexivity|].
  apply (duplicates_are_dropped [entry foo; entry foo_again]
           (prepare_categories [("tools", tools)]) defaults H).
  reflexivity.
Defined.

(** C6: the catalog [Foo; foo; Bar], where the entry Bar binds the
    homepage to null and names a category that is not declared. *)
Lemma explicit_input_wins_at_foo :
  (forall p : Entry, In p [entry foo; entry foo_again; bar] ->
                     name p <> None)
  /\ sortable defaults = true
  /\ exists out l entries,
       collect_projects_info [entry foo; entry foo_again; bar]
         (prepare_categories [("tools", tools)]) defaults
       = Some (out, l)
       /\ Permutation (first_occurrences [entry foo; entry foo_again; bar])
            entries
       /\ Forall2
            (fun (project : Entry) o =>
               explicit_or_derived project
                 (apply_filters (result (enrich project)) defaults) o
               /\ category_rule (prepare_categories [("tools", tools)])
                    project o
               /\ tier_rule out project o)
            entries out.
Proof.
  assert (H : forall p : Entry,
             In p [entry foo; entry foo_again; bar] -> name p <> None).
  { intros p [<-|[<-|[<-|[]]]]; discriminate. }
  split; [exact H|]. split; [reflexivity|].
  apply (explicit_input_wins [entry foo; entry foo_again; bar]
           (prepare_categories [("tools", tools)]) defaults H).
  reflexivity.
Defined.

(** C8: the record without a star count and the package without a star. *)
Lemma zero_is_treated_as_absent_at_foo :
  name unstarred <> None
  /\ ((supplied Popularity (FromPackage zero_stars) = Some 0 ->
       metric_of Popularity (result (merge unstarred (FromPackage zero_stars)))
       = metric_of Popularity unstarred)
      /\ (forall z,
            truthy (metric_of Popularity unstarred) = false ->
            supplied Popularity (FromPackage zero_stars) = Some z -> z <> 0 ->
            metric_of Popularity
              (result (merge unstarred (FromPackage zero_stars)))
            = Some z)).
Proof.
  split; [discriminate|].
  apply (zero_is_treated_as_absent unstarred (FromPackage zero_stars) Popularity).
  discriminate.
Defined.

(** C9: the date of creation of the GraphQL answer does not parse. *)
Lemma timestamp_failure_is_not_fatal_at_foo :
  name foo <> None
  /\ stamp_of CreatedAt (FromGithubApi api_no_stars) = Some "last year"
  /\ parse "last year" = None
  /\ ((forall q text,
         observe_updated_at "last year" text q
         = (q, [(WARNING, "Failed to parse timestamp: " ++ text)]))
      /\ (forall q,
            observe_created_at "last year" q
            = (q, [(WARNING, "Failed to parse timestamp: " ++ "last year")]))
      /\ date_of CreatedAt (result (merge foo (FromGithubApi api_no_stars)))
      = fold_left (date_rule CreatedAt)
          (other_dates CreatedAt (FromGithubApi api_no_stars))
          (date_of CreatedAt foo)
      /\ In (WARNING, "Failed to parse timestamp: " ++ shown CreatedAt "last year")
           (entries (merge foo (FromGithubApi api_no_stars)))
      /\ result (merge foo (FromGithubApi api_no_stars))
         = result (merge foo (drop_stamp CreatedAt (FromGithubApi api_no_stars)))).
Proof.
  split; [discriminate|]. split; [reflexivity|]. split; [reflexivity|].
  apply (timestamp_failure_is_not_fatal foo (FromGithubApi api_no_stars)
           CreatedAt "last year").
  - discriminate.
  - reflexivity.
  - reflexivity.
Defined.

(** C10: a visible and a hidden project of the category "tools", and one
    without a homepage. *)
Lemma buckets_by_show_flag_at_foo :
  (forall p,
     In p [set_show (Some true) foo; set_show (Some false) foo_again;
           set_homepage None foo] ->
     eligible p = true ->
     exists c, category p = Some c
               /\ od_mem c (prepare_categories [("tools", tools)]) = true)
  /\ exists categories',
       option_map result
         (categorize_projects
            [set_show (Some true) foo; set_show (Some false) foo_again;
             set_homepage None foo]
            (prepare_categories [("tools", tools)]))
       = Some categories'
       /\ filled
            [set_show (Some true) foo; set_show (Some false) foo_again;
             set_homepage None foo]
            (prepare_categories [("tools", tools)]) categories'.
Proof.
  assert (H : forall p,
             In p [set_show (Some true) foo; set_show (Some false) foo_again;
                   set_homepage None foo] ->
             eligible p = true ->
             exists c, category p = Some c
                       /\ od_mem c (prepare_categories [("tools", tools)]) = true).
  { intros p [<-|[<-|[<-|[]]]] _; exists "tools"; split; reflexivity. }
  split; [exact H|].
  apply (buckets_by_show_flag
           [set_show (Some true) foo; set_show (Some false) foo_again;
            set_homepage None foo]
           (prepare_categories [("tools", tools)]) H).
Defined.

(** ** Where the code departs from the specification *)

(** C1. Under the default configuration the scenario record with the
    license MIT and a rank of 0 is visible, although its rank is present
    and below [min_sourcerank]. *)
Lemma zero_rank_is_shown :
  sourcerank zero_rank = Some 0
  /\ min_sourcerank defaults = Some 5
  /\ show (apply_filters zero_rank defaults) = Some true.
Proof. repeat split. Qed.

(** C2. Two sources supply a star count of 0 for a record that has none:
    the largest supplied value is 0, and the record has no star count
    after the enrichment. *)
Lemma zero_supplied_leaves_no_metric :
  map (supplied Popularity) [FromGithubApi api_no_stars; FromPackage zero_stars]
  = [Some 0; Some 0]
  /\ maximum
       (present
          (metric_of Popularity unstarred
           :: map (supplied Popularity)
                [FromGithubApi api_no_stars; FromPackage zero_stars]))
     = Some 0
  /\ metric_of Popularity
       (result (enrich_with unstarred
                  [FromGithubApi api_no_stars; FromPackage zero_stars]))
     = None.
Proof. repeat split. Qed.

(** C3. A record that holds a date of last activity without a time zone,
    and a GraphQL answer whose date of the last push parses to a later
    date with a time zone: the comparison of the two raises, the record
    keeps the date it has, which is not the latest one observed, and a
    warning is logged. *)
Lemma later_date_of_another_kind_is_dropped :
  let p := set_updated_at (Some (Datetime 24000 Naive)) foo in
  parse "24285Z" = Some (Datetime 24285 Aware)
  /\ updated_seen (FromGithubApi api_aware) = [Some (Datetime 24285 Aware)]
  /\ instant (Datetime 24000 Naive) < instant (Datetime 24285 Aware)
  /\ updated_at (result (enrich_with p [FromGithubApi api_aware]))
     = Some (Datetime 24000 Naive)
  /\ In (WARNING, "Failed to parse timestamp: 24285Z")
       (entries (enrich_with p [FromGithubApi api_aware])).
Proof.
  cbv zeta. split; [reflexivity|]. split; [reflexivity|].
  split; [reflexivity|]. split; [reflexivity|].
  vm_compute. tauto.
Qed.


(** C6. The entry names the category "tools", which the configuration
    does not declare: the record returned is in the category "others".
    And an entry that supplies the tier 3 comes out with the tier that
    [calc_sourcerank_placing] computes. *)
Lemma category_is_not_protected :
  category foo = Some "tools"
  /\ option_map (fun r => map category (result r))
       (collect_projects_info [entry foo] (prepare_categories []) defaults)
     = Some [Some "others"]
  /\ option_map (fun r => map sourcerank_placing (result r))
       (collect_projects_info [entry (set_sourcerank_placing (Some 3) foo)]
          (prepare_categories [("tools", tools)]) defaults)
     = Some [Some 1].
Proof. repeat split. Qed.

(** C8. Merging a package whose star count is 0 into a record without a
    star count leaves the record without one. *)
Lemma zero_stars_are_not_merged :
  star_count unstarred = None
  /\ PackageInfo.stars zero_stars = Some 0
  /\ star_count (result (update_package_via_libio unstarred zero_stars)) = None.
Proof. repeat split. Qed.

(** ** The pipeline on the catalog [Foo; foo] *)

Example enrichment_of_foo :
  let q := result (enrich_with foo
                     [FromPackage package_200; FromRepoLibio repo_180]) in
  star_count q = Some 200
  /\ sourcerank q = Some 12
  /\ fork_count q = Some 7
  /\ license q = Some "MIT"
  /\ created_at q = Some (Datetime 24100 Naive)
  /\ updated_at q = Some (Datetime 24290 Naive).
Proof. repeat split. Qed.

Example catalog_of_foo :
  option_map (fun r => (map name (result r), entries r))
    (collect_projects_info [entry foo; entry foo_again]
       (prepare_categories [("tools", tools)]) defaults)
  = Some ([Some "Foo"], [duplicated "foo"]).
Proof. reflexivity. Qed.

Example dead_project_is_hidden :
  show (apply_filters
          (set_updated_at (Some (Datetime (24300 - 13) Naive))
             (set_license (Some "MIT") foo))
          defaults)
  = Some false
  /\ show (apply_filters
             (set_updated_at (Some (Datetime (24300 - 12) Aware))
                (set_license (Some "MIT") foo))
             defaults)
     = Some true.
Proof. split; reflexivity. Qed.

(** ** More of the code, at concrete inputs *)

(** A configuration whose [sort_by] names no key. *)
Definition sorted_by_name : Configuration :=
  mkConfiguration None None None None None None None None None None None
    None None None None None None (Some "name") None.

Lemma sort_projects_is_a_stable_sort_at_foo :
  sortable defaults = true
  /\ exists sorted,
       sort_projects [foo; foo_again] defaults = Some sorted
       /\ Permutation [foo; foo_again] sorted
       /\ descending defaults sorted
       /\ forall v,
            filter (fun p => tuple_eqb (sort_key defaults p) v) sorted
            = filter (fun p => tuple_eqb (sort_key defaults p) v)
                [foo; foo_again].
Proof.
  split; [reflexivity|].
  apply (sort_projects_is_a_stable_sort [foo; foo_again] defaults).
  reflexivity.
Defined.

Lemma sort_projects_unknown_key_at_foo :
  sortable sorted_by_name = false
  /\ sort_projects [foo; foo_again] sorted_by_name = None.
Proof.
  split; [reflexivity|].
  apply (sort_projects_unknown_key [foo; foo_again] sorted_by_name).
  reflexivity.
Defined.

Lemma update_project_category_valid_at_foo :
  od_mem DEFAULT_OTHERS_CATEGORY_ID (prepare_categories [("tools", tools)]) = true
  /\ ((exists c,
         category (result (update_project_category foo
                             (prepare_categories [("tools", tools)])))
         = Some c
         /\ od_mem c (prepare_categories [("tools", tools)]) = true)
      /\ (truthy (category foo) = true ->
          od_mem (the (category foo)) (prepare_categories [("tools", tools)])
          = true ->
          update_project_category foo (prepare_categories [("tools", tools)])
          = (foo, []))
      /\ (truthy (category foo) = false
          \/ od_mem (the (category foo)) (prepare_categories [("tools", tools)])
             = false ->
          category (result (update_project_category foo
                              (prepare_categories [("tools", tools)])))
          = Some DEFAULT_OTHERS_CATEGORY_ID)).
Proof.
  split; [reflexivity|].
  apply (update_project_category_valid foo
           (prepare_categories [("tools", tools)])).
  reflexivity.
Defined.

Lemma pipeline_fills_the_buckets_at_foo :
  (forall p : Entry, In p [entry foo; entry foo_again] -> name p <> None)
  /\ sortable defaults = true
  /\ exists out l categories',
       collect_projects_info [entry foo; entry foo_again]
         (prepare_categories [("tools", tools)]) defaults
       = Some (out, l)
       /\ option_map result
            (categorize_projects out (prepare_categories [("tools", tools)]))
          = Some categories'
       /\ filled out (prepare_categories [("tools", tools)]) categories'.
Proof.
  assert (H : forall p : Entry,
             In p [entry foo; entry foo_again] -> name p <> None).
  { intros p [<-|[<-|[]]]; discriminate. }
  split; [exact H|]. split; [reflexivity|].
  apply (pipeline_fills_the_buckets [entry foo; entry foo_again]
           [("tools", tools)]
           defaults H).
  reflexivity.
Defined.

Lemma default_allow_list_is_the_table_at_foo :
  truthy (license (set_license (Some "MIT") foo)) = true
  /\ license_not_allowed (prepare_configuration no_configuration)
       (set_license (Some "MIT") foo)
     = match get_license (the (license (set_license (Some "MIT") foo))) with
       | Some _ => false
       | None => true
       end.
Proof.
  split; [reflexivity|].
  apply (default_allow_list_is_the_table (set_license (Some "MIT") foo)).
  reflexivity.
Defined.

Lemma enrich_without_ids_at_foo :
  truthy (github_id foo) = false
  /\ truthy (pypi_id foo) = false
  /\ truthy (conda_id foo) = false
  /\ truthy (npm_id foo) = false
  /\ truthy (dockerhub_id foo) = false
  /\ enrich foo = (default_updated_at foo, []).
Proof.
  repeat (split; [reflexivity|]).
  apply (enrich_without_ids foo); reflexivity.
Defined.

Lemma enrich_dates_the_activity_at_foo :
  created_at (result (enrich (set_created_at (Some (Datetime 24000 Naive)) foo)))
  <> None
  /\ updated_at (result (enrich (set_created_at (Some (Datetime 24000 Naive)) foo)))
     <> None.
Proof.
  split; [discriminate|].
  apply (enrich_dates_the_activity (set_created_at (Some (Datetime 24000 Naive)) foo)).
  discriminate.
Defined.


Lemma tiers_follow_the_ranks_at_ten :
  In (set_sourcerank (Some 100) foo) ten_projects
  /\ In (set_sourcerank (Some 70) foo) ten_projects
  /\ int (sourcerank (set_sourcerank (Some 70) foo))
     <= int (sourcerank (set_sourcerank (Some 100) foo))
  /\ exists tp tq,
       sourcerank_placing
         (place (collect_sourceranks ten_projects)
            (set_sourcerank (Some 100) foo))
       = Some tp
       /\ sourcerank_placing
            (place (collect_sourceranks ten_projects)
               (set_sourcerank (Some 70) foo))
          = Some tq
       /\ 1 <= tp /\ tp <= tq /\ tq <= 3.
Proof.
  assert (H100 : In (set_sourcerank (Some 100) foo) ten_projects)
    by (cbn; tauto).
  assert (H70 : In (set_sourcerank (Some 70) foo) ten_projects)
    by (cbn; tauto).
  split; [exact H100|]. split; [exact H70|]. split; [cbn; lia|].
  apply (tiers_follow_the_ranks ten_projects
           (set_sourcerank (Some 100) foo) (set_sourcerank (Some 70) foo)
           H100 H70); try reflexivity.
  cbn. lia.
Defined.
